(** * Rook: OSD pod pipeline and rbd-mirror reconciler

    A shallow embedding of

    - [pkg/operator/ceph/cluster/osd/spec.go]: the shell programs run by the
      OSD init containers and [makeDeployment], which assembles the ordered
      init containers, the daemon container and the pod-level flags;
    - [pkg/operator/ceph/cluster/rbd/mirror.go]: [start] and
      [removeExtraMirrors], run against a small model of the API server.

    Helpers of the repository that live in other files (volumes.go, osd.go,
    the controller, k8sutil and kms packages) are parameters of the sections
    that use them. *)

From Stdlib Require Import String Ascii List ZArith NArith Bool Lia.
From Stdlib Require Import DecimalString HexadecimalString.
From Stdlib Require HexadecimalN.
From stdpp Require Import base strings list gmap.

Open Scope string_scope.
Open Scope list_scope.

(** ** Sequential programs with an early exit

    A shell script under [set -e] and a Go function that returns on the
    first error have the same shape: a step either goes on with a value or
    ends the whole run with a result. [W] is the state the steps share. *)

Inductive status (E A : Type) : Type :=
| Next (a : A)
| Exit (e : E).
Arguments Next {E A} a.
Arguments Exit {E A} e.

Definition Prog (E W A : Type) : Type := W -> status E A * W.

Definition ret {E W A} (a : A) : Prog E W A := fun w => (Next a, w).

Definition bind {E W A B} (m : Prog E W A) (k : A -> Prog E W B) : Prog E W B :=
  fun w => match m w with
           | (Next a, w') => k a w'
           | (Exit e, w') => (Exit e, w')
           end.

Definition exit {E W A} (e : E) : Prog E W A := fun w => (Exit e, w).
Definition get {E W} : Prog E W W := fun w => (Next w, w).
Definition modify {E W} (f : W -> W) : Prog E W unit := fun w => (Next tt, f w).

Declare Scope prog_scope.
Delimit Scope prog_scope with prog.
Notation "x <-- m ;; k" := (bind m (fun x => k))
  (at level 100, m at next level, right associativity) : prog_scope.
Notation "m ;;; k" := (bind m (fun _ => k))
  (at level 100, right associativity) : prog_scope.

(** [for x in l; do body; done], [for _, x := range l { body }] *)
Fixpoint for_in {E W A} (l : list A) (body : A -> Prog E W unit) : Prog E W unit :=
  match l with
  | [] => ret tt
  | x :: l' => bind (body x) (fun _ => for_in l' body)
  end.

(** ** Shell programs of the init containers *)

Module Shell.

(** A script ends with exit code 0 unless a command stops it. *)
Abbreviation Sh := (Prog nat).

Definition exit_code {W} (r : status nat unit * W) : nat :=
  match fst r with Next _ => 0%nat | Exit c => c end.

(** *** [blockDevMapper] *)

(** What a path names, as far as [[ -b ]] and [stat] are concerned. *)
Inductive node : Type :=
| BlockSpecial (major minor : N)
| OtherFile.

Definition hex (n : N) : string :=
  HexadecimalString.NilZero.string_of_uint (N.to_hex_uint n).

(** [[ -b "$p" ]] *)
Definition test_b (p : string) (fs : gmap string node) : bool :=
  match fs !! p with
  | Some (BlockSpecial _ _) => true
  | _ => false
  end.

(** [stat --format '%t%T' $p]: the major device type in hex immediately
    followed by the minor device type in hex (both 0 for a file that is
    not a device); [None] when the path does not exist. *)
Definition stat_tT (p : string) (fs : gmap string node) : option string :=
  match fs !! p with
  | Some (BlockSpecial ma mi) => Some (hex ma +:+ hex mi)
  | Some OtherFile => Some "00"
  | None => None
  end.

Definition CP_ARGS : list string := ["--archive"; "--dereference"; "--verbose"].

(** The script up to its last line: the result is the argument vector of
    the final [cp], or the exit of the script when a [stat] fails. *)
Definition blockDevMapper (PVC_SOURCE PVC_DEST : string)
    (fs : gmap string node) : status nat (list string) :=
  if test_b PVC_DEST fs then
    match stat_tT PVC_SOURCE fs with
    | None => Exit 1
    | Some PVC_SOURCE_MAJ_MIN =>
      match stat_tT PVC_DEST fs with
      | None => Exit 1
      | Some PVC_DEST_MAJ_MIN =>
        if String.eqb PVC_SOURCE_MAJ_MIN PVC_DEST_MAJ_MIN
        then Next ("cp" :: (CP_ARGS ++ ["--no-clobber"]) ++ [PVC_SOURCE; PVC_DEST])
        else Next ("cp" :: (CP_ARGS ++ ["--remove-destination"]) ++ [PVC_SOURCE; PVC_DEST])
      end
    end
  else Next ("cp" :: CP_ARGS ++ [PVC_SOURCE; PVC_DEST]).

(** *** [openEncryptedBlock] *)

(** The external tools the script runs. *)
Inductive cmd : Type :=
| DmsetupVersion
| DmsetupTable (name : string)
| DmsetupRemoveForce (name : string)
| CryptsetupLuksOpen (key_file block name : string)
| RmForce (path : string).

(** What the container finds when the script starts, and how the tools
    answer: [succeeds h t c] tells whether tool invocation [c] exits with
    0 after the invocations [t]. *)
Record host : Type := {
  is_block : string -> bool;
  is_dir : string -> bool;
  dm_table : string -> list string;
  succeeds : list cmd -> cmd -> bool
}.

(** What the script changes: the regular files present and the tools
    invoked so far. *)
Record world : Type := {
  files : gset string;
  trace : list cmd
}.

Definition log (c : cmd) (w : world) : world :=
  {| files := files w; trace := trace w ++ [c] |}.

(** A simple command under [set -e]. *)
Definition run (h : host) (c : cmd) : Sh world unit :=
  fun w => if succeeds h (trace w) c
           then (Next tt, log c w)
           else (Exit 1, log c w).

(** [rm -f "$p"]: the file is gone when it exits with 0; under [set -e]
    a failure, as on a read-only directory, ends the script. *)
Definition rm_f (h : host) (p : string) : Sh world unit :=
  fun w => if succeeds h (trace w) (RmForce p)
           then (Next tt, {| files := files w ∖ {[p]}; trace := trace w ++ [RmForce p] |})
           else (Exit 1, log (RmForce p) w).

(** [$(dmsetup table "$name")] as the word list of a [for]: its exit
    status is not looked at. *)
Definition dmsetup_table (h : host) (name : string) : Sh world (list string) :=
  fun w => (Next (dm_table h name), log (DmsetupTable name) w).

Definition is_digit (a : ascii) : bool :=
  (48 <=? nat_of_ascii a)%nat && (nat_of_ascii a <=? 57)%nat.

Fixpoint skip_digits (s : string) : string :=
  match s with
  | String a s' => if is_digit a then skip_digits s' else s
  | EmptyString => s
  end.

Definition starts_with_digit (s : string) : bool :=
  match s with
  | String a _ => is_digit a
  | EmptyString => false
  end.

(** [[[ "$field" =~ ^[0-9]+\:[0-9]+ ]]] *)
Definition matches_major_minor (field : string) : bool :=
  starts_with_digit field &&
  match skip_digits field with
  | String ":" rest => starts_with_digit rest
  | _ => false
  end.

Section OpenEncryptedBlock.
Variable h : host.
Variables KEY_FILE_PATH BLOCK_PATH DM_NAME DM_PATH : string.

Definition open_encrypted_block : Sh world unit :=
  (run h (CryptsetupLuksOpen KEY_FILE_PATH BLOCK_PATH DM_NAME) ;;;
   rm_f h KEY_FILE_PATH)%prog.

Definition check_field (field : string) : Sh world unit :=
  if matches_major_minor field then
    let underlaying_block := "/sys/dev/block/" +:+ field in
    if negb (is_dir h underlaying_block) then
      (run h (DmsetupRemoveForce DM_NAME) ;;;
       open_encrypted_block)%prog
    else ret tt
  else ret tt.

Definition openEncryptedBlock : Sh world unit :=
  (run h DmsetupVersion ;;;
   if is_block h DM_PATH then
     (fields <-- dmsetup_table h DM_NAME ;;
      for_in fields check_field)
   else open_encrypted_block)%prog.
End OpenEncryptedBlock.

(** *** [getKEKFromVaultWithToken] *)

(** JSON values, as much of them as the python one-liners look at. *)
#[local] Unset Elimination Schemes.
Inductive json : Type :=
| JNull
| JString (s : string)
| JArray (items : list json)
| JObject (members : list (string * json)).
#[local] Set Elimination Schemes.

(** [d[k]] on a parsed object; [json.load] keeps the last of several
    members with one name. *)
Fixpoint py_member (k : string) (members : list (string * json)) : option json :=
  match members with
  | [] => None
  | (k', v) :: rest =>
    match py_member k rest with
    | Some v' => Some v'
    | None => if String.eqb k k' then Some v else None
    end
  end.

(** [json.load(sys.stdin)[k1][k2]...]: [None] when python raises, that
    is when a key is missing or a value on the way is not an object. *)
Fixpoint py_path (keys : list string) (v : json) : option json :=
  match keys with
  | [] => Some v
  | k :: ks =>
    match v with
    | JObject members =>
      match py_member k members with
      | Some v' => py_path ks v'
      | None => None
      end
    | _ => None
    end
  end.

(** What a file holds: an HTTP response body ([None] when it is not
    JSON, as for an empty file), or what [print(v, end='')] wrote
    ([None] when nothing was written). *)
Inductive content : Type :=
| Payload (body : option json)
| Printed (v : option json).

Section GetKEKFromVaultWithToken.
(** The container's environment ([VAULT_*]); the words that the
    unquoted [$(dirname "$p")] gives, that is the output of [dirname]
    after word splitting and pathname expansion; the path [mktemp]
    prints; and the answer of [curl] to an argument vector ([None] when
    it exits non-zero). *)
Variable env : gmap string string.
Variable dirname : string -> list string.
Variable mktemp : string.
Variable curl : list string -> option (option json).
Variables KEK_NAME KEY_PATH : string.

Definition var (x : string) : string := default "" (env !! x).

(** [[ -n "$x" ]] *)
Definition test_n (x : string) : bool :=
  match var x with
  | EmptyString => false
  | String _ _ => true
  end.

Definition ARGS : list string :=
  ["--silent"; "--show-error"; "--request"; "GET";
   "--header"; "X-Vault-Token: " +:+ var "VAULT_TOKEN"]
  ++ (if test_n "VAULT_NAMESPACE"
      then ["--header"; "X-Vault-Namespace: " +:+ var "VAULT_NAMESPACE"] else [])
  ++ (if test_n "VAULT_SKIP_VERIFY" && String.eqb (var "VAULT_SKIP_VERIFY") "true"
      then ["--insecure"] else [])
  ++ (if test_n "VAULT_CACERT"
      then "--capath" :: dirname (var "VAULT_CACERT") else [])
  ++ (if test_n "VAULT_CLIENT_CERT"
      then ["--cert"; var "VAULT_CLIENT_CERT"] else [])
  ++ (if test_n "VAULT_CLIENT_KEY"
      then ["--key"; var "VAULT_CLIENT_KEY"] else [])
  ++ (if test_n "VAULT_TLS_SERVER_NAME"
      then ["--connect-to"; "::" +:+ var "VAULT_TLS_SERVER_NAME" +:+ ":"] else []).

Definition v2 : bool := String.eqb (var "VAULT_BACKEND") "v2".

Definition PYTHON_DATA_PARSE : list string :=
  if v2 then ["data"; "data"] else ["data"].

Definition VAULT_BACKEND_PATH : string :=
  if v2 then var "VAULT_BACKEND_PATH" +:+ "/data" else var "VAULT_BACKEND_PATH".

Definition url : string :=
  var "VAULT_ADDR" +:+ "/v1/" +:+ VAULT_BACKEND_PATH +:+ "/" +:+ KEK_NAME.

Definition write (p : string) (c : content) : Sh (gmap string content) unit :=
  modify (fun fs => <[p := c]> fs).

(** [python3 -c "...print(json.load(sys.stdin)<keys>, end='')" < "$p"] *)
Definition python_print (keys : list string) (p : string)
    (fs : gmap string content) : option json :=
  match fs !! p with
  | Some (Payload (Some v)) => py_path keys v
  | _ => None
  end.

(** The same one-liner as the condition of an [if]: only its exit
    status counts. *)
Definition python_ok (keys : list string) (p : string)
    (fs : gmap string content) : bool :=
  match python_print keys p fs with
  | Some _ => true
  | None => false
  end.

Definition getKEKFromVaultWithToken : Sh (gmap string content) unit :=
  (let CURL_PAYLOAD := mktemp in
   write CURL_PAYLOAD (Payload None) ;;;
   match curl (ARGS ++ [url]) with
   | Some body => write CURL_PAYLOAD (Payload body)
   | None => exit 1
   end ;;;
   fs <-- get ;;
   (if python_ok ["warnings"] CURL_PAYLOAD fs then
      if python_ok (PYTHON_DATA_PARSE ++ [KEK_NAME]) CURL_PAYLOAD fs
      then ret tt else exit 1
    else ret tt) ;;;
   (if python_ok ["errors"] CURL_PAYLOAD fs then exit 1 else ret tt) ;;;
   write KEY_PATH (Printed None) ;;;
   match python_print (PYTHON_DATA_PARSE ++ [KEK_NAME]) CURL_PAYLOAD fs with
   | Some v => write KEY_PATH (Printed (Some v))
   | None => exit 1
   end ;;;
   modify (fun fs => delete CURL_PAYLOAD fs))%prog.
End GetKEKFromVaultWithToken.

End Shell.

(** ** The OSD deployment ([osd/spec.go]) *)

Module Osd.

(** *** The scheduler's objects, as far as [makeDeployment] fills them.
    Images, environment variables, resources, probes, labels,
    annotations, placement and the scheduler name are left out: no init
    container, mount or host-namespace flag is computed from them. *)

Module VolumeMount.
Record t : Type := mk {
  Name : string;
  MountPath : string;
  SubPath : string;
  ReadOnly : bool
}.
End VolumeMount.

Module VolumeDevice.
Record t : Type := mk { Name : string; DevicePath : string }.
End VolumeDevice.

Inductive VolumeSource : Type :=
| HostPath (path : string)
| EmptyDir
| OtherSource (description : string).

Module Volume.
Record t : Type := mk { Name : string; Source : VolumeSource }.
End Volume.

(** The shell programs of the constant block, with their [%s] filled in. *)
Inductive script : Type :=
| activateOSDCode (OSD_ID OSD_UUID OSD_STORE_FLAG CV_MODE DEVICE
                   METADATA_DEVICE WAL_DEVICE : string)
| openEncryptedBlock (KEY_FILE_PATH BLOCK_PATH DM_NAME DM_PATH : string)
| getKEKFromVaultWithToken (KEK_NAME KEY_PATH : string)
| blockDevMapper (PVC_SOURCE PVC_DEST : string).

(** [Command]: absent, an argument vector, or [/bin/bash -c <script>]. *)
Inductive command : Type :=
| NoCommand
| Exec (argv : list string)
| Bash (s : script).

(** The security contexts in use: the literal built in [makeDeployment]
    (privileged, user 0, writable root), and the two helpers
    [PrivilegedContext()] and [controller.PodSecurityContext()]. *)
Inductive securityContext : Type :=
| NoSecurityContext
| PrivilegedRoot
| PrivilegedContext
| PodSecurityContext.

Module Container.
Record t : Type := mk {
  Name : string;
  Command : command;
  Args : list string;
  VolumeDevices : list VolumeDevice.t;
  VolumeMounts : list VolumeMount.t;
  SecurityContext : securityContext
}.
End Container.

Module PodSpec.
Record t : Type := mk {
  HostNetwork : bool;
  HostPID : bool;
  HostIPC : bool;
  ShareProcessNamespace : bool;
  InitContainers : list Container.t;
  Containers : list Container.t;
  Volumes : list Volume.t
}.
End PodSpec.

(** *** Inputs *)

Record osdProperties : Type := {
  pvc : string;                 (* pvc.ClaimName *)
  metadataPVC : string;         (* metadataPVC.ClaimName *)
  walPVC : string;              (* walPVC.ClaimName *)
  encrypted : bool;
  EncryptedDevice : bool;       (* storeConfig.EncryptedDevice *)
  portable : bool;
  tuneSlowDeviceClass : bool;
  tuneFastDeviceClass : bool
}.

Record OSDInfo : Type := {
  ID : Z;
  UUID : string;
  CVMode : string;
  BlockPath : string;
  Location : string;
  TopologyAffinity : string
}.

(** The fields and predicates of [c *Cluster] that are read. *)
Record Cluster : Type := {
  IsAtLeastOctopus : bool;      (* clusterInfo.CephVersion.IsAtLeastOctopus() *)
  FSID : string;
  Namespace : string;
  ConfigDir : string;
  DataDirHostPath : string;
  rookVersion : string;
  KMSIsEnabled : bool;          (* spec.Security.KeyManagementService.IsEnabled() *)
  KMSProvider : string;         (* kms.GetParam(ConnectionDetails, kms.Provider) *)
  KMSIsTokenAuthEnabled : bool;
  LogCollectorEnabled : bool;
  NetworkIsHost : bool;
  NetworkIsMultus : bool;
  IPv6 : bool
}.

Module DataPathMap.
Record t : Type := mk { ContainerDataDir : string; HostDataDir : string }.
End DataPathMap.

(** The errors [makeDeployment] returns: [errors.New], an error of a
    helper returned as it is, and [errors.Wrapf] of such an error, kept
    with its format and arguments. *)
Inductive arg : Type :=
| Int (n : Z)
| DeploymentName (id : Z).       (* fmt.Sprintf(osdAppNameFmt, id) *)

Inductive error : Type :=
| errors_New (msg : string)
| Returned (err : string)
| errors_Wrapf (err : string) (format : string) (args : list arg).

Inductive Result (A : Type) : Type :=
| Ok (a : A)
| Err (err : error).
Arguments Ok {A} a.
Arguments Err {A} err.

(** *** Constants *)

Definition rookBinariesMountPath := "/rook".
Definition rookBinariesVolumeName := "rook-binaries".
Definition activateOSDVolumeName := "activate-osd".
Definition activateOSDMountPath := "/var/lib/ceph/osd/ceph-".
Definition blockPVCMapperInitContainer := "blkdevmapper".
Definition blockEncryptionKMSGetKEKInitContainer := "encryption-kms-get-kek".
Definition blockEncryptionOpenInitContainer := "encryption-open".
Definition blockEncryptionOpenMetadataInitContainer := "encryption-open-metadata".
Definition blockEncryptionOpenWalInitContainer := "encryption-open-wal".
Definition blockPVCMapperEncryptionInitContainer := "blkdevmapper-encryption".
Definition blockPVCMapperEncryptionMetadataInitContainer := "blkdevmapper-metadata-encryption".
Definition blockPVCMapperEncryptionWalInitContainer := "blkdevmapper-wal-encryption".
Definition blockPVCMetadataMapperInitContainer := "blkdevmapper-metadata".
Definition blockPVCWalMapperInitContainer := "blkdevmapper-wal".
Definition activatePVCOSDInitContainer := "activate".
Definition expandPVCOSDInitContainer := "expand-bluefs".
Definition expandEncryptedPVCOSDInitContainer := "expand-encrypted-bluefs".
Definition encryptedPVCStatusOSDInitContainer := "encrypted-block-status".
Definition DmcryptBlockType := "block-dmcrypt".
Definition DmcryptMetadataType := "db-dmcrypt".
Definition DmcryptWalType := "wal-dmcrypt".
Definition bluestoreBlockName := "block".
Definition bluestoreMetadataName := "block.db".
Definition bluestoreWalName := "block.wal".

Definition defaultTuneFastSettings : list string :=
  ["--osd-op-num-threads-per-shard=2"; "--osd-op-num-shards=8";
   "--osd-recovery-sleep=0"; "--osd-snap-trim-sleep=0"; "--osd-delete-sleep=0";
   "--bluestore-min-alloc-size=4096"; "--bluestore-prefer-deferred-size=0";
   "--bluestore-compression-min-blob-size=8912";
   "--bluestore-compression-max-blob-size=65536";
   "--bluestore-max-blob-size=65536"; "--bluestore-cache-size=3221225472";
   "--bluestore-throttle-cost-per-io=4000"; "--bluestore-deferred-batch-ops=16"].

Definition defaultTuneSlowSettings : list string :=
  ["--osd-recovery-sleep=0.1"; "--osd-snap-trim-sleep=2"; "--osd-delete-sleep=2"].

(** *** Helpers defined elsewhere in the repository *)

Class Helpers : Type := {
  (* osd/volumes.go *)
  getPvcOSDBridgeMount : string -> VolumeMount.t;
  getPvcOSDBridgeMountActivate : string -> string -> VolumeMount.t;
  getDeviceMapperMount : VolumeMount.t;
  getDeviceMapperVolume : Volume.t * VolumeMount.t;
  getUdevVolume : Volume.t * VolumeMount.t;
  getPVCOSDVolumes : osdProperties -> string -> string -> bool -> list Volume.t;
  getEncryptionVolume : Cluster -> osdProperties -> Volume.t * VolumeMount.t;
  (* osd/encryption and kms *)
  encryptionKeyPath : string;
  encryptionDMName : string -> string -> string;
  encryptionDMPath : string -> string -> string;
  encryptionBlockDestinationCopy : string -> string -> string;
  kms_VaultVolumeAndMount : Cluster -> Volume.t * VolumeMount.t;
  kms_GenerateOSDEncryptionSecretName : string -> string;
  secrets_TypeVault : string;
  (* controller, opconfig and k8sutil *)
  controller_CephVolumeMounts : DataPathMap.t -> bool -> list VolumeMount.t;
  controller_RookVolumeMounts : DataPathMap.t -> bool -> list VolumeMount.t;
  controller_PodVolumes : DataPathMap.t -> string -> bool -> list Volume.t;
  controller_ConfigInitContainerName : string;
  controller_ChownCephDataDirsInitContainer :
    DataPathMap.t -> list VolumeMount.t -> securityContext -> Container.t;
  controller_LogCollectorContainer : string -> Cluster -> Container.t;
  opconfig_ConfigureLivenessProbe : Container.t -> Container.t;
  opconfig_LoggingFlags : list string;
  opconfig_NewFlag : string -> string -> string;
  opconfig_EtcCephDir : string;
  k8sutil_ConfigOverrideName : string;
  osdOnSDNFlag : Cluster -> list string;
  osdMetadataDeviceEnvVarName : string;
  osdWalDeviceEnvVarName : string;
  (* calls that can make [makeDeployment] fail *)
  k8sutil_ApplyMultus : Cluster -> option string;
  OwnerInfo_SetControllerReference : Cluster -> option string;
  k8sutil_GenerateNodeAffinity : string -> option string
}.

(** *** Go library functions *)

(** [strconv.Itoa] *)
Definition Itoa (n : Z) : string :=
  DecimalString.NilZero.string_of_int (Z.to_int n).

Definition nonempty (s : string) : bool := negb (String.eqb s "").

(** The elements of a path between its slashes. *)
Fixpoint split_slash (s : string) : list string :=
  match s with
  | EmptyString => [""]
  | String a s' =>
    if Ascii.eqb a "/"%char then "" :: split_slash s'
    else match split_slash s' with
         | e :: rest => String a e :: rest
         | [] => [String a ""]
         end
  end.

Fixpoint join_slash (elems : list string) : string :=
  match elems with
  | [] => ""
  | [e] => e
  | e :: rest => e +:+ "/" +:+ join_slash rest
  end.

(** The elements [path.Clean] keeps, [out] being those kept so far, last
    first: empty and [.] elements go; [..] takes the element before it
    with it, goes at the root, and stays at the start of a path that is
    not rooted. *)
Fixpoint clean_elements (rooted : bool) (out elems : list string) : list string :=
  match elems with
  | [] => rev out
  | e :: rest =>
    if String.eqb e "" || String.eqb e "." then clean_elements rooted out rest
    else if String.eqb e ".." then
      match out with
      | top :: out' =>
        if String.eqb top ".." then clean_elements rooted (e :: out) rest
        else clean_elements rooted out' rest
      | [] =>
        if rooted then clean_elements rooted out rest
        else clean_elements rooted [e] rest
      end
    else clean_elements rooted (e :: out) rest
  end.

(** [path.Clean]; on Linux [filepath.Clean] is the same. *)
Definition path_Clean (path : string) : string :=
  let rooted := match path with String "/" _ => true | _ => false end in
  let cleaned :=
    (if rooted then "/" else "")
    +:+ join_slash (clean_elements rooted [] (split_slash path)) in
  if String.eqb cleaned "" then "." else cleaned.

(** [path.Join] and [filepath.Join]: empty elements are ignored, the
    result is cleaned, and it is empty when all elements are. *)
Definition Join (elem : list string) : string :=
  match List.filter nonempty elem with
  | [] => ""
  | elems => path_Clean (join_slash elems)
  end.

Definition path_Join (dir name : string) : string := Join [dir; name].

(** [strings.ReplaceAll(s, "/", "_")] *)
Fixpoint ReplaceAll_slash (s : string) : string :=
  match s with
  | EmptyString => EmptyString
  | String a s' =>
    String (if Ascii.eqb a "/"%char then "_"%char else a) (ReplaceAll_slash s')
  end.

(** Modelled from the spec: the methods [onPVC], [onPVCWithMetadata] and
    [onPVCWithWal] of [osdProperties] (osd.go) are not in the excerpt.
    The persistent-volume topology "is selected when an
    externally-provisioned claim is attached", and the separate metadata
    and WAL volumes "are set directly from the presence of those claims";
    [getPVCEncryptionInitContainerActivate] spells the same test
    [ClaimName != ""]. *)
Definition onPVC (osdProps : osdProperties) : bool := nonempty (pvc osdProps).
Definition onPVCWithMetadata (osdProps : osdProperties) : bool :=
  nonempty (metadataPVC osdProps).
Definition onPVCWithWal (osdProps : osdProperties) : bool :=
  nonempty (walPVC osdProps).

Section Spec.
Context `{Helpers}.
Variable c : Cluster.

Definition getCopyBinariesContainer : Volume.t * Container.t :=
  let volume := Volume.mk rookBinariesVolumeName EmptyDir in
  let mount := VolumeMount.mk rookBinariesVolumeName rookBinariesMountPath "" false in
  (volume,
   Container.mk "copy-bins" NoCommand
     ["copy-binaries"; "--copy-to-dir"; rookBinariesMountPath]
     [] [mount] NoSecurityContext).

Definition getActivateOSDInitContainer (configDir namespace osdID : string)
    (osdInfo : OSDInfo) (osdProps : osdProperties) : Volume.t * Container.t :=
  let volume :=
    Volume.mk activateOSDVolumeName
      (HostPath (Join [configDir; namespace;
                       ReplaceAll_slash (BlockPath osdInfo)])) in
  let osdStore := "--bluestore" in
  let activateOSDMountPathID := activateOSDMountPath +:+ osdID in
  let volMounts :=
    [VolumeMount.mk activateOSDVolumeName activateOSDMountPathID "" false;
     VolumeMount.mk "devices" "/dev" "" false;
     VolumeMount.mk k8sutil_ConfigOverrideName opconfig_EtcCephDir "" true]
    ++ (if onPVC osdProps then [getPvcOSDBridgeMount (pvc osdProps)] else []) in
  (volume,
   Container.mk "activate"
     (Bash (activateOSDCode osdID (UUID osdInfo) osdStore (CVMode osdInfo)
              (BlockPath osdInfo) osdMetadataDeviceEnvVarName osdWalDeviceEnvVarName))
     [] [] volMounts PrivilegedContext).

Definition getPVCInitContainer (osdProps : osdProperties) : Container.t :=
  Container.mk blockPVCMapperInitContainer
    (Bash (blockDevMapper ("/" +:+ pvc osdProps) ("/mnt/" +:+ pvc osdProps)))
    []
    [VolumeDevice.mk (pvc osdProps) ("/" +:+ pvc osdProps)]
    [getPvcOSDBridgeMount (pvc osdProps)]
    PodSecurityContext.

Definition getPVCInitContainerActivate (mountPath : string)
    (osdProps : osdProperties) : Container.t :=
  let cpDestinationName :=
    if encrypted osdProps
    then encryptionBlockDestinationCopy mountPath bluestoreBlockName
    else path_Join mountPath bluestoreBlockName in
  Container.mk blockPVCMapperInitContainer
    (Bash (blockDevMapper ("/" +:+ pvc osdProps) cpDestinationName))
    []
    [VolumeDevice.mk (pvc osdProps) ("/" +:+ pvc osdProps)]
    [getPvcOSDBridgeMountActivate mountPath (pvc osdProps)]
    PodSecurityContext.

Definition generateEncryptionOpenBlockContainer
    (containerName pvcName volumeMountPVCName cryptBlockType blockType
     mountPath : string) : Container.t :=
  Container.mk containerName
    (Bash (openEncryptedBlock encryptionKeyPath
             (encryptionBlockDestinationCopy mountPath blockType)
             (encryptionDMName pvcName cryptBlockType)
             (encryptionDMPath pvcName cryptBlockType)))
    [] []
    [getPvcOSDBridgeMountActivate mountPath volumeMountPVCName; getDeviceMapperMount]
    PrivilegedContext.

Definition generateVaultGetKEK (osdProps : osdProperties) : Container.t :=
  Container.mk blockEncryptionKMSGetKEKInitContainer
    (Bash (getKEKFromVaultWithToken
             (kms_GenerateOSDEncryptionSecretName (pvc osdProps)) encryptionKeyPath))
    [] [] [] NoSecurityContext.

Definition append_mount (k : Container.t) (m : VolumeMount.t) : Container.t :=
  Container.mk (Container.Name k) (Container.Command k) (Container.Args k)
    (Container.VolumeDevices k) (Container.VolumeMounts k ++ [m])
    (Container.SecurityContext k).

Definition getPVCEncryptionOpenInitContainerActivate (mountPath : string)
    (osdProps : osdProperties) : list Container.t :=
  let containers :=
    if KMSIsEnabled c then
      if String.eqb (KMSProvider c) secrets_TypeVault then
        if KMSIsTokenAuthEnabled c then
          let getKEKFromKMSContainer := generateVaultGetKEK osdProps in
          let getKEKFromKMSContainer :=
            append_mount getKEKFromKMSContainer (snd (getEncryptionVolume c osdProps)) in
          let getKEKFromKMSContainer :=
            append_mount getKEKFromKMSContainer (snd (kms_VaultVolumeAndMount c)) in
          [getKEKFromKMSContainer]
        else []
      else []
    else [] in
  let blockContainer :=
    generateEncryptionOpenBlockContainer blockEncryptionOpenInitContainer
      (pvc osdProps) (pvc osdProps) DmcryptBlockType bluestoreBlockName mountPath in
  let blockContainer :=
    append_mount blockContainer (snd (getEncryptionVolume c osdProps)) in
  let containers := containers ++ [blockContainer] in
  let containers :=
    if onPVCWithMetadata osdProps then
      let metadataContainer :=
        generateEncryptionOpenBlockContainer blockEncryptionOpenMetadataInitContainer
          (metadataPVC osdProps) (pvc osdProps) DmcryptMetadataType
          bluestoreMetadataName mountPath in
      containers ++ [append_mount metadataContainer (snd (getEncryptionVolume c osdProps))]
    else containers in
  let containers :=
    if onPVCWithWal osdProps then
      let metadataContainer :=
        generateEncryptionOpenBlockContainer blockEncryptionOpenWalInitContainer
          (walPVC osdProps) (pvc osdProps) DmcryptWalType bluestoreWalName mountPath in
      containers ++ [append_mount metadataContainer (snd (getEncryptionVolume c osdProps))]
    else containers in
  containers.

Definition generateEncryptionCopyBlockContainer
    (containerName pvcName mountPath volumeMountPVCName blockName
     blockType : string) : Container.t :=
  Container.mk containerName
    (Bash (blockDevMapper (encryptionDMPath pvcName blockType)
             (path_Join mountPath blockName)))
    [] []
    [getPvcOSDBridgeMountActivate mountPath volumeMountPVCName; getDeviceMapperMount]
    PodSecurityContext.

Definition getPVCEncryptionInitContainerActivate (mountPath : string)
    (osdProps : osdProperties) : list Container.t :=
  let containers :=
    [generateEncryptionCopyBlockContainer blockPVCMapperEncryptionInitContainer
       (pvc osdProps) mountPath (pvc osdProps) bluestoreBlockName DmcryptBlockType] in
  let containers :=
    if nonempty (metadataPVC osdProps) then
      containers ++
      [generateEncryptionCopyBlockContainer blockPVCMapperEncryptionMetadataInitContainer
         (metadataPVC osdProps) mountPath (pvc osdProps) bluestoreMetadataName
         DmcryptMetadataType]
    else containers in
  let containers :=
    if nonempty (walPVC osdProps) then
      containers ++
      [generateEncryptionCopyBlockContainer blockPVCMapperEncryptionWalInitContainer
         (walPVC osdProps) mountPath (pvc osdProps) bluestoreWalName DmcryptWalType]
    else containers in
  containers.

Definition getPVCMetadataInitContainer (mountPath : string)
    (osdProps : osdProperties) : Container.t :=
  Container.mk blockPVCMetadataMapperInitContainer
    (Bash (blockDevMapper ("/" +:+ metadataPVC osdProps)
             ("/srv/" +:+ metadataPVC osdProps)))
    []
    [VolumeDevice.mk (metadataPVC osdProps) ("/" +:+ metadataPVC osdProps)]
    [VolumeMount.mk (metadataPVC osdProps +:+ "-bridge") "/srv" "" false]
    PodSecurityContext.

Definition getPVCMetadataInitContainerActivate (mountPath : string)
    (osdProps : osdProperties) : Container.t :=
  let cpDestinationName :=
    if encrypted osdProps
    then encryptionBlockDestinationCopy mountPath bluestoreMetadataName
    else path_Join mountPath bluestoreMetadataName in
  Container.mk blockPVCMetadataMapperInitContainer
    (Bash (blockDevMapper ("/" +:+ metadataPVC osdProps) cpDestinationName))
    []
    [VolumeDevice.mk (metadataPVC osdProps) ("/" +:+ metadataPVC osdProps)]
    [getPvcOSDBridgeMountActivate mountPath (pvc osdProps)]
    PodSecurityContext.

Definition getPVCWalInitContainer (mountPath : string)
    (osdProps : osdProperties) : Container.t :=
  Container.mk blockPVCWalMapperInitContainer
    (Bash (blockDevMapper ("/" +:+ walPVC osdProps) ("/wal/" +:+ walPVC osdProps)))
    []
    [VolumeDevice.mk (walPVC osdProps) ("/" +:+ walPVC osdProps)]
    [VolumeMount.mk (walPVC osdProps +:+ "-bridge") "/wal" "" false]
    PodSecurityContext.

Definition getPVCWalInitContainerActivate (mountPath : string)
    (osdProps : osdProperties) : Container.t :=
  let cpDestinationName :=
    if encrypted osdProps
    then encryptionBlockDestinationCopy mountPath bluestoreWalName
    else path_Join mountPath bluestoreWalName in
  Container.mk blockPVCWalMapperInitContainer
    (Bash (blockDevMapper ("/" +:+ walPVC osdProps) cpDestinationName))
    []
    [VolumeDevice.mk (walPVC osdProps) ("/" +:+ walPVC osdProps)]
    [getPvcOSDBridgeMountActivate mountPath (pvc osdProps)]
    PodSecurityContext.

Definition getActivatePVCInitContainer (osdProps : osdProperties)
    (osdID : string) : Container.t :=
  let osdDataPath := activateOSDMountPath +:+ osdID in
  let osdDataBlockPath := path_Join osdDataPath "block" in
  Container.mk activatePVCOSDInitContainer
    (Exec ["ceph-bluestore-tool"])
    ["prime-osd-dir"; "--dev"; osdDataBlockPath; "--path"; osdDataPath;
     "--no-mon-config"]
    [VolumeDevice.mk (pvc osdProps) osdDataBlockPath]
    [getPvcOSDBridgeMountActivate osdDataPath (pvc osdProps)]
    PrivilegedContext.

Definition getExpandPVCInitContainer (osdProps : osdProperties)
    (osdID : string) : Container.t :=
  let osdDataPath := activateOSDMountPath +:+ osdID in
  Container.mk expandPVCOSDInitContainer
    (Exec ["ceph-bluestore-tool"])
    ["bluefs-bdev-expand"; "--path"; osdDataPath]
    []
    [getPvcOSDBridgeMountActivate osdDataPath (pvc osdProps)]
    PrivilegedContext.

Definition getExpandEncryptedPVCInitContainer (mountPath : string)
    (osdProps : osdProperties) : Container.t :=
  let volMount := [getPvcOSDBridgeMountActivate mountPath (pvc osdProps)] in
  let volMountMapper := snd getDeviceMapperVolume in
  let volMount := volMount ++ [volMountMapper] in
  Container.mk expandEncryptedPVCOSDInitContainer
    (Exec ["cryptsetup"])
    ["--verbose"; "resize"; encryptionDMName (pvc osdProps) DmcryptBlockType]
    [] volMount PrivilegedContext.

Definition getEncryptedStatusPVCInitContainer (mountPath : string)
    (osdProps : osdProperties) : Container.t :=
  Container.mk encryptedPVCStatusOSDInitContainer
    (Exec ["cryptsetup"])
    ["--verbose"; "status"; encryptionDMName (pvc osdProps) DmcryptBlockType]
    []
    [getPvcOSDBridgeMountActivate mountPath (pvc osdProps)]
    PrivilegedContext.

Definition applyTopologyAffinity (osd : OSDInfo) : option error :=
  if String.eqb (TopologyAffinity osd) "" then None
  else match k8sutil_GenerateNodeAffinity (TopologyAffinity osd) with
       | Some err =>
         Some (errors_Wrapf err "failed to generate osd %d topology affinity"
                 [Int (ID osd)])
       | None => None
       end.
Definition withCVMode (osd : OSDInfo) (mode : string) : OSDInfo :=
  {| ID := ID osd; UUID := UUID osd; CVMode := mode; BlockPath := BlockPath osd;
     Location := Location osd; TopologyAffinity := TopologyAffinity osd |}.

(** [makeDeployment], returning the pod specification of the
    deployment's template. *)
Definition makeDeployment (osdProps : osdProperties) (osd : OSDInfo)
    (provisionConfig : DataPathMap.t) : Result PodSpec.t :=
  let hostPID := negb (IsAtLeastOctopus c) in
  let volumeMounts := controller_CephVolumeMounts provisionConfig false in
  let configVolumeMounts := controller_RookVolumeMounts provisionConfig false in
  let dataDirHostPath := if onPVC osdProps then "" else DataDirHostPath c in
  let volumes := controller_PodVolumes provisionConfig dataDirHostPath false in
  let osd := if String.eqb (CVMode osd) "" then withCVMode osd "lvm" else osd in
  let volumes :=
    if negb (onPVC osdProps) then volumes ++ [Volume.mk "devices" (HostPath "/dev")]
    else volumes in
  let volumeMounts :=
    if negb (onPVC osdProps)
    then volumeMounts ++ [VolumeMount.mk "devices" "/dev" "" false]
    else volumeMounts in
  let volumes :=
    if onPVC osdProps then
      let volumes :=
        volumes ++ getPVCOSDVolumes osdProps (ConfigDir c) (Namespace c) false in
      if encrypted osdProps && String.eqb (CVMode osd) "raw" then
        let volumes := volumes ++ [fst (getEncryptionVolume c osdProps)] in
        if KMSIsEnabled c then volumes ++ [fst (kms_VaultVolumeAndMount c)]
        else volumes
      else volumes
    else volumes in
  if (length volumes =? 0)%nat then Err (errors_New "empty volumes") else
  let osdID := Itoa (ID osd) in
  let '(doConfigInit, doBinaryCopyInit, doActivateOSDInit, command, args) :=
    if onPVC osdProps && String.eqb (CVMode osd) "lvm" then
      (true, true, false,
       [path_Join rookBinariesMountPath "tini"],
       ["--"; path_Join rookBinariesMountPath "rook"; "ceph"; "osd"; "start";
        "--"; "--foreground"; "--id"; osdID; "--fsid"; FSID c;
        "--cluster"; "ceph"; "--setuser"; "ceph"; "--setgroup"; "ceph";
        "--crush-location=" +:+ Location osd])
    else if onPVC osdProps && String.eqb (CVMode osd) "raw" then
      (false, false, false,
       ["ceph-osd"],
       ["--foreground"; "--id"; osdID; "--fsid"; FSID c;
        "--setuser"; "ceph"; "--setgroup"; "ceph";
        "--crush-location=" +:+ Location osd])
    else
      (false, false, true,
       ["ceph-osd"],
       ["--foreground"; "--id"; osdID; "--fsid"; FSID c;
        "--setuser"; "ceph"; "--setgroup"; "ceph";
        "--crush-location=" +:+ Location osd]) in
  let args :=
    if onPVC osdProps then
      if tuneSlowDeviceClass osdProps then args ++ defaultTuneSlowSettings
      else if tuneFastDeviceClass osdProps then args ++ defaultTuneFastSettings
      else args
    else args in
  let volumes := volumes ++ [fst getUdevVolume] in
  let volumeMounts := volumeMounts ++ [snd getUdevVolume] in
  let volumes :=
    if encrypted osdProps then volumes ++ [fst getDeviceMapperVolume] else volumes in
  let volumeMounts :=
    if encrypted osdProps then volumeMounts ++ [snd getDeviceMapperVolume]
    else volumeMounts in
  let '(copyBinariesVolume, copyBinariesContainer) := getCopyBinariesContainer in
  let volumes := if doBinaryCopyInit then volumes ++ [copyBinariesVolume] else volumes in
  let volumeMounts :=
    if doBinaryCopyInit
    then volumeMounts ++ firstn 1 (Container.VolumeMounts copyBinariesContainer)
    else volumeMounts in
  let '(activateOSDVolume, activateOSDContainer) :=
    getActivateOSDInitContainer (ConfigDir c) (Namespace c) osdID osd osdProps in
  let volumes := if doActivateOSDInit then volumes ++ [activateOSDVolume] else volumes in
  let volumeMounts :=
    if doActivateOSDInit
    then volumeMounts ++ firstn 1 (Container.VolumeMounts activateOSDContainer)
    else volumeMounts in
  let args := args ++ opconfig_LoggingFlags in
  let args := args ++ osdOnSDNFlag c in
  let args := if IPv6 c then args ++ [opconfig_NewFlag "ms-bind-ipv6" "true"] else args in
  let osdDataDirPath := activateOSDMountPath +:+ osdID in
  let volumeMounts :=
    if onPVC osdProps && String.eqb (CVMode osd) "lvm"
    then volumeMounts ++ [getPvcOSDBridgeMount (pvc osdProps)]
    else volumeMounts in
  let volumeMounts :=
    if onPVC osdProps && String.eqb (CVMode osd) "raw"
    then volumeMounts ++ [getPvcOSDBridgeMountActivate osdDataDirPath (pvc osdProps)]
    else volumeMounts in
  let securityContext := PrivilegedRoot in
  let hostIPC := EncryptedDevice osdProps || encrypted osdProps in
  let initContainers : list Container.t := [] in
  let initContainers :=
    if doConfigInit then
      initContainers ++
      [Container.mk controller_ConfigInitContainerName NoCommand
         ["ceph"; "osd"; "init"] [] configVolumeMounts securityContext]
    else initContainers in
  let initContainers :=
    if doBinaryCopyInit then initContainers ++ [copyBinariesContainer]
    else initContainers in
  let initContainers :=
    if onPVC osdProps && String.eqb (CVMode osd) "lvm"
    then initContainers ++ [getPVCInitContainer osdProps]
    else initContainers in
  let initContainers :=
    if onPVC osdProps && String.eqb (CVMode osd) "raw" then
      let initContainers :=
        initContainers ++ [getPVCInitContainerActivate osdDataDirPath osdProps] in
      let initContainers :=
        if onPVCWithMetadata osdProps
        then initContainers ++ [getPVCMetadataInitContainerActivate osdDataDirPath osdProps]
        else initContainers in
      let initContainers :=
        if onPVCWithWal osdProps
        then initContainers ++ [getPVCWalInitContainerActivate osdDataDirPath osdProps]
        else initContainers in
      let initContainers :=
        if encrypted osdProps then
          initContainers
          ++ getPVCEncryptionOpenInitContainerActivate osdDataDirPath osdProps
          ++ getPVCEncryptionInitContainerActivate osdDataDirPath osdProps
          ++ [getEncryptedStatusPVCInitContainer osdDataDirPath osdProps]
          ++ [getExpandEncryptedPVCInitContainer osdDataDirPath osdProps]
        else initContainers in
      initContainers
      ++ [getActivatePVCInitContainer osdProps osdID]
      ++ [getExpandPVCInitContainer osdProps osdID]
    else initContainers in
  let initContainers :=
    if doActivateOSDInit then initContainers ++ [activateOSDContainer]
    else initContainers in
  let dataPath :=
    if String.eqb (CVMode osd) "raw" && onPVC osdProps
    then activateOSDMountPath +:+ osdID else "" in
  let initContainers :=
    initContainers ++
    [controller_ChownCephDataDirsInitContainer (DataPathMap.mk dataPath "")
       volumeMounts securityContext] in
  let osdContainer :=
    Container.mk "osd" (Exec command) args [] volumeMounts securityContext in
  let containers := [osdContainer] in
  let shareProcessNamespace := LogCollectorEnabled c && negb hostPID in
  let containers :=
    if LogCollectorEnabled c
    then containers ++ [controller_LogCollectorContainer ("ceph-osd." +:+ osdID) c]
    else containers in
  let containers :=
    match containers with
    | k :: rest => opconfig_ConfigureLivenessProbe k :: rest
    | [] => []
    end in
  let podSpec :=
    PodSpec.mk (NetworkIsHost c) hostPID hostIPC shareProcessNamespace
      initContainers containers volumes in
  match (if NetworkIsHost c then None
         else if NetworkIsMultus c then k8sutil_ApplyMultus c else None) with
  | Some err => Err (Returned err)
  | None =>
    match OwnerInfo_SetControllerReference c with
    | Some err =>
      Err (errors_Wrapf err "failed to set owner reference to osd deployment %q"
             [DeploymentName (ID osd)])
    | None =>
      match (if portable osdProps then applyTopologyAffinity osd else None) with
      | Some err => Err err
      | None => Ok podSpec
      end
    end
  end.
End Spec.

End Osd.

(** ** The rbd-mirror reconciler ([rbd/mirror.go]) *)

Module Rbd.

Definition AppName := "rook-ceph-rbd-mirror".
(** minimum amount of memory in MB to run the pod *)
Definition cephRbdMirrorPodMinimumMemory : N := 512.

(** *** Objects *)

Module Deployment.
Record t : Type := mk {
  Name : string;
  Labels : gmap string string;
  Selector : gmap string string;   (* Spec.Selector.MatchLabels *)
  Template : string                (* the pod template, as its content *)
}.
End Deployment.

(** [v1.ResourceRequirements]: quantities by resource name. *)
Record ResourceRequirements : Type := {
  Limits : gmap string N;
  Requests : gmap string N
}.

Module CephRBDMirror.
Record t : Type := mk {
  Name : string;
  Namespace : string;
  Count : Z;                        (* Spec.Count *)
  Resources : ResourceRequirements  (* Spec.Resources *)
}.
End CephRBDMirror.

Record ReconcileCephRBDMirror : Type := {
  DataDirHostPath : string;           (* cephClusterSpec.DataDirHostPath *)
  SkipUpgradeChecks : bool            (* cephClusterSpec.SkipUpgradeChecks *)
}.

Inductive error : Type :=
| AlreadyExists (name : string)
| NotFound (name : string)
| Invalid (name : string)             (* a change to an immutable field *)
| Unavailable                         (* the call did not get through *)
| Failed (msg : string)               (* an error of a helper *)
| Wrap (cause : error) (msg : string).

(** [kerrors.IsAlreadyExists] *)
Definition IsAlreadyExists (e : error) : bool :=
  match e with
  | AlreadyExists _ => true
  | _ => false
  end.

(** [errors.Wrap] and [errors.Wrapf]: nil stays nil. *)
Definition Wrapf (err : option error) (msg : string) : option error :=
  match err with
  | Some e => Some (Wrap e msg)
  | None => None
  end.

Fixpoint Error_ (e : error) : string :=
  match e with
  | AlreadyExists n => n +:+ " already exists"
  | NotFound n => n +:+ " not found"
  | Invalid n => n +:+ " is invalid: field is immutable"
  | Unavailable => "unavailable"
  | Failed msg => msg
  | Wrap cause msg => msg +:+ ": " +:+ Error_ cause
  end.

(** *** The cluster the reconciler talks to *)

Inductive call : Type :=
| GenerateKeyring (entity : string)
| Create (d : Deployment.t)
| Update (d : Deployment.t)
| Delete (name : string)
| List (label value : string)
| AuthDelete (entity : string).

Inductive level : Type := Debug | Info | Warning | Error.

Inductive event : Type :=
| Called (c : call)
| Logged (l : level) (format : string) (args : list string).

Record cluster : Type := {
  deployments : list Deployment.t;    (* of the namespace, in List order *)
  keys : gset string;                 (* cephx entities *)
  events : list event                 (* calls and log lines, oldest first *)
}.

Definition record (e : event) (s : cluster) : cluster :=
  {| deployments := deployments s; keys := keys s; events := events s ++ [e] |}.

Definition with_deployments (ds : list Deployment.t) (s : cluster) : cluster :=
  {| deployments := ds; keys := keys s; events := events s |}.

Definition with_keys (ks : gset string) (s : cluster) : cluster :=
  {| deployments := deployments s; keys := ks; events := events s |}.

Definition named (name : string) (d : Deployment.t) : bool :=
  String.eqb (Deployment.Name d) name.

Definition exists_named (name : string) (s : cluster) : bool :=
  existsb (named name) (deployments s).

(** *** Helpers defined elsewhere in the repository *)

(** The values built by [config.NewDatalessDaemonDataPathMap] and
    [k8sutil.NewOwnerInfo], kept as the calls that build them. *)
Inductive DataPathMap : Type :=
| NewDatalessDaemonDataPathMap (namespace dataDirHostPath : string).

Inductive OwnerInfo : Type :=
| NewOwnerInfo (owner : CephRBDMirror.t).

Record OwnerReference : Type := { OwnerName : string }.

Record daemonConfig : Type := {
  DaemonID : string;
  ResourceName : string;
  DataPathMap_ : DataPathMap;
  ownerInfo : OwnerInfo
}.

Class Helpers : Type := {
  ResourcesKeyRBDMirror : string;
  controller_CheckPodMemory : string -> ResourceRequirements -> N -> option error;
  opcontroller_GetControllerObjectOwnerReference :
    CephRBDMirror.t -> option OwnerReference * option error;
  k8sutil_IndexToName : Z -> string;
  k8sutil_NameToIndex : string -> Z * option error;
  fullDaemonName : string -> string;
  makeDeployment : daemonConfig -> CephRBDMirror.t -> Deployment.t * option error;
  controllerutil_SetControllerReference :
    CephRBDMirror.t -> Deployment.t -> Deployment.t * option error;
  SetLastAppliedAnnotation : Deployment.t -> Deployment.t * option error
}.

Section Reconcile.
Context `{Helpers}.

(** Whether a call fails for a reason of its own (network, quota,
    permissions), given everything that happened before it. *)
Variable fault : list event -> call -> bool.

(** A call to the cluster: it is recorded; unless it fails for a
    reason of its own, [effect] decides its error and the new state. *)
Definition invoke (c : call) (effect : cluster -> option error * cluster)
    (s : cluster) : option error * cluster :=
  let s' := record (Called c) s in
  if fault (events s) c then (Some Unavailable, s') else effect s'.

(** [Deployments(ns).Create]: a name is taken at most once. *)
Definition Deployments_Create (d : Deployment.t) : cluster -> option error * cluster :=
  invoke (Create d) (fun s =>
    if exists_named (Deployment.Name d) s
    then (Some (AlreadyExists (Deployment.Name d)), s)
    else (None, with_deployments (deployments s ++ [d]) s)).

(** [Deployments(ns).Delete] *)
Definition Deployments_Delete (name : string) : cluster -> option error * cluster :=
  invoke (Delete name) (fun s =>
    if exists_named name s
    then (None, with_deployments (List.filter (fun d => negb (named name d)) (deployments s)) s)
    else (Some (NotFound name), s)).

(** [Deployments(ns).List] with an equality label selector. *)
Definition Deployments_List (label value : string)
    (s : cluster) : (list Deployment.t * option error) * cluster :=
  let r := invoke (List label value) (fun s => (None, s)) s in
  match fst r with
  | Some e => (([], Some e), snd r)
  | None =>
    ((List.filter (fun d => bool_decide (Deployment.Labels d !! label = Some value))
        (deployments s), None), snd r)
  end.

(** Modelled from the spec: [mon.UpdateCephDeploymentAndWait] is not in
    the excerpt. An in-place update replaces the live resource of the
    same name, and is "rejected because an immutable selector-like
    field would need to change". *)
Definition updateDeploymentAndWait (d : Deployment.t) : cluster -> option error * cluster :=
  invoke (Update d) (fun s =>
    match List.find (named (Deployment.Name d)) (deployments s) with
    | None => (Some (NotFound (Deployment.Name d)), s)
    | Some live =>
      if bool_decide (Deployment.Selector live = Deployment.Selector d)
      then (None,
            with_deployments
              (List.map (fun x => if named (Deployment.Name d) x then d else x)
                 (deployments s)) s)
      else (Some (Invalid (Deployment.Name d)), s)
    end).

(** Modelled from the spec: [generateKeyring] (rbd/config.go) is not in
    the excerpt; "credential/keyring issuance" is an external
    collaborator. Its effect on the cluster is the credential of the
    daemon, the one [removeExtraMirrors] deletes by the same name. *)
Definition generateKeyring (daemonConf : daemonConfig) : cluster -> option error * cluster :=
  let entity := fullDaemonName (DaemonID daemonConf) in
  invoke (GenerateKeyring entity) (fun s => (None, with_keys (keys s ∪ {[entity]}) s)).

(** Modelled from the spec: [client.AuthDelete] is not in the excerpt;
    it removes the "associated credential" of an instance. *)
Definition client_AuthDelete (entity : string) : cluster -> option error * cluster :=
  invoke (AuthDelete entity) (fun s => (None, with_keys (keys s ∖ {[entity]}) s)).

(** Go statements inside a function that returns an [error]. *)
Abbreviation Go := (Prog (option error) cluster).

Definition do {A} (f : cluster -> A * cluster) : Go A :=
  fun s => let r := f s in (Next (fst r), snd r).

Definition logf (l : level) (format : string) (args : list string) : Go unit :=
  modify (record (Logged l format args)).

(** The value a function returns: the one of its [return], nil when
    it runs to its end. *)
Definition returned {A} (r : status (option error) A * cluster) : option error * cluster :=
  match r with
  | (Next _, s) => (None, s)
  | (Exit e, s) => (e, s)
  end.
Definition removeExtraMirrors_loop (deploy : Deployment.t) : Go unit :=
  match Deployment.Labels deploy !! "rbd-mirror" with
  | None =>
    logf Warning "unrecognized rbdmirror %s" [Deployment.Name deploy]
  | Some daemonName =>
    match k8sutil_NameToIndex daemonName with
    | (_, Some _) =>
      logf Warning "unrecognized rbd-mirror %s with label %s"
        [Deployment.Name deploy; daemonName]
    | (index, None) =>
      (* This is rook-ceph-rbd-mirror-a, we must not touch it! *)
      if (index =? 0)%Z then ret tt
      else
        (logf Info "removing legacy rbd-mirror %q" [daemonName] ;;;
         err <-- do (Deployments_Delete (Deployment.Name deploy)) ;;
         match err with
         | Some e =>
           logf Warning "failed to delete rbd-mirror %q. %v" [daemonName; Error_ e]
         | None => ret tt
         end ;;;
         (* remove the cephx key *)
         err <-- do (client_AuthDelete (fullDaemonName daemonName)) ;;
         match err with
         | Some e => exit (Some e)
         | None => ret tt
         end ;;;
         logf Info "removed legacy rbd-mirror %q" [daemonName])%prog
    end
  end.

Definition removeExtraMirrors_body (cephRBDMirror : CephRBDMirror.t) : Go unit :=
  (d <-- do (Deployments_List "app" AppName) ;;
   let '(d_Items, err) := (d : list Deployment.t * option error) in
   match err with
   | Some e => exit (Some (Wrap e "failed to get mirrors"))
   | None => ret tt
   end ;;;
   if (1 <? length d_Items)%nat
   then for_in d_Items removeExtraMirrors_loop
   else ret tt)%prog.

Definition removeExtraMirrors (cephRBDMirror : CephRBDMirror.t)
    (s : cluster) : option error * cluster :=
  returned (removeExtraMirrors_body cephRBDMirror s).

Variable r : ReconcileCephRBDMirror.

Definition start_body (cephRBDMirror : CephRBDMirror.t) : Go unit :=
  ((* Validate pod's memory if specified *)
   match controller_CheckPodMemory ResourcesKeyRBDMirror
           (CephRBDMirror.Resources cephRBDMirror) cephRbdMirrorPodMinimumMemory with
   | Some err => exit (Some (Wrap err "error checking pod memory"))
   | None => ret tt
   end ;;;
   let '(ref, err) := opcontroller_GetControllerObjectOwnerReference cephRBDMirror in
   (if bool_decide (err <> None) || bool_decide (ref = None)
    then exit (Wrapf err "failed to get controller %q owner reference")
    else ret tt) ;;;
   logf Info "configure rbd-mirroring with %d workers"
     [DecimalString.NilZero.string_of_int (Z.to_int (CephRBDMirror.Count cephRBDMirror))] ;;;
   let ownerInfo := NewOwnerInfo cephRBDMirror in
   let daemonID := k8sutil_IndexToName 0 in
   let resourceName := AppName +:+ "-" +:+ daemonID in
   let daemonConf :=
     {| DaemonID := daemonID;
        ResourceName := resourceName;
        DataPathMap_ :=
          NewDatalessDaemonDataPathMap (CephRBDMirror.Namespace cephRBDMirror)
            (DataDirHostPath r);
        ownerInfo := ownerInfo |} in
   err <-- do (generateKeyring daemonConf) ;;
   match err with
   | Some e => exit (Some (Wrap e "failed to generate keyring for %q"))
   | None => ret tt
   end ;;;
   (* Start the deployment *)
   let '(d, err) := makeDeployment daemonConf cephRBDMirror in
   match err with
   | Some e => exit (Some (Wrap e "failed to create rbd-mirror deployment"))
   | None => ret tt
   end ;;;
   (* Set owner ref to cephRBDMirror object *)
   let '(d, err) := controllerutil_SetControllerReference cephRBDMirror d in
   match err with
   | Some e =>
     exit (Some (Wrap e "failed to set owner reference for ceph rbd-mirror deployment %q"))
   | None => ret tt
   end ;;;
   (* Set the deployment hash as an annotation *)
   let '(d, err) := SetLastAppliedAnnotation d in
   match err with
   | Some e => exit (Some (Wrap e "failed to set annotation for deployment %q"))
   | None => ret tt
   end ;;;
   err <-- do (Deployments_Create d) ;;
   match err with
   | Some e =>
     (if negb (IsAlreadyExists e)
      then exit (Some (Wrap e "failed to create %q deployment"))
      else ret tt) ;;;
     logf Info "deployment for rbd-mirror %q already exists. updating if needed"
       [resourceName] ;;;
     err <-- do (updateDeploymentAndWait d) ;;
     match err with
     | Some e =>
       (* fail could be an issue updating label selector (immutable),
          so try del and recreate *)
       logf Debug
         "updateDeploymentAndWait failed for rbd-mirror %q. Attempting del-and-recreate. %v"
         [resourceName; Error_ e] ;;;
       err <-- do (Deployments_Delete (CephRBDMirror.Name cephRBDMirror)) ;;
       match err with
       | Some e =>
         exit (Some (Wrap e
           "failed to delete rbd-mirror %q during del-and-recreate update attempt"))
       | None => ret tt
       end ;;;
       err <-- do (Deployments_Create d) ;;
       match err with
       | Some e =>
         exit (Some (Wrap e
           "failed to recreate rbd-mirror deployment %q during del-and-recreate update attempt"))
       | None => ret tt
       end
     | None => ret tt
     end
   | None => ret tt
   end ;;;
   logf Info "%q deployment started" [resourceName] ;;;
   (* Remove extra rbd-mirror deployments if necessary *)
   err <-- do (removeExtraMirrors cephRBDMirror) ;;
   match err with
   | Some e => logf Error "failed to remove extra mirrors. %v" [Error_ e]
   | None => ret tt
   end ;;;
   exit None)%prog.

Definition start (cephRBDMirror : CephRBDMirror.t)
    (s : cluster) : option error * cluster :=
  returned (start_body cephRBDMirror s).
End Reconcile.

End Rbd.

(** ** Concrete inputs

    One instance of each family of helpers and a few inputs, to run the
    definitions above on. *)

Module Sample.

(** *** OSD *)

#[export] Instance osdHelpers : Osd.Helpers := {|
  Osd.getPvcOSDBridgeMount claim :=
    Osd.VolumeMount.mk (claim +:+ "-bridge") "/mnt" "" false;
  Osd.getPvcOSDBridgeMountActivate mountPath claim :=
    Osd.VolumeMount.mk (claim +:+ "-bridge") mountPath "" false;
  Osd.getDeviceMapperMount := Osd.VolumeMount.mk "dev-mapper" "/dev/mapper" "" false;
  Osd.getDeviceMapperVolume :=
    (Osd.Volume.mk "dev-mapper" (Osd.HostPath "/dev/mapper"),
     Osd.VolumeMount.mk "dev-mapper" "/dev/mapper" "" false);
  Osd.getUdevVolume :=
    (Osd.Volume.mk "run-udev" (Osd.HostPath "/run/udev"),
     Osd.VolumeMount.mk "run-udev" "/run/udev" "" false);
  Osd.getPVCOSDVolumes osdProps _ _ _ :=
    [Osd.Volume.mk (Osd.pvc osdProps) (Osd.OtherSource "claim");
     Osd.Volume.mk (Osd.pvc osdProps +:+ "-bridge") Osd.EmptyDir];
  Osd.getEncryptionVolume _ _ :=
    (Osd.Volume.mk "osd-encryption-key" (Osd.OtherSource "secret"),
     Osd.VolumeMount.mk "osd-encryption-key" "/etc/ceph" "" true);
  Osd.encryptionKeyPath := "/etc/ceph/luks_key";
  Osd.encryptionDMName pvcName blockType := pvcName +:+ "-" +:+ blockType;
  Osd.encryptionDMPath pvcName blockType :=
    "/dev/mapper/" +:+ pvcName +:+ "-" +:+ blockType;
  Osd.encryptionBlockDestinationCopy mountPath blockType :=
    mountPath +:+ "/" +:+ blockType +:+ "-tmp";
  Osd.kms_VaultVolumeAndMount _ :=
    (Osd.Volume.mk "vault" (Osd.OtherSource "projected"),
     Osd.VolumeMount.mk "vault" "/etc/vault" "" true);
  Osd.kms_GenerateOSDEncryptionSecretName pvcName :=
    "rook-ceph-osd-encryption-key-" +:+ pvcName;
  Osd.secrets_TypeVault := "vault";
  Osd.controller_CephVolumeMounts _ _ :=
    [Osd.VolumeMount.mk "rook-data" "/var/lib/rook" "" false];
  Osd.controller_RookVolumeMounts _ _ :=
    [Osd.VolumeMount.mk "rook-data" "/var/lib/rook" "" false];
  Osd.controller_PodVolumes _ _ _ := [Osd.Volume.mk "rook-data" Osd.EmptyDir];
  Osd.controller_ConfigInitContainerName := "config-init";
  Osd.controller_ChownCephDataDirsInitContainer _ volumeMounts securityContext :=
    Osd.Container.mk "chown-container-data-dir" (Osd.Exec ["chown"]) [] []
      volumeMounts securityContext;
  Osd.controller_LogCollectorContainer _ _ :=
    Osd.Container.mk "log-collector" (Osd.Exec ["/bin/bash"]) [] [] []
      Osd.NoSecurityContext;
  Osd.opconfig_ConfigureLivenessProbe k := k;
  Osd.opconfig_LoggingFlags := ["--log-to-stderr=true"];
  Osd.opconfig_NewFlag k v := "--" +:+ k +:+ "=" +:+ v;
  Osd.opconfig_EtcCephDir := "/etc/ceph";
  Osd.k8sutil_ConfigOverrideName := "rook-config-override";
  Osd.osdOnSDNFlag _ := [];
  Osd.osdMetadataDeviceEnvVarName := "ROOK_METADATA_DEVICE";
  Osd.osdWalDeviceEnvVarName := "ROOK_WAL_DEVICE";
  Osd.k8sutil_ApplyMultus _ := None;
  Osd.OwnerInfo_SetControllerReference _ := None;
  Osd.k8sutil_GenerateNodeAffinity _ := None
|}.

(** A cluster with a Vault key-management service and token
    authentication. *)
Definition vaultCluster : Osd.Cluster := {|
  Osd.IsAtLeastOctopus := true;
  Osd.FSID := "4f0e0a0b";
  Osd.Namespace := "rook-ceph";
  Osd.ConfigDir := "/var/lib/rook";
  Osd.DataDirHostPath := "/var/lib/rook";
  Osd.rookVersion := "rook/ceph:v1.5";
  Osd.KMSIsEnabled := true;
  Osd.KMSProvider := "vault";
  Osd.KMSIsTokenAuthEnabled := true;
  Osd.LogCollectorEnabled := false;
  Osd.NetworkIsHost := false;
  Osd.NetworkIsMultus := false;
  Osd.IPv6 := false
|}.

(** An encrypted OSD on a claim with a separate metadata claim. *)
Definition encryptedWithMetadata : Osd.osdProperties := {|
  Osd.pvc := "set1-data-0";
  Osd.metadataPVC := "set1-metadata-0";
  Osd.walPVC := "";
  Osd.encrypted := true;
  Osd.EncryptedDevice := false;
  Osd.portable := false;
  Osd.tuneSlowDeviceClass := false;
  Osd.tuneFastDeviceClass := false
|}.

(** A plain OSD on a local device. *)
Definition localDevice : Osd.osdProperties := {|
  Osd.pvc := "";
  Osd.metadataPVC := "";
  Osd.walPVC := "";
  Osd.encrypted := false;
  Osd.EncryptedDevice := false;
  Osd.portable := false;
  Osd.tuneSlowDeviceClass := false;
  Osd.tuneFastDeviceClass := false
|}.

Definition osd0 (mode blockPath : string) : Osd.OSDInfo := {|
  Osd.ID := 0;
  Osd.UUID := "6a2c9b58";
  Osd.CVMode := mode;
  Osd.BlockPath := blockPath;
  Osd.Location := "root=default host=node1";
  Osd.TopologyAffinity := ""
|}.

Definition dataPathMap : Osd.DataPathMap.t :=
  Osd.DataPathMap.mk "/var/lib/ceph/osd/ceph-0" "/var/lib/rook/osd0".

Definition initContainerNames (r : Osd.Result Osd.PodSpec.t) : list string :=
  match r with
  | Osd.Ok pod => map Osd.Container.Name (Osd.PodSpec.InitContainers pod)
  | Osd.Err _ => []
  end.

(** *** rbd-mirror *)

Definition IndexToName (index : Z) : string :=
  String (ascii_of_nat (97 + Z.to_nat index)) "".

Definition NameToIndex (name : string) : Z * option Rbd.error :=
  match name with
  | String a "" =>
    let n := nat_of_ascii a in
    if (97 <=? n)%nat && (n <=? 122)%nat then (Z.of_nat (n - 97), None)
    else (-1, Some (Rbd.Failed "invalid name"))%Z
  | _ => (-1, Some (Rbd.Failed "invalid name"))%Z
  end.

Definition mirrorDeployment (name daemon selector : string) : Rbd.Deployment.t :=
  Rbd.Deployment.mk name
    (<["app" := Rbd.AppName]> (<["rbd-mirror" := daemon]> ∅))
    (<["app" := Rbd.AppName]> (<["rbd-mirror" := selector]> ∅))
    "rbd-mirror pod".

(** A memory check that refuses a memory limit or request that is set
    and lies below the minimum, given in MB; quantities are in bytes. *)
Definition MbTob (mb : N) : N := (mb * 1024 * 1024)%N.

Definition memoryBelow (quantities : gmap string N) (minimumMb : N) : bool :=
  match quantities !! "memory" with
  | Some q => (q <? MbTob minimumMb)%N
  | None => false
  end.

Definition CheckPodMemory (name : string) (resources : Rbd.ResourceRequirements)
    (cephPodMinimumMemory : N) : option Rbd.error :=
  if memoryBelow (Rbd.Limits resources) cephPodMinimumMemory
     || memoryBelow (Rbd.Requests resources) cephPodMinimumMemory
  then Some (Rbd.Failed ("not enough memory for " +:+ name))
  else None.

#[export] Instance rbdHelpers : Rbd.Helpers := {|
  Rbd.ResourcesKeyRBDMirror := "rbdmirror";
  Rbd.controller_CheckPodMemory := CheckPodMemory;
  Rbd.opcontroller_GetControllerObjectOwnerReference m :=
    (Some {| Rbd.OwnerName := Rbd.CephRBDMirror.Name m |}, None);
  Rbd.k8sutil_IndexToName := IndexToName;
  Rbd.k8sutil_NameToIndex := NameToIndex;
  Rbd.fullDaemonName name := "client.rbd-mirror." +:+ name;
  Rbd.makeDeployment conf _ :=
    (mirrorDeployment (Rbd.ResourceName conf) (Rbd.DaemonID conf) (Rbd.DaemonID conf), None);
  Rbd.controllerutil_SetControllerReference _ d := (d, None);
  Rbd.SetLastAppliedAnnotation d := (d, None)
|}.

Definition reconciler : Rbd.ReconcileCephRBDMirror :=
  {| Rbd.DataDirHostPath := "/var/lib/rook"; Rbd.SkipUpgradeChecks := false |}.

Definition mirror (name : string) (limits : gmap string N) : Rbd.CephRBDMirror.t :=
  Rbd.CephRBDMirror.mk name "rook-ceph" 1
    {| Rbd.Limits := limits; Rbd.Requests := ∅ |}.

Definition live (ds : list Rbd.Deployment.t) (ks : list string) : Rbd.cluster :=
  {| Rbd.deployments := ds; Rbd.keys := list_to_set ks; Rbd.events := [] |}.

Definition noFault : list Rbd.event -> Rbd.call -> bool := fun _ _ => false.

Definition calls (s : Rbd.cluster) : list Rbd.call :=
  omap (fun e => match e with Rbd.Called c => Some c | _ => None end) (Rbd.events s).

Definition names (s : Rbd.cluster) : list string :=
  map Rbd.Deployment.Name (Rbd.deployments s).

(** The deployment [start] wants, and three live ones: the canonical
    instance with another selector, and the instances [b] and [c]. *)
Definition desired : Rbd.Deployment.t := mirrorDeployment "rook-ceph-rbd-mirror-a" "a" "a".
Definition outdated : Rbd.Deployment.t := mirrorDeployment "rook-ceph-rbd-mirror-a" "a" "0".
Definition mirrorB : Rbd.Deployment.t := mirrorDeployment "rook-ceph-rbd-mirror-b" "b" "b".
Definition mirrorC : Rbd.Deployment.t := mirrorDeployment "rook-ceph-rbd-mirror-c" "c" "c".

(** A deployment of the class without the [rbd-mirror] label. *)
Definition unlabelled : Rbd.Deployment.t :=
  Rbd.Deployment.mk "rook-ceph-rbd-mirror-x" (<["app" := Rbd.AppName]> ∅)
    (<["app" := Rbd.AppName]> ∅) "rbd-mirror pod".

(** The deletion of the deployment of [b] fails. *)
Definition deleteFault : list Rbd.event -> Rbd.call -> bool :=
  fun _ c =>
    match c with
    | Rbd.Delete name => String.eqb name "rook-ceph-rbd-mirror-b"
    | _ => false
    end.

Definition threeMirrors : Rbd.cluster :=
  live [desired; mirrorB; mirrorC]
    ["client.rbd-mirror.a"; "client.rbd-mirror.b"; "client.rbd-mirror.c"].

(** The deletion of the credential of [b] fails. *)
Definition authFault : list Rbd.event -> Rbd.call -> bool :=
  fun _ c =>
    match c with
    | Rbd.AuthDelete entity => String.eqb entity "client.rbd-mirror.b"
    | _ => false
    end.

End Sample.

(** ** Vocabulary of the properties *)

Module ShellProps.
Import Shell.

(** A word of the mapping's table names a device whose sysfs directory
    is gone. *)
Definition vanished (h : host) (field : string) : bool :=
  matches_major_minor field && negb (is_dir h ("/sys/dev/block/" +:+ field)).




(** A host on which the mapped device is not there yet and [cryptsetup]
    rejects the key. *)
Definition rejectingHost : host := {|
  is_block := fun _ => false;
  is_dir := fun _ => true;
  dm_table := fun _ => [];
  succeeds := fun _ c => match c with CryptsetupLuksOpen _ _ _ => false | _ => true end
|}.

(** A host on which the mapped device is already open over [8:16];
    [present] tells whether that device is still there. *)
Definition openedHost (present : bool) : host := {|
  is_block := fun p => String.eqb p "/dev/mapper/set1-data-0-block-dmcrypt";
  is_dir := fun p => if String.eqb p "/sys/dev/block/8:16" then present else true;
  dm_table := fun _ =>
    ["0"; "20967424"; "crypt"; "aes-xts-plain64"; ":64:logon:cryptsetup:key";
     "0"; "8:16"; "4096"; "1"; "allow_discards"];
  succeeds := fun _ _ => true
|}.

Definition keyFile := "/etc/ceph/luks_key".
Definition blockTmp := "/var/lib/ceph/osd/ceph-0/block-tmp".
Definition dmName := "set1-data-0-block-dmcrypt".
Definition dmPath := "/dev/mapper/set1-data-0-block-dmcrypt".

Definition keyPresent : world := {| files := {[keyFile]}; trace := [] |}.

Definition runOpen (h : host) : status nat unit * world :=
  openEncryptedBlock h keyFile blockTmp dmName dmPath keyPresent.

Definition vaultEnv : gmap string string :=
  <["VAULT_ADDR" := "https://vault:8200"]> (<["VAULT_BACKEND_PATH" := "rook"]> ∅).

(** The key-retrieval script against a Vault that answers [answer]. *)
Definition runGetKEK (answer : option (option json)) : status nat unit * gmap string content :=
  getKEKFromVaultWithToken vaultEnv (fun p => [p]) "/tmp/tmp.Xq3" (fun _ => answer)
    "rook-ceph-osd-encryption-key-set1-data-0" keyFile ∅.

End ShellProps.

Module OsdProps.
Import Osd.

Section WithHelpers.
Context `{Helpers}.

(** The mode [makeDeployment] works with: an empty [CVMode] stands
    for [lvm]. *)
Definition effectiveMode (osd : OSDInfo) : string :=
  if String.eqb (CVMode osd) "" then "lvm" else CVMode osd.

Definition osdDataDirPath (osd : OSDInfo) : string :=
  activateOSDMountPath +:+ Itoa (ID osd).

(** The bridge of the primary claim: the one of the data directory in
    raw mode, the old one otherwise. *)
Definition bridge (osdProps : osdProperties) (osd : OSDInfo) : VolumeMount.t :=
  if String.eqb (effectiveMode osd) "raw"
  then getPvcOSDBridgeMountActivate (osdDataDirPath osd) (pvc osdProps)
  else getPvcOSDBridgeMount (pvc osdProps).

(** The mounts of the init containers that are no bridge: the
    device-mapper directory, the key and Vault volumes, the staged
    binaries, and the three fixed mounts of the local activation. *)
Definition otherMounts (c : Cluster) (osdProps : osdProperties)
    (osd : OSDInfo) : list VolumeMount.t :=
  [getDeviceMapperMount;
   snd getDeviceMapperVolume;
   snd (getEncryptionVolume c osdProps);
   snd (kms_VaultVolumeAndMount c);
   VolumeMount.mk rookBinariesVolumeName rookBinariesMountPath "" false;
   VolumeMount.mk activateOSDVolumeName (osdDataDirPath osd) "" false;
   VolumeMount.mk "devices" "/dev" "" false;
   VolumeMount.mk k8sutil_ConfigOverrideName opconfig_EtcCephDir "" true].

(** The two init containers whose mounts the controller package hands
    in: configuration and ownership. *)
Definition configInit (provisionConfig : DataPathMap.t) : Container.t :=
  Container.mk controller_ConfigInitContainerName NoCommand
    ["ceph"; "osd"; "init"] [] (controller_RookVolumeMounts provisionConfig false)
    PrivilegedRoot.

Definition fromController (provisionConfig : DataPathMap.t) (k : Container.t) : Prop :=
  k = configInit provisionConfig
  \/ exists dataPathMap volumeMounts,
       k = controller_ChownCephDataDirsInitContainer dataPathMap volumeMounts
             PrivilegedRoot.

(** The key-retrieval container as [getPVCEncryptionOpenInitContainerActivate]
    completes it. *)
Definition keyRetrieval (c : Cluster) (osdProps : osdProperties) : Container.t :=
  append_mount
    (append_mount (generateVaultGetKEK osdProps) (snd (getEncryptionVolume c osdProps)))
    (snd (kms_VaultVolumeAndMount c)).

(** The init containers that have no bridge to mount: binary staging,
    key retrieval, and the activation of a device that is no claim. *)
Definition bridgeless (c : Cluster) (osdProps : osdProperties) (k : Container.t) : Prop :=
  k = snd getCopyBinariesContainer
  \/ k = keyRetrieval c osdProps
  \/ (onPVC osdProps = false /\ Container.Name k = "activate").

Definition singleBridge (c : Cluster) (osdProps : osdProperties) (osd : OSDInfo)
    (provisionConfig : DataPathMap.t) (k : Container.t) : Prop :=
  fromController provisionConfig k
  \/ (Forall (fun m => m = bridge osdProps osd \/ In m (otherMounts c osdProps osd))
        (Container.VolumeMounts k)
      /\ (In (bridge osdProps osd) (Container.VolumeMounts k)
          \/ bridgeless c osdProps k)).
(** The order of steps the specification's end-to-end example gives,
    before the ownership step: key retrieval, block open, metadata
    open, block copy, metadata copy, encrypted status, encrypted
    resize, prime activation, capacity expansion. *)
Definition exampleOrder : list string :=
  [blockEncryptionKMSGetKEKInitContainer;
   blockEncryptionOpenInitContainer;
   blockEncryptionOpenMetadataInitContainer;
   blockPVCMapperEncryptionInitContainer;
   blockPVCMapperEncryptionMetadataInitContainer;
   encryptedPVCStatusOSDInitContainer;
   expandEncryptedPVCOSDInitContainer;
   activatePVCOSDInitContainer;
   expandPVCOSDInitContainer].

(** The steps of an encrypted raw-mode OSD on a claim with a metadata
    claim, no WAL claim, and a Vault with token authentication, before
    the ownership step. *)
Definition encryptedRawSteps (c : Cluster) (osdProps : osdProperties)
    (osd : OSDInfo) : list Container.t :=
  let d := osdDataDirPath osd in
  let keyMount := snd (getEncryptionVolume c osdProps) in
  [getPVCInitContainerActivate d osdProps;
   getPVCMetadataInitContainerActivate d osdProps;
   keyRetrieval c osdProps;
   append_mount
     (generateEncryptionOpenBlockContainer blockEncryptionOpenInitContainer
        (pvc osdProps) (pvc osdProps) DmcryptBlockType bluestoreBlockName d)
     keyMount;
   append_mount
     (generateEncryptionOpenBlockContainer blockEncryptionOpenMetadataInitContainer
        (metadataPVC osdProps) (pvc osdProps) DmcryptMetadataType
        bluestoreMetadataName d)
     keyMount;
   generateEncryptionCopyBlockContainer blockPVCMapperEncryptionInitContainer
     (pvc osdProps) d (pvc osdProps) bluestoreBlockName DmcryptBlockType;
   generateEncryptionCopyBlockContainer blockPVCMapperEncryptionMetadataInitContainer
     (metadataPVC osdProps) d (pvc osdProps) bluestoreMetadataName DmcryptMetadataType;
   getEncryptedStatusPVCInitContainer d osdProps;
   getExpandEncryptedPVCInitContainer d osdProps;
   getActivatePVCInitContainer osdProps (Itoa (ID osd));
   getExpandPVCInitContainer osdProps (Itoa (ID osd))].
End WithHelpers.
End OsdProps.

Module RbdProps.
Import Rbd.

Section WithHelpers.
Context `{Helpers}.

(** The deployment carries the label of the daemon's class. *)
Definition class (d : Deployment.t) : bool :=
  bool_decide (Deployment.Labels d !! "app" = Some AppName).

(** The daemon name of an instance the cleanup removes: its
    [rbd-mirror] label, when that is a name of an index other than 0. *)
Definition staleName (d : Deployment.t) : option string :=
  match Deployment.Labels d !! "rbd-mirror" with
  | Some daemonName =>
    match k8sutil_NameToIndex daemonName with
    | (index, None) => if (index =? 0)%Z then None else Some daemonName
    | (_, Some _) => None
    end
  | None => None
  end.

Definition isStale (d : Deployment.t) : bool :=
  match staleName d with
  | Some _ => true
  | None => false
  end.

Definition stale (d : Deployment.t) : bool := class d && isStale d.

(** The credentials of the stale instances among [l]. *)
Definition credentials (l : list Deployment.t) : gset string :=
  list_to_set (omap (fun d => fullDaemonName <$> staleName d) l).

(** Some instance of [l] that the cleanup removes bears the name of [x]. *)
Definition removedBy (l : list Deployment.t) (x : Deployment.t) : bool :=
  existsb (fun d => isStale d && named (Deployment.Name d) x) l.

Definition mirrors (s : cluster) : list Deployment.t :=
  List.filter class (deployments s).
(** The call that opens the cleanup pass. *)
Definition listing : event := Called (List "app" AppName).

(** The calls among the events, oldest first. *)
Definition called (es : list event) : list call :=
  omap (fun e => match e with Called c => Some c | Logged _ _ _ => None end) es.

(** The two deletions the cleanup attempts for a stale instance. *)
Definition attempts (d : Deployment.t) : list call :=
  match staleName d with
  | Some daemonName =>
    [Delete (Deployment.Name d); AuthDelete (fullDaemonName daemonName)]
  | None => []
  end.



(** A statement that does not list the mirrors. *)
Definition quiet {A} (p : Prog (option error) cluster A) : Prop :=
  forall s, ~ In listing (events s) -> ~ In listing (events (snd (p s))).

(** Statements that return nil if they got to list the mirrors. *)
Definition nilAfterListing (p : Prog (option error) cluster unit) : Prop :=
  forall s, ~ In listing (events s) ->
            In listing (events (snd (p s))) -> fst (returned (p s)) = None.
End WithHelpers.
End RbdProps.

(** ** Vocabulary of the further properties *)

Module ShellEffects.
Import Shell.

Definition isSome {A} (o : option A) : bool :=
  match o with
  | Some _ => true
  | None => false
  end.

(** What a run of the open script may add to the trace and do to the
    files: it reads the version and the table; only when [stale] holds
    may it remove the mapping, run [luksOpen] and delete the key file. *)
Definition touches (K B N : string) (stale : Prop) (w w' : world) : Prop :=
  (files w' = files w \/ files w' = files w ∖ {[K]})
  /\ forall c, In c (trace w') ->
       In c (trace w)
       \/ c = DmsetupVersion \/ c = DmsetupTable N
       \/ (stale /\ (c = DmsetupRemoveForce N \/ c = CryptsetupLuksOpen K B N
                     \/ c = RmForce K)).

Fixpoint all_digits (s : string) : bool :=
  match s with
  | EmptyString => true
  | String a s' => is_digit a && all_digits s'
  end.

(** A number as [dmsetup table] prints it. *)
Definition dec (n : N) : string :=
  DecimalString.NilZero.string_of_uint (N.to_uint n).
End ShellEffects.

Module OsdPlan.
Import Osd OsdProps.
Section WithHelpers.
Context `{Helpers}.

(** The plan is the one of raw mode on a claim. *)
Definition rawOnPVC (osdProps : osdProperties) (osd : OSDInfo) : bool :=
  onPVC osdProps && String.eqb (effectiveMode osd) "raw".

Definition lvmOnPVC (osdProps : osdProperties) (osd : OSDInfo) : bool :=
  onPVC osdProps && String.eqb (effectiveMode osd) "lvm".

(** The ownership step over the mounts of a daemon container. *)
Definition ownership (osdProps : osdProperties) (osd : OSDInfo)
    (daemon : Container.t) : Container.t :=
  controller_ChownCephDataDirsInitContainer
    (DataPathMap.mk (if rawOnPVC osdProps osd then osdDataDirPath osd else "") "")
    (Container.VolumeMounts daemon) PrivilegedRoot.

(** The steps of raw mode on a claim, before the ownership step. *)
Definition rawSteps (c : Cluster) (osdProps : osdProperties) (osd : OSDInfo)
    : list Container.t :=
  let d := osdDataDirPath osd in
  [getPVCInitContainerActivate d osdProps]
  ++ (if onPVCWithMetadata osdProps
      then [getPVCMetadataInitContainerActivate d osdProps] else [])
  ++ (if onPVCWithWal osdProps
      then [getPVCWalInitContainerActivate d osdProps] else [])
  ++ (if encrypted osdProps
      then getPVCEncryptionOpenInitContainerActivate c d osdProps
           ++ getPVCEncryptionInitContainerActivate d osdProps
           ++ [getEncryptedStatusPVCInitContainer d osdProps;
               getExpandEncryptedPVCInitContainer d osdProps]
      else [])
  ++ [getActivatePVCInitContainer osdProps (Itoa (ID osd));
      getExpandPVCInitContainer osdProps (Itoa (ID osd))].

(** The OSD [makeDeployment] works with: an empty mode is set to [lvm]. *)
Definition effectiveOSD (osd : OSDInfo) : OSDInfo :=
  if String.eqb (CVMode osd) "" then withCVMode osd "lvm" else osd.

(** The init containers before the ownership step, by mode. *)
Definition planSteps (c : Cluster) (osdProps : osdProperties) (osd : OSDInfo)
    (provisionConfig : DataPathMap.t) : list Container.t :=
  if lvmOnPVC osdProps osd then
    [configInit provisionConfig; snd getCopyBinariesContainer;
     getPVCInitContainer osdProps]
  else if rawOnPVC osdProps osd then rawSteps c osdProps osd
  else [snd (getActivateOSDInitContainer (ConfigDir c) (Namespace c) (Itoa (ID osd))
               (effectiveOSD osd) osdProps)].

Definition isnil {A} (l : list A) : bool :=
  match l with
  | [] => true
  | _ :: _ => false
  end.

(** The volumes are empty when [makeDeployment] checks them: the OSD is on a
    claim, neither the controller nor the claims give a volume, and there is
    no key volume. *)
Definition emptyVolumes (c : Cluster) (osdProps : osdProperties) (osd : OSDInfo)
    (provisionConfig : DataPathMap.t) : bool :=
  onPVC osdProps
  && isnil (controller_PodVolumes provisionConfig "" false)
  && isnil (getPVCOSDVolumes osdProps (ConfigDir c) (Namespace c) false)
  && negb (encrypted osdProps && String.eqb (effectiveMode osd) "raw").

(** The error of the network attachment, which is asked for on a Multus
    network that is not the host's. *)
Definition attachmentError (c : Cluster) : option string :=
  if NetworkIsHost c then None
  else if NetworkIsMultus c then k8sutil_ApplyMultus c else None.

(** The error of the node affinity, which is asked for for a portable
    OSD with a topology affinity. *)
Definition affinityError (osdProps : osdProperties) (osd : OSDInfo) : option string :=
  if portable osdProps && nonempty (TopologyAffinity osd)
  then k8sutil_GenerateNodeAffinity (TopologyAffinity osd) else None.

(** The error of the first check that fails. *)
Definition failure (c : Cluster) (osdProps : osdProperties) (osd : OSDInfo)
    (provisionConfig : DataPathMap.t) : option error :=
  if emptyVolumes c osdProps osd provisionConfig
  then Some (errors_New "empty volumes")
  else match attachmentError c with
       | Some err => Some (Returned err)
       | None =>
         match OwnerInfo_SetControllerReference c with
         | Some err =>
           Some (errors_Wrapf err "failed to set owner reference to osd deployment %q"
                   [DeploymentName (ID osd)])
         | None =>
           match affinityError osdProps osd with
           | Some err =>
             Some (errors_Wrapf err "failed to generate osd %d topology affinity"
                     [Int (ID osd)])
           | None => None
           end
         end
       end.

(** The devices of an OSD on claims: the claim, the name of the device
    in the data directory, the type of its mapping, and the names of its
    three steps: the copy of the raw device, the open step, and the copy
    of the opened device. *)
Record device : Type := {
  claim : string;
  blockName : string;
  cryptType : string;
  copyName : string;
  openName : string;
  encryptedCopyName : string
}.

Definition devices (osdProps : osdProperties) : list device :=
  [{| claim := pvc osdProps; blockName := bluestoreBlockName;
      cryptType := DmcryptBlockType;
      copyName := blockPVCMapperInitContainer;
      openName := blockEncryptionOpenInitContainer;
      encryptedCopyName := blockPVCMapperEncryptionInitContainer |}]
  ++ (if onPVCWithMetadata osdProps
      then [{| claim := metadataPVC osdProps; blockName := bluestoreMetadataName;
               cryptType := DmcryptMetadataType;
               copyName := blockPVCMetadataMapperInitContainer;
               openName := blockEncryptionOpenMetadataInitContainer;
               encryptedCopyName := blockPVCMapperEncryptionMetadataInitContainer |}]
      else [])
  ++ (if onPVCWithWal osdProps
      then [{| claim := walPVC osdProps; blockName := bluestoreWalName;
               cryptType := DmcryptWalType;
               copyName := blockPVCWalMapperInitContainer;
               openName := blockEncryptionOpenWalInitContainer;
               encryptedCopyName := blockPVCMapperEncryptionWalInitContainer |}]
      else []).

(** The name of a step and what it runs. *)
Definition step (k : Container.t) : string * command :=
  (Container.Name k, Container.Command k).

(** The three steps of an encrypted device, with data directory [d]: the
    raw device is copied to a file; that file is opened, with the key
    file, as the mapping of the claim; the mapping is copied to the
    device's name in the data directory. *)
Definition copyStep (d : string) (dev : device) : string * command :=
  (copyName dev,
   Bash (blockDevMapper ("/" +:+ claim dev)
           (encryptionBlockDestinationCopy d (blockName dev)))).

Definition openStep (d : string) (dev : device) : string * command :=
  (openName dev,
   Bash (openEncryptedBlock encryptionKeyPath
           (encryptionBlockDestinationCopy d (blockName dev))
           (encryptionDMName (claim dev) (cryptType dev))
           (encryptionDMPath (claim dev) (cryptType dev)))).

Definition encryptedCopyStep (d : string) (dev : device) : string * command :=
  (encryptedCopyName dev,
   Bash (blockDevMapper (encryptionDMPath (claim dev) (cryptType dev))
           (path_Join d (blockName dev)))).

(** The copies of the raw devices, the first of the raw steps. *)
Definition deviceCopies (d : string) (osdProps : osdProperties) : list Container.t :=
  [getPVCInitContainerActivate d osdProps]
  ++ (if onPVCWithMetadata osdProps
      then [getPVCMetadataInitContainerActivate d osdProps] else [])
  ++ (if onPVCWithWal osdProps
      then [getPVCWalInitContainerActivate d osdProps] else []).

(** Key retrieval is a step of its own: the key is in a Vault, read with
    a token. *)
Definition retrievesKey (c : Cluster) : bool :=
  KMSIsEnabled c && String.eqb (KMSProvider c) secrets_TypeVault
  && KMSIsTokenAuthEnabled c.

(** The security context each kind of command runs under. *)
Definition contextOf (cmd : command) : securityContext :=
  match cmd with
  | Bash (blockDevMapper _ _) => PodSecurityContext
  | Bash (getKEKFromVaultWithToken _ _) => NoSecurityContext
  | NoCommand => NoSecurityContext
  | _ => PrivilegedContext
  end.

(** The names [spec.go] gives to the init containers it builds. *)
Definition ownNames : list string :=
  ["copy-bins"; "activate"; blockPVCMapperInitContainer;
   blockEncryptionKMSGetKEKInitContainer; blockEncryptionOpenInitContainer;
   blockEncryptionOpenMetadataInitContainer; blockEncryptionOpenWalInitContainer;
   blockPVCMapperEncryptionInitContainer; blockPVCMapperEncryptionMetadataInitContainer;
   blockPVCMapperEncryptionWalInitContainer; blockPVCMetadataMapperInitContainer;
   blockPVCWalMapperInitContainer; expandPVCOSDInitContainer;
   expandEncryptedPVCOSDInitContainer; encryptedPVCStatusOSDInitContainer].
End WithHelpers.
End OsdPlan.

Module RbdRuns.
Import Rbd RbdProps.
Section WithHelpers.
Context `{Helpers}.

(** The contexts [start] wraps the errors it returns in. *)
Definition startMessages : list string :=
  ["error checking pod memory";
   "failed to get controller %q owner reference";
   "failed to generate keyring for %q";
   "failed to create rbd-mirror deployment";
   "failed to set owner reference for ceph rbd-mirror deployment %q";
   "failed to set annotation for deployment %q";
   "failed to create %q deployment";
   "failed to delete rbd-mirror %q during del-and-recreate update attempt";
   "failed to recreate rbd-mirror deployment %q during del-and-recreate update attempt"].

Definition wrapped (e : option error) : Prop :=
  match e with
  | Some (Wrap _ msg) => In msg startMessages
  | Some _ => False
  | None => True
  end.

(** A statement that only returns wrapped errors. *)
Definition exitsWrapped {A} (p : Prog (option error) cluster A) : Prop :=
  forall s e s', p s = (Exit e, s') -> wrapped e.

(** The configuration of the daemon [start] runs. *)
Definition daemonConf (r : ReconcileCephRBDMirror) (m : CephRBDMirror.t) : daemonConfig :=
  {| DaemonID := k8sutil_IndexToName 0;
     ResourceName := AppName +:+ "-" +:+ k8sutil_IndexToName 0;
     DataPathMap_ :=
       NewDatalessDaemonDataPathMap (CephRBDMirror.Namespace m) (DataDirHostPath r);
     ownerInfo := NewOwnerInfo m |}.

(** [start] passes its checks and has [d] to apply. *)
Definition prepared (r : ReconcileCephRBDMirror) (m : CephRBDMirror.t)
    (d : Deployment.t) : Prop :=
  controller_CheckPodMemory ResourcesKeyRBDMirror (CephRBDMirror.Resources m)
    cephRbdMirrorPodMinimumMemory = None
  /\ (exists ref, opcontroller_GetControllerObjectOwnerReference m = (Some ref, None))
  /\ exists d0 d1,
       makeDeployment (daemonConf r m) m = (d0, None)
       /\ controllerutil_SetControllerReference m d0 = (d1, None)
       /\ SetLastAppliedAnnotation d1 = (d, None).

(** [d] takes the place of the deployment of its name, or is added. *)
Definition upsert (d : Deployment.t) (ds : list Deployment.t) : list Deployment.t :=
  if existsb (named (Deployment.Name d)) ds
  then map (fun x => if named (Deployment.Name d) x then d else x) ds
  else ds ++ [d].

(** What the cleanup leaves when no call fails. *)
Definition cleaned (ds : list Deployment.t) : list Deployment.t :=
  if (1 <? length (List.filter class ds))%nat
  then List.filter (fun x => negb (stale x)) ds
  else ds.
End WithHelpers.
End RbdRuns.

Module Scenario.
Import Sample.

(** Helpers whose owner reference is nil, without an error. *)
Definition unownedHelpers : Rbd.Helpers := {|
  Rbd.ResourcesKeyRBDMirror := "rbdmirror";
  Rbd.controller_CheckPodMemory := CheckPodMemory;
  Rbd.opcontroller_GetControllerObjectOwnerReference _ := (None, None);
  Rbd.k8sutil_IndexToName := IndexToName;
  Rbd.k8sutil_NameToIndex := NameToIndex;
  Rbd.fullDaemonName name := "client.rbd-mirror." +:+ name;
  Rbd.makeDeployment conf _ :=
    (mirrorDeployment (Rbd.ResourceName conf) (Rbd.DaemonID conf) (Rbd.DaemonID conf), None);
  Rbd.controllerutil_SetControllerReference _ d := (d, None);
  Rbd.SetLastAppliedAnnotation d := (d, None)
|}.

(** The claim re-attached as [8:32], the node of the bridge still [8:16]. *)
Definition reattached : gmap string Shell.node :=
  <["/set1-data-0" := Shell.BlockSpecial 8 32]>
    (<["/mnt/set1-data-0" := Shell.BlockSpecial 8 16]> ∅).
End Scenario.

(** * Properties *)

Section ShellTheorems.
Import Shell ShellProps.

(** [blockDevMapper]: the three cases of the copy policy, in terms of
    what the script compares. *)
Lemma blockDevMapper_plain src dst (fs : gmap string node) :
  test_b dst fs = false ->
  blockDevMapper src dst fs = Next ("cp" :: CP_ARGS ++ [src; dst]).
Proof. intros Hb. unfold blockDevMapper. now rewrite Hb. Qed.

Lemma blockDevMapper_same_device src dst (fs : gmap string node) ma mi :
  fs !! src = Some (BlockSpecial ma mi) ->
  fs !! dst = Some (BlockSpecial ma mi) ->
  blockDevMapper src dst fs
  = Next ("cp" :: (CP_ARGS ++ ["--no-clobber"]) ++ [src; dst]).
Proof.
  intros Hs Hd. unfold blockDevMapper, test_b, stat_tT.
  rewrite Hs, Hd. now rewrite String.eqb_refl.
Qed.

Lemma blockDevMapper_changed_rendering src dst (fs : gmap string node) ma mi ma' mi' :
  fs !! src = Some (BlockSpecial ma mi) ->
  fs !! dst = Some (BlockSpecial ma' mi') ->
  hex ma +:+ hex mi <> hex ma' +:+ hex mi' ->
  blockDevMapper src dst fs
  = Next ("cp" :: (CP_ARGS ++ ["--remove-destination"]) ++ [src; dst]).
Proof.
  intros Hs Hd Hne. unfold blockDevMapper, test_b, stat_tT.
  rewrite Hs, Hd. destruct (String.eqb_spec (hex ma +:+ hex mi) (hex ma' +:+ hex mi')).
  - contradiction.
  - reflexivity.
Qed.

(** C2, at the input where the code departs from it: the claim re-attached
    at device 129:0 while the destination still is the node of 8:16. The
    script renders both as [810], takes the devices for equal and passes
    [--no-clobber], so the stale node is kept. *)
Theorem C2_blockDevMapper_keeps_stale_node :
  let fs : gmap string node :=
    <["/set1-data-0" := BlockSpecial 129 0]>
      (<["/mnt/set1-data-0" := BlockSpecial 8 16]> ∅) in
  (129, 0)%N <> (8, 16)%N
  /\ stat_tT "/set1-data-0" fs = Some "810"
  /\ stat_tT "/mnt/set1-data-0" fs = Some "810"
  /\ blockDevMapper "/set1-data-0" "/mnt/set1-data-0" fs
     = Next ["cp"; "--archive"; "--dereference"; "--verbose"; "--no-clobber";
             "/set1-data-0"; "/mnt/set1-data-0"].
Proof. repeat split; try discriminate; vm_compute; reflexivity. Qed.

(** *** [openEncryptedBlock] *)

Lemma check_field_present h K B N f w :
  vanished h f = false -> check_field h K B N f w = (Next tt, w).
Proof.
  unfold vanished, check_field. intros Hv.
  destruct (matches_major_minor f); [|reflexivity].
  simpl in Hv. now rewrite Hv.
Qed.

Lemma for_in_present h K B N l w :
  Forall (fun f => vanished h f = false) l ->
  for_in l (check_field h K B N) w = (Next tt, w).
Proof.
  induction 1 as [|f l Hf _ IH]; [reflexivity|].
  simpl. unfold bind. rewrite (check_field_present _ _ _ _ _ _ Hf). apply IH.
Qed.

Lemma for_in_app {E W A} (l1 l2 : list A) (body : A -> Prog E W unit) w :
  for_in (l1 ++ l2) body w = bind (for_in l1 body) (fun _ => for_in l2 body) w.
Proof.
  revert w. induction l1 as [|x l1 IH]; intros w; [reflexivity|].
  simpl. unfold bind in *. destruct (body x w) as [[[]|e] w']; [apply IH|reflexivity].
Qed.

Lemma openEncryptedBlock_after_version h K B N P w :
  succeeds h (trace w) DmsetupVersion = true ->
  openEncryptedBlock h K B N P w
  = (if is_block h P
     then (fields <-- dmsetup_table h N ;; for_in fields (check_field h K B N))%prog
     else open_encrypted_block h K B N) (log DmsetupVersion w).
Proof.
  intros Hv. unfold openEncryptedBlock, bind at 1. unfold run at 1. now rewrite Hv.
Qed.

(** C7. Once [dmsetup version] has run: with no mapped device the script
    opens the encrypted block; with a mapped device whose underlying
    devices are all still there it ends with exit code 0 and has only
    read the table; with a mapped device one of whose underlying devices
    is gone it force-removes the mapping and then opens the block
    again. *)
Theorem C7_openEncryptedBlock_reentrant h K B N P w :
  succeeds h (trace w) DmsetupVersion = true ->
  let w1 := log DmsetupVersion w in
  (is_block h P = false ->
   openEncryptedBlock h K B N P w = open_encrypted_block h K B N w1)
  /\ (is_block h P = true ->
      Forall (fun f => vanished h f = false) (dm_table h N) ->
      openEncryptedBlock h K B N P w = (Next tt, log (DmsetupTable N) w1))
  /\ (is_block h P = true ->
      forall pre f post,
        dm_table h N = pre ++ f :: post ->
        Forall (fun f => vanished h f = false) pre ->
        vanished h f = true ->
        Forall (fun f => vanished h f = false) post ->
        openEncryptedBlock h K B N P w
        = (run h (DmsetupRemoveForce N) ;;; open_encrypted_block h K B N)%prog
            (log (DmsetupTable N) w1)).
Proof.
  intros Hv w1. rewrite !(openEncryptedBlock_after_version _ _ _ _ _ _ Hv). fold w1.
  repeat split.
  - intros Hb. now rewrite Hb.
  - intros Hb Hall. rewrite Hb. unfold bind, dmsetup_table.
    now apply for_in_present.
  - intros Hb pre f post Htab Hpre Hf Hpost. rewrite Hb.
    unfold bind at 1. unfold dmsetup_table. rewrite Htab, for_in_app.
    unfold bind at 1. rewrite (for_in_present _ _ _ _ _ _ Hpre). simpl.
    unfold bind at 1. unfold check_field at 1.
    unfold vanished in Hf. apply andb_prop in Hf as [Hm Hd]. rewrite Hm, Hd.
    destruct ((run h (DmsetupRemoveForce N);;; open_encrypted_block h K B N)%prog
                (log (DmsetupTable N) w1)) as [[[]|e] w'] eqn:Hrun; [|reflexivity].
    now apply for_in_present.
Qed.

(** *** The key file *)













(** C7 on the sample hosts: a first open, an open that finds the mapping
    intact, and one that finds its device gone. *)
Lemma C7_openEncryptedBlock_reentrant_witness :
  trace (snd (runOpen rejectingHost))
  = [DmsetupVersion; CryptsetupLuksOpen keyFile blockTmp dmName]
  /\ runOpen (openedHost true)
     = (Next tt, log (DmsetupTable dmName) (log DmsetupVersion keyPresent))
  /\ trace (snd (runOpen (openedHost false)))
     = [DmsetupVersion; DmsetupTable dmName; DmsetupRemoveForce dmName;
        CryptsetupLuksOpen keyFile blockTmp dmName; RmForce keyFile].
Proof.
  split; [|split]; unfold runOpen.
  - rewrite (proj1 (C7_openEncryptedBlock_reentrant rejectingHost keyFile blockTmp
                      dmName dmPath keyPresent eq_refl) eq_refl).
    reflexivity.
  - apply (proj1 (proj2 (C7_openEncryptedBlock_reentrant (openedHost true) keyFile
                           blockTmp dmName dmPath keyPresent eq_refl)) eq_refl).
    repeat constructor.
  - rewrite (proj2 (proj2 (C7_openEncryptedBlock_reentrant (openedHost false) keyFile
                             blockTmp dmName dmPath keyPresent eq_refl)) eq_refl
               ["0"; "20967424"; "crypt"; "aes-xts-plain64"; ":64:logon:cryptsetup:key"; "0"]
               "8:16" ["4096"; "1"; "allow_discards"] eq_refl
               ltac:(repeat constructor) eq_refl ltac:(repeat constructor)).
    reflexivity.
Defined.

End ShellTheorems.

Section OsdTheorems.
Import Osd OsdProps.
Context `{Helpers}.

(** The copies of the metadata and WAL devices, and the copies and opens
    of the encrypted devices, mount the bridge of the claim they are
    given as [volumeMountPVCName], which is the primary one. *)
Lemma metadata_and_wal_on_primary_bridge c mountPath osdProps :
  Container.VolumeMounts (getPVCMetadataInitContainerActivate mountPath osdProps)
  = [getPvcOSDBridgeMountActivate mountPath (pvc osdProps)]
  /\ Container.VolumeMounts (getPVCWalInitContainerActivate mountPath osdProps)
     = [getPvcOSDBridgeMountActivate mountPath (pvc osdProps)]
  /\ Forall (fun k => hd_error (Container.VolumeMounts k)
                      = Some (getPvcOSDBridgeMountActivate mountPath (pvc osdProps)))
       (getPVCEncryptionInitContainerActivate mountPath osdProps)
  /\ Forall (fun k => k = keyRetrieval c osdProps
                      \/ hd_error (Container.VolumeMounts k)
                         = Some (getPvcOSDBridgeMountActivate mountPath (pvc osdProps)))
       (getPVCEncryptionOpenInitContainerActivate c mountPath osdProps).
Proof.
  split; [reflexivity|]. split; [reflexivity|]. split.
  - unfold getPVCEncryptionInitContainerActivate.
    destruct (nonempty (metadataPVC osdProps)), (nonempty (walPVC osdProps));
      repeat constructor.
  - unfold getPVCEncryptionOpenInitContainerActivate, keyRetrieval.
    destruct (KMSIsEnabled c), (String.eqb (KMSProvider c) secrets_TypeVault),
      (KMSIsTokenAuthEnabled c), (onPVCWithMetadata osdProps), (onPVCWithWal osdProps);
      simpl; repeat (constructor; [first [now left | now right]|]); constructor.
Qed.

(** The case analysis of [makeDeployment]: whether the OSD is on a
    claim, and its mode (empty, [lvm], [raw] or something else). *)
Ltac destruct_mode osdProps osd :=
  destruct (onPVC osdProps) eqn:HonPVC;
  destruct (String.eqb (CVMode osd) "") eqn:Hempty; cbn [withCVMode CVMode];
  [ | destruct (String.eqb_spec (CVMode osd) "lvm") as [Hlvm|Hlvm];
      [ rewrite ?Hlvm
      | destruct (String.eqb (CVMode osd) "raw") eqn:Hraw ]
    | | destruct (String.eqb_spec (CVMode osd) "lvm") as [Hlvm|Hlvm];
      [ rewrite ?Hlvm
      | destruct (String.eqb (CVMode osd) "raw") eqn:Hraw ] ];
  cbn [String.eqb Ascii.eqb Bool.eqb andb negb].

(** A successful [makeDeployment] has passed its checks. *)
Ltac destruct_errors c osdProps :=
  match goal with
  | |- context [(length ?v =? 0)%nat] => destruct (length v =? 0)%nat; [discriminate|]
  end;
  destruct (if NetworkIsHost c then None
            else if NetworkIsMultus c then k8sutil_ApplyMultus c else None);
  [discriminate|];
  destruct (OwnerInfo_SetControllerReference c); [discriminate|];
  match goal with
  | |- context [if portable osdProps then applyTopologyAffinity ?o else None] =>
    destruct (if portable osdProps then applyTopologyAffinity o else None);
    [discriminate|]
  end.

Ltac pick := solve [repeat (first [left; reflexivity | right])].

Ltac mounts_fine :=
  repeat (constructor;
          [first [left; reflexivity
                 | right; unfold otherMounts, osdDataDirPath; cbn [In]; pick]|]);
  constructor.

Ltac single_bridge HonPVC :=
  rewrite ?HonPVC;
  first
    [ left; left; reflexivity
    | left; right; eexists _, _; reflexivity
    | right; split;
      [ cbn; mounts_fine
      | first [ left; cbn; pick
              | right; left; reflexivity
              | right; right; left; reflexivity
              | right; right; right; split; [exact HonPVC|reflexivity] ] ] ].

(** C1. In the plan of [makeDeployment], every init container either has
    its mounts handed in by the controller package (configuration and
    ownership), or mounts nothing but the one bridge of the primary claim
    and mounts that are no bridge; and it does mount that bridge, unless
    it is binary staging, key retrieval or the activation of a device
    that is no claim. *)
Theorem C1_single_bridge c osdProps osd provisionConfig pod :
  makeDeployment c osdProps osd provisionConfig = Ok pod ->
  forall k, In k (PodSpec.InitContainers pod) ->
            singleBridge c osdProps osd provisionConfig k.
Proof.
  unfold makeDeployment, singleBridge, bridge, effectiveMode, keyRetrieval.
  destruct_mode osdProps osd; destruct_errors c osdProps.
  all: intros Hpod; injection Hpod as <-; cbn [PodSpec.InitContainers].
  all: intros k Hk.
  all: unfold getPVCEncryptionOpenInitContainerActivate,
         getPVCEncryptionInitContainerActivate, onPVCWithMetadata, onPVCWithWal in Hk.
  all: try (destruct (encrypted osdProps), (nonempty (walPVC osdProps)),
              (nonempty (metadataPVC osdProps)), (KMSIsEnabled c),
              (String.eqb (KMSProvider c) secrets_TypeVault), (KMSIsTokenAuthEnabled c)).
  all: cbn [app In] in Hk.
  all: repeat (destruct Hk as [<-|Hk]; [single_bridge HonPVC|]); try contradiction.
Qed.

(** C9, amended. The pod shares the host's IPC namespace exactly when the
    OSD is encrypted: the store configuration says the device is
    encrypted, or the claim is. *)
Theorem C9_hostIPC_iff_encrypted c osdProps osd provisionConfig pod :
  makeDeployment c osdProps osd provisionConfig = Ok pod ->
  PodSpec.HostIPC pod = EncryptedDevice osdProps || encrypted osdProps.
Proof.
  unfold makeDeployment.
  destruct_mode osdProps osd; destruct_errors c osdProps.
  all: intros Hpod; injection Hpod as <-; reflexivity.
Qed.

(** C8, amended. For raw mode, the plan is: copy of the block device,
    copy of the metadata device, key retrieval, block open, metadata
    open, block copy, metadata copy, encrypted status, encrypted resize,
    prime activation, capacity expansion, ownership; then the daemon
    container. Every step but key retrieval mounts the bridge of the
    primary claim. *)
Theorem C8_encrypted_raw_plan c osdProps osd provisionConfig pod :
  onPVC osdProps = true ->
  CVMode osd = "raw" ->
  encrypted osdProps = true ->
  onPVCWithMetadata osdProps = true ->
  onPVCWithWal osdProps = false ->
  KMSIsEnabled c = true ->
  KMSProvider c = secrets_TypeVault ->
  KMSIsTokenAuthEnabled c = true ->
  makeDeployment c osdProps osd provisionConfig = Ok pod ->
  (exists dataPathMap volumeMounts,
      PodSpec.InitContainers pod
      = encryptedRawSteps c osdProps osd
        ++ [controller_ChownCephDataDirsInitContainer dataPathMap volumeMounts
              PrivilegedRoot]
      /\ In (bridge osdProps osd) volumeMounts)
  /\ map Container.Name (encryptedRawSteps c osdProps osd)
     = [blockPVCMapperInitContainer; blockPVCMetadataMapperInitContainer]
       ++ exampleOrder
  /\ (forall k, In k (encryptedRawSteps c osdProps osd) ->
                k = keyRetrieval c osdProps
                \/ hd_error (Container.VolumeMounts k) = Some (bridge osdProps osd))
  /\ (exists daemon rest,
         PodSpec.Containers pod = opconfig_ConfigureLivenessProbe daemon :: rest
         /\ Container.Name daemon = "osd"
         /\ In (bridge osdProps osd) (Container.VolumeMounts daemon)).
Proof.
  intros HonPVC Hraw Henc Hmeta Hwal Hkms Hvault Htoken.
  unfold makeDeployment, bridge, effectiveMode,
    getPVCEncryptionOpenInitContainerActivate, getPVCEncryptionInitContainerActivate.
  unfold onPVCWithMetadata in Hmeta. unfold onPVCWithWal in Hwal.
  rewrite HonPVC, Hraw, Henc, Hkms, Hvault, Htoken, String.eqb_refl.
  unfold onPVCWithMetadata, onPVCWithWal. rewrite Hmeta, Hwal.
  cbn [String.eqb Ascii.eqb Bool.eqb andb negb withCVMode CVMode].
  rewrite ?Hraw.
  cbn [String.eqb Ascii.eqb Bool.eqb andb negb withCVMode CVMode].
  destruct_errors c osdProps.
  intros Hpod; injection Hpod as <-.
  cbn [PodSpec.InitContainers PodSpec.Containers app].
  split; [|split; [|split]].
  - eexists _, _. split; [reflexivity|].
    rewrite in_app_iff. right. now left.
  - reflexivity.
  - intros k Hk. cbn [encryptedRawSteps In] in Hk.
    repeat (destruct Hk as [<-|Hk]; [first [left; reflexivity | right; reflexivity]|]).
    contradiction.
  - destruct (LogCollectorEnabled c); cbn [app];
      eexists _, _; (split; [reflexivity|]); (split; [reflexivity|]);
      cbn [Container.VolumeMounts]; rewrite in_app_iff; right; now left.
Qed.

End OsdTheorems.

Section OsdExamples.
Import Osd OsdProps Sample.

(** C1 on the encrypted raw-mode OSD with a metadata claim. *)
Lemma C1_single_bridge_witness :
  exists pod,
    makeDeployment vaultCluster encryptedWithMetadata (osd0 "raw" "") dataPathMap = Ok pod
    /\ forall k, In k (PodSpec.InitContainers pod) ->
                 singleBridge vaultCluster encryptedWithMetadata (osd0 "raw" "")
                   dataPathMap k.
Proof.
  eexists. split; [vm_compute; reflexivity|].
  apply (C1_single_bridge vaultCluster encryptedWithMetadata (osd0 "raw" "") dataPathMap).
  vm_compute. reflexivity.
Defined.

(** C8, as stated, fails. With the volume manager ([lvm]) the plan of
    the encrypted OSD on a claim with a metadata claim and Vault has four
    init containers and none of the encryption steps; in raw mode it has
    twelve: the two device copies come before the ten of the example. *)
Lemma C8_example_order_is_not_the_plan :
  let ownership := "chown-container-data-dir" in
  let lvm :=
    initContainerNames
      (makeDeployment vaultCluster encryptedWithMetadata (osd0 "lvm" "") dataPathMap) in
  let raw :=
    initContainerNames
      (makeDeployment vaultCluster encryptedWithMetadata (osd0 "raw" "") dataPathMap) in
  lvm = ["config-init"; "copy-bins"; "blkdevmapper"; ownership]
  /\ raw = ["blkdevmapper"; "blkdevmapper-metadata"] ++ exampleOrder ++ [ownership]
  /\ lvm <> exampleOrder ++ [ownership]
  /\ raw <> exampleOrder ++ [ownership].
Proof.
  cbv zeta. split; [vm_compute; reflexivity|]. split; [vm_compute; reflexivity|].
  split; vm_compute; discriminate.
Qed.

(** The amended C8 on the same OSD in raw mode. *)
Lemma C8_encrypted_raw_plan_witness :
  exists pod,
    makeDeployment vaultCluster encryptedWithMetadata (osd0 "raw" "") dataPathMap = Ok pod
    /\ map Container.Name (PodSpec.InitContainers pod)
       = ["blkdevmapper"; "blkdevmapper-metadata"; "encryption-kms-get-kek";
          "encryption-open"; "encryption-open-metadata"; "blkdevmapper-encryption";
          "blkdevmapper-metadata-encryption"; "encrypted-block-status";
          "expand-encrypted-bluefs"; "activate"; "expand-bluefs";
          "chown-container-data-dir"]
    /\ map Container.Name (PodSpec.Containers pod) = ["osd"].
Proof.
  eexists. split; [vm_compute; reflexivity|].
  match goal with
  | |- map _ (PodSpec.InitContainers ?p) = _ /\ _ =>
    assert (Hpod : makeDeployment vaultCluster encryptedWithMetadata (osd0 "raw" "")
                     dataPathMap = Ok p) by (vm_compute; reflexivity);
    destruct (@C8_encrypted_raw_plan osdHelpers vaultCluster encryptedWithMetadata
                (osd0 "raw" "") dataPathMap p eq_refl eq_refl eq_refl eq_refl eq_refl
                eq_refl eq_refl eq_refl Hpod)
      as [(dp & vms & Hinit & _) [Hnames _]]
  end.
  split.
  - rewrite Hinit, map_app, Hnames. reflexivity.
  - vm_compute. reflexivity.
Defined.

(** C9, as stated, fails. A plain OSD on a local device is activated by
    the [activate] init container, and its pod does not share the
    host's IPC namespace. *)
Lemma C9_local_device_without_hostIPC :
  exists pod,
    makeDeployment vaultCluster localDevice (osd0 "lvm" "/dev/sdb") dataPathMap = Ok pod
    /\ map Container.Name (PodSpec.InitContainers pod)
       = ["activate"; "chown-container-data-dir"]
    /\ PodSpec.HostIPC pod = false.
Proof. eexists. split; [vm_compute; reflexivity|]. split; reflexivity. Qed.

(** The amended C9 on the encrypted OSD and on the plain one. *)
Lemma C9_hostIPC_iff_encrypted_witness :
  (exists pod,
      makeDeployment vaultCluster encryptedWithMetadata (osd0 "raw" "") dataPathMap
      = Ok pod
      /\ PodSpec.HostIPC pod = true)
  /\ (exists pod,
         makeDeployment vaultCluster localDevice (osd0 "lvm" "/dev/sdb") dataPathMap
         = Ok pod
         /\ PodSpec.HostIPC pod = false).
Proof.
  split; eexists; (split; [vm_compute; reflexivity|]).
  - apply (C9_hostIPC_iff_encrypted vaultCluster encryptedWithMetadata (osd0 "raw" "")
             dataPathMap).
    vm_compute. reflexivity.
  - apply (C9_hostIPC_iff_encrypted vaultCluster localDevice (osd0 "lvm" "/dev/sdb")
             dataPathMap).
    vm_compute. reflexivity.
Defined.

End OsdExamples.

Section RbdTheorems.
Import Rbd RbdProps.
Context `{Helpers}.
Variable fault : list event -> call -> bool.
Variable r : ReconcileCephRBDMirror.



(** *** The cleanup pass *)

Lemma filter_not_named name (ds : list Deployment.t) :
  existsb (named name) ds = false ->
  List.filter (fun d => negb (named name d)) ds = ds.
Proof.
  induction ds as [|d ds IH]; [reflexivity|]. simpl.
  destruct (named name d); [discriminate|]. simpl. intros Hex. now rewrite IH.
Qed.

(** One round of the loop, when no deletion of a credential fails: the
    round goes through; an instance that is not stale leaves keys and
    deployments alone; for a stale one the delete is attempted and its
    credential is gone, and the deployment of its name is gone too
    unless that delete failed for a reason of its own. *)
Lemma removeExtraMirrors_loop_step deploy s :
  (forall t e, fault t (AuthDelete e) = false) ->
  exists s',
    removeExtraMirrors_loop fault deploy s = (Next tt, s')
    /\ (forall e, In e (events s) -> In e (events s'))
    /\ match staleName deploy with
       | None => keys s' = keys s /\ deployments s' = deployments s
       | Some daemonName =>
         keys s' = keys s ∖ {[fullDaemonName daemonName]}
         /\ In (Called (Delete (Deployment.Name deploy))) (events s')
         /\ ((forall t n, fault t (Delete n) = false) ->
             deployments s'
             = List.filter (fun d => negb (named (Deployment.Name deploy) d))
                 (deployments s))
       end.
Proof.
  intros Hauth. unfold removeExtraMirrors_loop, staleName.
  destruct (Deployment.Labels deploy !! "rbd-mirror") as [daemonName|].
  2: { eexists. split; [reflexivity|]. split; [|split; reflexivity].
       intros e He. simpl. rewrite in_app_iff. now left. }
  destruct (k8sutil_NameToIndex daemonName) as [index [err|]].
  { eexists. split; [reflexivity|]. split; [|split; reflexivity].
    intros e He. simpl. rewrite in_app_iff. now left. }
  destruct (index =? 0)%Z.
  { eexists. split; [reflexivity|]. split; [auto|split; reflexivity]. }
  unfold bind, logf, modify, do, Deployments_Delete, client_AuthDelete, invoke.
  simpl.
  destruct (fault _ (Delete _)) eqn:Hdel; simpl; rewrite ?Hauth; simpl.
  - eexists. split; [reflexivity|]. simpl. split; [|split; [reflexivity|split]].
    + intros e He. rewrite !in_app_iff. tauto.
    + rewrite !in_app_iff. simpl. tauto.
    + intros Hnone. now rewrite Hnone in Hdel.
  - destruct (exists_named (Deployment.Name deploy) _) eqn:Hex; simpl; rewrite ?Hauth; simpl.
    + eexists. split; [reflexivity|]. simpl. split; [|split; [reflexivity|split]].
      * intros e He. rewrite !in_app_iff. tauto.
      * rewrite !in_app_iff. simpl. tauto.
      * reflexivity.
    + eexists. split; [reflexivity|]. simpl. split; [|split; [reflexivity|split]].
      * intros e He. rewrite !in_app_iff. tauto.
      * rewrite !in_app_iff. simpl. tauto.
      * intros _. symmetry. now apply filter_not_named.
Qed.

Lemma filter_twice {A} (f g : A -> bool) (l : list A) :
  List.filter g (List.filter f l) = List.filter (fun x => f x && g x) l.
Proof.
  induction l as [|x l IH]; [reflexivity|]. simpl.
  destruct (f x); simpl; [destruct (g x)|]; now rewrite IH.
Qed.

Lemma filter_all {A} (f : A -> bool) (l : list A) :
  (forall x, In x l -> f x = true) -> List.filter f l = l.
Proof.
  induction l as [|x l IH]; [reflexivity|]. intros Hf. simpl.
  rewrite (Hf x) by now left. rewrite IH; [reflexivity|]. intros y Hy. apply Hf. now right.
Qed.

(** The whole loop, when no deletion of a credential fails. *)
Lemma removeExtraMirrors_loop_all l :
  (forall t e, fault t (AuthDelete e) = false) ->
  forall s, exists s',
    for_in l (removeExtraMirrors_loop fault) s = (Next tt, s')
    /\ (forall e, In e (events s) -> In e (events s'))
    /\ keys s' = keys s ∖ credentials l
    /\ (forall d, In d l -> isStale d = true ->
                  In (Called (Delete (Deployment.Name d))) (events s'))
    /\ ((forall t n, fault t (Delete n) = false) ->
        deployments s'
        = List.filter (fun x => negb (removedBy l x)) (deployments s)).
Proof.
  intros Hauth. induction l as [|d l IH]; intros s.
  - exists s. split; [reflexivity|]. split; [auto|]. split.
    + unfold credentials. simpl. now rewrite difference_empty_L.
    + split; [intros d []|]. intros _. symmetry. now apply filter_all.
  - destruct (removeExtraMirrors_loop_step d s Hauth) as (s1 & Hstep & Hev1 & Hd).
    destruct (IH s1) as (s' & Hloop & Hev & Hkeys & Hcalls & Hdeps).
    exists s'. split; [simpl; unfold bind; now rewrite Hstep|].
    split; [auto|].
    unfold credentials, removedBy, isStale in *. simpl.
    destruct (staleName d) as [daemonName|] eqn:Hsn; simpl.
    + destruct Hd as (Hk1 & Hcall & Hdep1). split; [|split].
      * rewrite Hkeys, Hk1. now rewrite difference_difference_l_L.
      * intros x [<-|Hx] Hst; [now apply Hev|now apply Hcalls].
      * intros Hnone. rewrite (Hdeps Hnone), (Hdep1 Hnone), filter_twice.
        apply filter_ext. intros x. now rewrite negb_orb.
    + destruct Hd as (Hk1 & Hdep1). split; [|split].
      * now rewrite Hkeys, Hk1.
      * intros x [<-|Hx] Hst; [now rewrite Hsn in Hst|now apply Hcalls].
      * intros Hnone. now rewrite (Hdeps Hnone), Hdep1.
Qed.

Lemma same_name_same_deployment (ds : list Deployment.t) a b :
  List.NoDup (map Deployment.Name ds) -> In a ds -> In b ds ->
  Deployment.Name a = Deployment.Name b -> a = b.
Proof.
  induction ds as [|d ds IH]; [intros _ []|].
  simpl. intros Hnd. apply List.NoDup_cons_iff in Hnd as [Hnotin Hnd].
  intros [->|Ha] [->|Hb] Heq; auto.
  - exfalso. apply Hnotin. rewrite Heq. now apply in_map.
  - exfalso. apply Hnotin. rewrite <- Heq. now apply in_map.
Qed.

Lemma removedBy_mirrors (ds : list Deployment.t) x :
  List.NoDup (map Deployment.Name ds) -> In x ds ->
  removedBy (List.filter class ds) x = stale x.
Proof.
  intros Hnd Hx. unfold removedBy, stale. apply Bool.eq_iff_eq_true.
  rewrite existsb_exists, andb_true_iff. split.
  - intros (d & Hd & Hst). apply filter_In in Hd as [Hd Hclass].
    apply andb_true_iff in Hst as [Hst Hname]. apply String.eqb_eq in Hname.
    assert (x = d) as -> by (eapply same_name_same_deployment; eauto).
    now split.
  - intros [Hclass Hst]. exists x. split; [now apply filter_In|].
    unfold named. now rewrite Hst, String.eqb_refl.
Qed.

(** The cleanup once the list call has gone through. *)
Lemma removeExtraMirrors_listed cephRBDMirror s :
  fault (events s) (List "app" AppName) = false ->
  removeExtraMirrors fault cephRBDMirror s
  = returned ((if (1 <? length (mirrors s))%nat
               then for_in (mirrors s) (removeExtraMirrors_loop fault)
               else ret tt) (record (Called (List "app" AppName)) s)).
Proof.
  intros Hlist. unfold removeExtraMirrors, removeExtraMirrors_body, bind at 1.
  unfold do, Deployments_List, invoke. rewrite Hlist. cbn [fst snd].
  unfold bind at 1. reflexivity.
Qed.

(** C5, amended. With no failing call and names that are unique: the
    cleanup returns nil; a single deployment of the class is left alone;
    of several, exactly those whose [rbd-mirror] label is a daemon name
    of an index other than 0 are removed, with their credentials. What
    remains of the class is the canonical instance, and any deployment
    whose label is missing or not a daemon name. *)
Theorem C5_cleanup_removes_stale_instances cephRBDMirror s :
  (forall t c, fault t c = false) ->
  List.NoDup (map Deployment.Name (deployments s)) ->
  let result := removeExtraMirrors fault cephRBDMirror s in
  fst result = None
  /\ (length (mirrors s) <= 1 ->
      deployments (snd result) = deployments s /\ keys (snd result) = keys s)
  /\ (1 < length (mirrors s) ->
      deployments (snd result)
      = List.filter (fun d => negb (stale d)) (deployments s)
      /\ mirrors (snd result) = List.filter (fun d => negb (isStale d)) (mirrors s)
      /\ keys (snd result) = keys s ∖ credentials (mirrors s)).
Proof.
  intros Hnone Hnd. cbv zeta.
  rewrite removeExtraMirrors_listed by apply Hnone.
  destruct (Nat.ltb_spec 1 (length (mirrors s))) as [Hlt|Hle].
  - destruct (removeExtraMirrors_loop_all (mirrors s) (fun t e => Hnone t _)
                (record (Called (List "app" AppName)) s))
      as (s' & Hloop & _ & Hkeys & _ & Hdeps).
    rewrite Hloop. cbn [returned fst snd].
    split; [reflexivity|]. split; [lia|]. intros _.
    specialize (Hdeps (fun t n => Hnone t _)). cbn [record deployments keys] in *.
    assert (Hd : deployments s' = List.filter (fun d => negb (stale d)) (deployments s)).
    { rewrite Hdeps. apply filter_ext_in. intros x Hx. unfold mirrors.
      now rewrite removedBy_mirrors. }
    split; [exact Hd|]. split; [|exact Hkeys].
    unfold mirrors. rewrite Hd, !filter_twice. apply filter_ext. intros x.
    unfold stale. destruct (class x), (isStale x); reflexivity.
  - cbn [returned fst snd record deployments keys].
    split; [reflexivity|]. split; [auto|lia].
Qed.

(** *** Errors of the cleanup pass *)

Lemma nilAfterListing_bind {A} (p : Prog (option error) cluster A) k :
  quiet p -> (forall x, nilAfterListing (k x)) -> nilAfterListing (bind p k).
Proof.
  intros Hp Hk s Hs. unfold bind. specialize (Hp s Hs).
  destruct (p s) as [[x|e] s1]; cbn [fst snd] in *.
  - now apply Hk.
  - intros Hin. contradiction.
Qed.

Lemma quiet_bind {A B} (p : Prog (option error) cluster A)
    (k : A -> Prog (option error) cluster B) :
  quiet p -> (forall x, quiet (k x)) -> quiet (bind p k).
Proof.
  intros Hp Hk s Hs. unfold bind. specialize (Hp s Hs).
  destruct (p s) as [[x|e] s1]; cbn [fst snd] in *; [now apply Hk|exact Hp].
Qed.

Lemma nilAfterListing_quiet (p : Prog (option error) cluster unit) :
  quiet p -> nilAfterListing p.
Proof. intros Hp s Hs Hin. now apply Hp in Hin. Qed.

Lemma quiet_invoke c effect :
  Called c <> listing ->
  (forall s, events (snd (effect s)) = events s) ->
  quiet (do (invoke fault c effect)).
Proof.
  intros Hc Heff s Hs. unfold do, invoke. cbn [fst snd].
  destruct (fault (events s) c); cbn [snd]; rewrite ?Heff; cbn [record events];
    rewrite in_app_iff; cbn [In]; intros [Hin|[Hin|[]]]; auto.
Qed.

Ltac quiet_call :=
  apply quiet_invoke;
  [ discriminate
  | intros ?;
    repeat match goal with
           | |- context [match ?x with _ => _ end] => destruct x
           | |- context [if ?b then _ else _] => destruct b
           end; reflexivity ].

Ltac quiet_plain :=
  let s := fresh "s" in
  let Hs := fresh "Hs" in
  intros s Hs; unfold logf, modify, exit, ret;
  repeat match goal with
         | |- context [match ?x with _ => _ end] => destruct x
         | |- context [if ?b then _ else _] => destruct b
         end;
  cbn [fst snd record events]; rewrite ?in_app_iff; cbn [In];
  first [exact Hs | intros [?|[?|[]]]; [contradiction|discriminate]].

(** Once [start] has listed the mirrors, it returns nil. *)
Lemma start_returns_nil_after_listing cephRBDMirror :
  nilAfterListing (start_body fault r cephRBDMirror).
Proof.
  unfold start_body.
  apply nilAfterListing_bind; [quiet_plain|intros _].
  destruct (opcontroller_GetControllerObjectOwnerReference cephRBDMirror) as [ref err].
  apply nilAfterListing_bind; [quiet_plain|intros _].
  apply nilAfterListing_bind; [quiet_plain|intros _].
  apply nilAfterListing_bind; [unfold generateKeyring; quiet_call|intros err1].
  apply nilAfterListing_bind; [quiet_plain|intros _].
  destruct (makeDeployment _ cephRBDMirror) as [d err2].
  apply nilAfterListing_bind; [quiet_plain|intros _].
  destruct (controllerutil_SetControllerReference cephRBDMirror d) as [d1 err3].
  apply nilAfterListing_bind; [quiet_plain|intros _].
  destruct (SetLastAppliedAnnotation d1) as [d2 err4].
  apply nilAfterListing_bind; [quiet_plain|intros _].
  apply nilAfterListing_bind; [unfold Deployments_Create; quiet_call|intros err5].
  apply nilAfterListing_bind.
  - destruct err5 as [e5|]; [|quiet_plain].
    apply quiet_bind; [quiet_plain|intros _].
    apply quiet_bind; [quiet_plain|intros _].
    apply quiet_bind; [unfold updateDeploymentAndWait; quiet_call|intros err6].
    destruct err6 as [e6|]; [|quiet_plain].
    apply quiet_bind; [quiet_plain|intros _].
    apply quiet_bind; [unfold Deployments_Delete; quiet_call|intros err7].
    apply quiet_bind; [quiet_plain|intros _].
    apply quiet_bind; [unfold Deployments_Create; quiet_call|intros err8].
    quiet_plain.
  - intros _. apply nilAfterListing_bind; [quiet_plain|intros _].
    intros s _ _. unfold bind, do, logf, modify, exit, ret.
    destruct (removeExtraMirrors fault cephRBDMirror s) as [[e|] s']; reflexivity.
Qed.

(** *** A credential that cannot be deleted *)

Lemma called_app (es es' : list event) : called (es ++ es') = called es ++ called es'.
Proof. unfold called. apply omap_app. Qed.

(** One round of the loop when the credential of the instance, if it is
    stale, can be deleted: the round goes through. *)
Lemma removeExtraMirrors_loop_round deploy s :
  (forall n, staleName deploy = Some n ->
             forall t, fault t (AuthDelete (fullDaemonName n)) = false) ->
  exists s',
    removeExtraMirrors_loop fault deploy s = (Next tt, s')
    /\ called (events s') = called (events s) ++ attempts deploy
    /\ keys s' = match staleName deploy with
                 | Some n => keys s ∖ {[fullDaemonName n]}
                 | None => keys s
                 end
    /\ (forall x, In x (deployments s) ->
                  isStale deploy && named (Deployment.Name deploy) x = false ->
                  In x (deployments s')).
Proof.
  unfold removeExtraMirrors_loop, attempts, isStale, staleName.
  destruct (Deployment.Labels deploy !! "rbd-mirror") as [daemonName|].
  2: { intros _. unfold logf, modify. eexists. split; [reflexivity|].
       cbn [record events keys deployments].
       rewrite called_app. cbn [called omap list_omap]. rewrite !app_nil_r. auto. }
  destruct (k8sutil_NameToIndex daemonName) as [index [err|]].
  { intros _. unfold logf, modify. eexists. split; [reflexivity|].
    cbn [record events keys deployments].
    rewrite called_app. cbn [called omap list_omap]. rewrite !app_nil_r. auto. }
  destruct (index =? 0)%Z.
  { intros _. eexists. split; [reflexivity|]. rewrite app_nil_r. auto. }
  intros Hauth. specialize (Hauth daemonName eq_refl).
  unfold bind, logf, modify, do, Deployments_Delete, client_AuthDelete, invoke, ret.
  cbn [fst snd record events deployments keys].
  destruct (fault _ (Delete _)); cbn [fst snd record events deployments keys];
    rewrite ?Hauth; cbn [fst snd record events deployments keys with_keys with_deployments].
  - eexists. split; [reflexivity|].
    cbn [events keys deployments record with_keys with_deployments].
    rewrite !called_app. cbn [called omap list_omap]. rewrite !app_nil_r, <- !app_assoc.
    auto.
  - destruct (exists_named (Deployment.Name deploy) _);
      cbn [fst snd record events deployments keys with_keys with_deployments];
      rewrite ?Hauth; cbn [fst snd record events deployments keys with_keys with_deployments].
    + eexists. split; [reflexivity|].
    cbn [events keys deployments record with_keys with_deployments].
      rewrite !called_app. cbn [called omap list_omap]. rewrite !app_nil_r, <- !app_assoc.
      split; [reflexivity|]. split; [reflexivity|].
      intros x Hx Hrem. apply filter_In. split; [exact Hx|].
      cbn [andb] in Hrem. now rewrite Hrem.
    + eexists. split; [reflexivity|].
    cbn [events keys deployments record with_keys with_deployments].
      rewrite !called_app. cbn [called omap list_omap]. rewrite !app_nil_r, <- !app_assoc.
      auto.
Qed.

Lemma credentials_cons d l :
  credentials (d :: l)
  = match staleName d with
    | Some daemonName => {[fullDaemonName daemonName]} ∪ credentials l
    | None => credentials l
    end.
Proof.
  unfold credentials. change (d :: l) with ([d] ++ l). rewrite omap_app.
  cbn [omap list_omap]. destruct (staleName d); reflexivity.
Qed.

Lemma removedBy_app l l' x : removedBy (l ++ l') x = removedBy l x || removedBy l' x.
Proof. unfold removedBy. apply existsb_app. Qed.

(** The rounds for instances whose credentials can be deleted. *)
Lemma removeExtraMirrors_loop_rounds l :
  (forall x n, In x l -> staleName x = Some n ->
               forall t, fault t (AuthDelete (fullDaemonName n)) = false) ->
  forall s, exists s',
    for_in l (removeExtraMirrors_loop fault) s = (Next tt, s')
    /\ called (events s') = called (events s) ++ flat_map attempts l
    /\ keys s' = keys s ∖ credentials l
    /\ (forall x, In x (deployments s) -> removedBy l x = false ->
                  In x (deployments s')).
Proof.
  induction l as [|d l IH]; intros Hauth s.
  - exists s. split; [reflexivity|]. cbn [flat_map]. rewrite app_nil_r.
    split; [reflexivity|]. split; [|auto].
    change (credentials []) with (∅ : gset string). now rewrite difference_empty_L.
  - destruct (removeExtraMirrors_loop_round d s) as (s1 & Hstep & Hc1 & Hk1 & Hd1).
    { intros n Hn. apply (Hauth d n); [now left|exact Hn]. }
    destruct (IH (fun x n Hx => Hauth x n (or_intror Hx)) s1)
      as (s' & Hloop & Hc & Hk & Hd).
    exists s'. split; [cbn [for_in]; unfold bind; now rewrite Hstep|].
    split; [cbn [flat_map]; now rewrite Hc, Hc1, app_assoc|]. split.
    + rewrite credentials_cons, Hk, Hk1.
      destruct (staleName d); [|reflexivity]. now rewrite difference_difference_l_L.
    + intros x Hx Hrem. unfold removedBy in Hrem. cbn [existsb] in Hrem.
      apply orb_false_iff in Hrem as [Hr1 Hr2]. auto.
Qed.

(** The round of a stale instance whose credential cannot be deleted: the
    deletion of the deployment is attempted, the error of the deletion of
    the credential is returned, and that call is the last event. *)
Lemma removeExtraMirrors_loop_refused deploy s daemonName :
  staleName deploy = Some daemonName ->
  (forall t, fault t (AuthDelete (fullDaemonName daemonName)) = true) ->
  exists s',
    removeExtraMirrors_loop fault deploy s = (Exit (Some Unavailable), s')
    /\ called (events s') = called (events s) ++ attempts deploy
    /\ last (events s') = Some (Called (AuthDelete (fullDaemonName daemonName)))
    /\ keys s' = keys s
    /\ (forall x, In x (deployments s) -> named (Deployment.Name deploy) x = false ->
                  In x (deployments s')).
Proof.
  unfold removeExtraMirrors_loop, attempts, staleName.
  destruct (Deployment.Labels deploy !! "rbd-mirror") as [label|]; [|discriminate].
  destruct (k8sutil_NameToIndex label) as [index [err|]]; [discriminate|].
  destruct (index =? 0)%Z; [discriminate|]. intros Heq Hauth. injection Heq as ->.
  unfold bind, logf, modify, do, Deployments_Delete, client_AuthDelete, invoke, ret, exit.
  cbn [fst snd record events deployments keys].
  destruct (fault _ (Delete _)); cbn [fst snd record events deployments keys];
    rewrite ?Hauth; cbn [fst snd record events deployments keys with_keys with_deployments].
  - eexists. split; [reflexivity|].
    cbn [events keys deployments record with_keys with_deployments].
    rewrite !called_app. cbn [called omap list_omap]. rewrite !app_nil_r, <- !app_assoc.
    split; [reflexivity|]. split; [rewrite !app_assoc; apply last_snoc|]. split; [reflexivity|auto].
  - destruct (exists_named (Deployment.Name deploy) _);
      cbn [fst snd record events deployments keys with_keys with_deployments];
      rewrite ?Hauth; cbn [fst snd record events deployments keys with_keys with_deployments].
    + eexists. split; [reflexivity|].
    cbn [events keys deployments record with_keys with_deployments].
      rewrite !called_app. cbn [called omap list_omap]. rewrite !app_nil_r, <- !app_assoc.
      split; [reflexivity|]. split; [rewrite !app_assoc; apply last_snoc|]. split; [reflexivity|].
      intros x Hx Hrem. apply filter_In. split; [exact Hx|]. now rewrite Hrem.
    + eexists. split; [reflexivity|].
    cbn [events keys deployments record with_keys with_deployments].
      rewrite !called_app. cbn [called omap list_omap]. rewrite !app_nil_r, <- !app_assoc.
      split; [reflexivity|]. split; [rewrite !app_assoc; apply last_snoc|]. split; [reflexivity|auto].
Qed.

(** C6, amended. Whatever fails in the cleanup pass, [start] returns nil
    once it has begun that pass. When only deletions of deployments
    fail, the pass goes through all stale instances: it returns nil, it
    has tried to delete each of them, and all their credentials are
    gone. But a credential that cannot be deleted ends the pass at its
    instance: the pass returns that error; its calls are the listing and
    the two deletions for each stale instance up to that one, the failed
    deletion being the last event; the credentials of the instances
    before it are gone and no other; and whatever no stale instance up
    to that one bears the name of is still deployed. The instances after
    it are left as they are. *)
Theorem C6_cleanup_failures_are_not_fatal cephRBDMirror s :
  (~ In listing (events s) ->
   In listing (events (snd (start fault r cephRBDMirror s))) ->
   fst (start fault r cephRBDMirror s) = None)
  /\ ((forall t e, fault t (AuthDelete e) = false) ->
      fault (events s) (List "app" AppName) = false ->
      1 < length (mirrors s) ->
      let result := removeExtraMirrors fault cephRBDMirror s in
      fst result = None
      /\ keys (snd result) = keys s ∖ credentials (mirrors s)
      /\ forall d, In d (mirrors s) -> isStale d = true ->
                   In (Called (Delete (Deployment.Name d))) (events (snd result)))
  /\ (forall before d after daemonName,
         mirrors s = before ++ d :: after ->
         1 < length (mirrors s) ->
         fault (events s) (List "app" AppName) = false ->
         (forall x n, In x before -> staleName x = Some n ->
                      forall t, fault t (AuthDelete (fullDaemonName n)) = false) ->
         staleName d = Some daemonName ->
         (forall t, fault t (AuthDelete (fullDaemonName daemonName)) = true) ->
         let result := removeExtraMirrors fault cephRBDMirror s in
         fst result = Some Unavailable
         /\ called (events (snd result))
            = called (events s)
              ++ List "app" AppName :: flat_map attempts (before ++ [d])
         /\ last (events (snd result))
            = Some (Called (AuthDelete (fullDaemonName daemonName)))
         /\ keys (snd result) = keys s ∖ credentials before
         /\ forall x, In x (deployments s) ->
                      removedBy (before ++ [d]) x = false ->
                      In x (deployments (snd result))).
Proof.
  split; [|split].
  - intros Hs Hin. unfold start in *.
    destruct (start_body fault r cephRBDMirror s) as [[[]|e] s'] eqn:Hrun.
    + reflexivity.
    + pose proof (start_returns_nil_after_listing cephRBDMirror s Hs) as Hnil.
      rewrite Hrun in Hnil. apply Hnil. exact Hin.
  - intros Hauth Hlist Hlt. cbv zeta. rewrite removeExtraMirrors_listed by exact Hlist.
    apply Nat.ltb_lt in Hlt. rewrite Hlt.
    destruct (removeExtraMirrors_loop_all (mirrors s) Hauth
                (record (Called (List "app" AppName)) s))
      as (s' & Hloop & _ & Hkeys & Hcalls & _).
    rewrite Hloop. cbn [returned fst snd]. split; [reflexivity|]. split; assumption.
  - intros before d after daemonName Hmirrors Hlt Hlist Hbefore Hstale Hrefused. cbv zeta.
    rewrite removeExtraMirrors_listed by exact Hlist.
    apply Nat.ltb_lt in Hlt. rewrite Hlt, Hmirrors.
    destruct (removeExtraMirrors_loop_rounds before Hbefore
                (record (Called (List "app" AppName)) s))
      as (s1 & Hloop & Hc1 & Hk1 & Hd1).
    destruct (removeExtraMirrors_loop_refused d s1 daemonName Hstale Hrefused)
      as (s2 & Hstep & Hc2 & Hlast & Hk2 & Hd2).
    assert (Hrun : for_in (before ++ d :: after) (removeExtraMirrors_loop fault)
                     (record (Called (List "app" AppName)) s)
                   = (Exit (Some Unavailable), s2)).
    { rewrite for_in_app. unfold bind. rewrite Hloop. cbn [for_in]. unfold bind.
      now rewrite Hstep. }
    rewrite Hrun. cbn [returned fst snd].
    split; [reflexivity|]. split; [|split; [exact Hlast|split]].
    + rewrite Hc2, Hc1. cbn [record events]. rewrite called_app, flat_map_app.
      cbn [called omap list_omap flat_map]. rewrite !app_nil_r, <- !app_assoc.
      reflexivity.
    + now rewrite Hk2, Hk1.
    + intros x Hx Hrem. rewrite removedBy_app in Hrem.
      apply orb_false_iff in Hrem as [Hr1 Hr2]. apply Hd2; [auto|].
      unfold removedBy, isStale in Hr2. cbn [existsb] in Hr2.
      now rewrite Hstale, orb_false_r in Hr2.
Qed.

End RbdTheorems.

Section RbdExamples.
Import Rbd RbdProps Sample.

Ltac pick_event := solve [repeat (first [left; reflexivity | right])].



(** C4, at the input where the code departs from it: the mirror resource
    is called [my-rbd-mirror], the live deployment
    [rook-ceph-rbd-mirror-a] has another selector. The update is
    refused, the delete goes to the name of the mirror resource, where
    there is nothing: [start] fails, nothing is recreated and the live
    deployment is still the old one. *)
Theorem C4_fallback_deletes_the_mirror_name :
  let s := live [outdated] ["client.rbd-mirror.a"] in
  let result := start noFault reconciler (mirror "my-rbd-mirror" ∅) s in
  fst result
  = Some (Wrap (NotFound "my-rbd-mirror")
            "failed to delete rbd-mirror %q during del-and-recreate update attempt")
  /\ calls (snd result)
     = [GenerateKeyring "client.rbd-mirror.a"; Create desired; Update desired;
        Delete "my-rbd-mirror"]
  /\ deployments (snd result) = [outdated].
Proof. cbv zeta. split; [|split]; vm_compute; reflexivity. Qed.

(** When the mirror resource happens to bear the name of the deployment,
    the fallback does delete and recreate it. *)
Lemma fallback_when_names_coincide :
  let s := live [outdated] ["client.rbd-mirror.a"] in
  let result := start noFault reconciler (mirror "rook-ceph-rbd-mirror-a" ∅) s in
  fst result = None
  /\ calls (snd result)
     = [GenerateKeyring "client.rbd-mirror.a"; Create desired; Update desired;
        Delete "rook-ceph-rbd-mirror-a"; Create desired; List "app" AppName]
  /\ deployments (snd result) = [desired].
Proof. cbv zeta. split; [|split]; vm_compute; reflexivity. Qed.

(** C5, as stated, fails. A deployment of the class without the
    [rbd-mirror] label stays next to the canonical instance; and a lone
    instance [b] stays, the canonical one being absent. *)
Lemma C5_other_instances_remain :
  let m := mirror "my-rbd-mirror" ∅ in
  names (snd (removeExtraMirrors noFault m (live [desired; unlabelled] [])))
  = ["rook-ceph-rbd-mirror-a"; "rook-ceph-rbd-mirror-x"]
  /\ names (snd (removeExtraMirrors noFault m (live [mirrorB] ["client.rbd-mirror.b"])))
     = ["rook-ceph-rbd-mirror-b"].
Proof. cbv zeta. split; vm_compute; reflexivity. Qed.

(** The amended C5 on three mirrors: [b] and [c] go, with their
    credentials. *)
Lemma C5_cleanup_removes_stale_instances_witness :
  let result := removeExtraMirrors noFault (mirror "my-rbd-mirror" ∅) threeMirrors in
  fst result = None
  /\ names (snd result) = ["rook-ceph-rbd-mirror-a"]
  /\ keys (snd result) = {["client.rbd-mirror.a"]}.
Proof.
  cbv zeta.
  destruct (C5_cleanup_removes_stale_instances noFault (mirror "my-rbd-mirror" ∅)
              threeMirrors (fun _ _ => eq_refl))
    as (Hnil & _ & Hmany).
  { repeat constructor; cbn; intuition discriminate. }
  destruct Hmany as (Hdeps & _ & Hkeys); [vm_compute; lia|].
  split; [exact Hnil|]. split.
  - unfold names. rewrite Hdeps. vm_compute. reflexivity.
  - rewrite Hkeys. vm_compute. reflexivity.
Defined.

(** C6, as stated, fails. The deletion of the credential of [b] fails:
    [start] still returns nil, but the pass ends there and the stale
    instance [c] and its credential stay. *)
Lemma C6_failed_credential_deletion_ends_the_pass :
  let result := start authFault reconciler (mirror "my-rbd-mirror" ∅) threeMirrors in
  fst result = None
  /\ names (snd result) = ["rook-ceph-rbd-mirror-a"; "rook-ceph-rbd-mirror-c"]
  /\ calls (snd result)
     = [GenerateKeyring "client.rbd-mirror.a"; Create desired; Update desired;
        List "app" AppName; Delete "rook-ceph-rbd-mirror-b";
        AuthDelete "client.rbd-mirror.b"]
  /\ "client.rbd-mirror.c" ∈ keys (snd result).
Proof.
  cbv zeta. split; [|split; [|split]]; vm_compute; reflexivity.
Qed.

(** The amended C6 when the deletion of the deployment of [b] fails:
    [start] returns nil, the pass still tries [c], and the credentials
    of [b] and [c] are gone. And when the credential of [b] cannot be
    deleted: the pass returns the error after the two deletions for [b],
    and the credentials of [b] and [c] are still there. *)
Lemma C6_cleanup_failures_are_not_fatal_witness :
  let m := mirror "my-rbd-mirror" ∅ in
  fst (start deleteFault reconciler m threeMirrors) = None
  /\ (let result := removeExtraMirrors deleteFault m threeMirrors in
      fst result = None
      /\ keys (snd result) = {["client.rbd-mirror.a"]}
      /\ In (Called (Delete "rook-ceph-rbd-mirror-c")) (events (snd result))
      /\ names (snd result) = ["rook-ceph-rbd-mirror-a"; "rook-ceph-rbd-mirror-b"])
  /\ (let result := removeExtraMirrors authFault m threeMirrors in
      fst result = Some Unavailable
      /\ called (events (snd result))
         = [List "app" AppName; Delete "rook-ceph-rbd-mirror-b";
            AuthDelete "client.rbd-mirror.b"]
      /\ keys (snd result) = keys threeMirrors).
Proof.
  cbv zeta.
  destruct (@C6_cleanup_failures_are_not_fatal rbdHelpers deleteFault reconciler
              (mirror "my-rbd-mirror" ∅) threeMirrors) as (Hstart & Hpass & _).
  destruct (@C6_cleanup_failures_are_not_fatal rbdHelpers authFault reconciler
              (mirror "my-rbd-mirror" ∅) threeMirrors) as (_ & _ & Hrefused).
  split; [|split].
  - apply Hstart; [intros []|]. vm_compute. pick_event.
  - destruct Hpass as (Hnil & Hkeys & Hcalls);
      [reflexivity|reflexivity|vm_compute; lia|].
    split; [exact Hnil|]. split; [rewrite Hkeys; vm_compute; reflexivity|]. split.
    + apply (Hcalls mirrorC); [vm_compute; tauto|reflexivity].
    + vm_compute. reflexivity.
  - destruct (Hrefused [desired] mirrorB [mirrorC] "b")
      as (Herr & Hcalled & _ & Hkeys & _).
    + vm_compute. reflexivity.
    + vm_compute. lia.
    + reflexivity.
    + intros x n [<-|[]] Hn. vm_compute in Hn. discriminate.
    + vm_compute. reflexivity.
    + intros t. vm_compute. reflexivity.
    + split; [exact Herr|]. split; [rewrite Hcalled; vm_compute; reflexivity|].
      rewrite Hkeys. vm_compute. reflexivity.
Defined.

End RbdExamples.

(** ** Further properties of the shell programs *)

Section ShellInvariants.
Import Shell ShellProps ShellEffects.

Lemma hex_inj n n' : hex n = hex n' -> n = n'.
Proof.
  unfold hex. intros Heq.
  apply HexadecimalN.Unsigned.to_uint_inj.
  assert (Hnn : forall m, N.to_hex_uint m <> Hexadecimal.Nil).
  { intros [|p]; [discriminate|]. apply HexadecimalPos.Unsigned.to_uint_nonnil. }
  pose proof (HexadecimalString.NilZero.usu _ (Hnn n)) as H1.
  pose proof (HexadecimalString.NilZero.usu _ (Hnn n')) as H2.
  rewrite Heq in H1. congruence.
Qed.

Lemma append_same_length_inj (a a' b b' : string) :
  String.length a = String.length a' -> a +:+ b = a' +:+ b' -> a = a' /\ b = b'.
Proof.
  revert a'. induction a as [|x a IH]; intros [|x' a'] Hlen Heq; try discriminate.
  - now split.
  - simpl in *. injection Heq as -> Heq. injection Hlen as Hlen.
    destruct (IH a' Hlen Heq) as [-> ->]. now split.
Qed.

(** X1. When source and destination are block devices whose major numbers
    have hex renderings of the same length, the comparison of the script is
    exact: it keeps the destination ([--no-clobber]) exactly when major and
    minor are the same, and replaces it ([--remove-destination]) otherwise. *)
Theorem X1_blockDevMapper_equal_width src dst (fs : gmap string node) ma mi ma' mi' :
  fs !! src = Some (BlockSpecial ma mi) ->
  fs !! dst = Some (BlockSpecial ma' mi') ->
  String.length (hex ma) = String.length (hex ma') ->
  blockDevMapper src dst fs
  = Next ("cp" :: (CP_ARGS ++ [if (ma =? ma')%N && (mi =? mi')%N
                               then "--no-clobber" else "--remove-destination"])
               ++ [src; dst]).
Proof.
  intros Hs Hd Hlen. unfold blockDevMapper, test_b, stat_tT. rewrite Hs, Hd.
  destruct (String.eqb_spec (hex ma +:+ hex mi) (hex ma' +:+ hex mi')) as [Heq|Hne].
  - apply append_same_length_inj in Heq as [H1 H2]; [|exact Hlen].
    apply hex_inj in H1, H2. subst. now rewrite !N.eqb_refl.
  - destruct (N.eqb_spec ma ma') as [->|]; [|reflexivity].
    destruct (N.eqb_spec mi mi') as [->|]; [|reflexivity]. contradiction.
Qed.

(** X2. Before its final [cp], the script fails exactly when the destination
    is a block device and the source does not exist ([stat] fails under
    [set -e]). Otherwise it ends with one [cp] of the source to the
    destination with the three fixed arguments, and with [--no-clobber] or
    [--remove-destination] exactly when the destination is a block device
    already. *)
Theorem X2_blockDevMapper_outcome src dst (fs : gmap string node) :
  ((exists code, blockDevMapper src dst fs = Exit code)
   <-> test_b dst fs = true /\ fs !! src = None)
  /\ (forall argv, blockDevMapper src dst fs = Next argv ->
        exists flags,
          argv = "cp" :: CP_ARGS ++ flags ++ [src; dst]
          /\ (if test_b dst fs
              then flags = ["--no-clobber"] \/ flags = ["--remove-destination"]
              else flags = [])).
Proof.
  unfold blockDevMapper. destruct (test_b dst fs) eqn:Hb.
  - unfold test_b in Hb. unfold stat_tT.
    destruct (fs !! dst) as [[ma' mi'|]|] eqn:Hd; try discriminate.
    destruct (fs !! src) as [[ma mi|]|] eqn:Hs.
    + split.
      * split; [|intros [_ [=]]].
        intros [code Hex]. destruct (String.eqb _ _); discriminate.
      * intros argv. destruct (String.eqb _ _); intros [= <-].
        -- exists ["--no-clobber"]. split; [reflexivity|now left].
        -- exists ["--remove-destination"]. split; [reflexivity|now right].
    + split.
      * split; [|intros [_ [=]]].
        intros [code Hex]. destruct (String.eqb _ _); discriminate.
      * intros argv. destruct (String.eqb _ _); intros [= <-].
        -- exists ["--no-clobber"]. split; [reflexivity|now left].
        -- exists ["--remove-destination"]. split; [reflexivity|now right].
    + split; [|discriminate]. split; [now intros _|]. intros _. now exists 1%nat.
  - split.
    + split; [intros [code [=]]|intros [[=] _]].
    + intros argv [= <-]. exists []. now split.
Qed.

(** X5. The key-retrieval script succeeds exactly when [curl] went through
    with a response that is JSON, holds the key under the data path of the
    engine version, and has no top-level [errors] member; the files are then
    as before, but for the key file, which holds the key, and the file of the
    response, which is gone. *)
Theorem X5_getKEK_success env dirname mktemp curl KEK_NAME KEY_PATH
    (fs fs' : gmap string content) :
  getKEKFromVaultWithToken env dirname mktemp curl KEK_NAME KEY_PATH fs = (Next tt, fs')
  <-> exists body key,
        curl (ARGS env dirname ++ [url env KEK_NAME]) = Some (Some body)
        /\ py_path (PYTHON_DATA_PARSE env ++ [KEK_NAME]) body = Some key
        /\ py_path ["errors"] body = None
        /\ fs' = delete mktemp
                   (<[KEY_PATH := Printed (Some key)]>
                      (<[KEY_PATH := Printed None]>
                         (<[mktemp := Payload (Some body)]>
                            (<[mktemp := Payload None]> fs)))).
Proof.
  unfold getKEKFromVaultWithToken, bind, write, modify, get, exit, ret,
    python_ok, python_print.
  destruct (curl _) as [[body|]|]; cbn [fst snd]; rewrite ?lookup_insert_eq.
  - destruct (py_path ["warnings"] body) as [w|];
      destruct (py_path (PYTHON_DATA_PARSE env ++ [KEK_NAME]) body) as [key|] eqn:Hkey;
      destruct (py_path ["errors"] body) as [e|] eqn:Herr;
      (split; [intros [= <-] | intros (b & k & [= <-] & Hk & He & ->)]);
      try congruence;
      try (exists body, key; repeat split; assumption).
    all: rewrite Hkey in Hk; injection Hk as <-; reflexivity.
  - split; [intros [=]|intros (b & k & [=] & _)].
  - split; [intros [=]|intros (b & k & [=] & _)].
Qed.


(** X6. When the key-retrieval script fails, its exit code is not 0 and the
    file of the response is left behind; the key file is untouched when
    [curl] failed or the response has a [warnings] or [errors] member, and
    is left empty otherwise (the response is not JSON, or holds no key). *)
Theorem X6_getKEK_failure env dirname mktemp curl KEK_NAME KEY_PATH
    (fs fs' : gmap string content) code :
  getKEKFromVaultWithToken env dirname mktemp curl KEK_NAME KEY_PATH fs = (Exit code, fs') ->
  code <> 0%nat
  /\ is_Some (fs' !! mktemp)
  /\ (mktemp <> KEY_PATH ->
      match curl (ARGS env dirname ++ [url env KEK_NAME]) with
      | Some (Some body) =>
        if isSome (py_path ["warnings"] body) || isSome (py_path ["errors"] body)
        then fs' !! KEY_PATH = fs !! KEY_PATH
        else fs' !! KEY_PATH = Some (Printed None)
      | Some None => fs' !! KEY_PATH = Some (Printed None)
      | None => fs' !! KEY_PATH = fs !! KEY_PATH
      end).
Proof.
  unfold getKEKFromVaultWithToken, bind, write, modify, get, exit, ret,
    python_ok, python_print.
  destruct (curl _) as [[body|]|]; cbn [fst snd]; rewrite ?lookup_insert_eq.
  - destruct (py_path ["warnings"] body) as [w|];
      destruct (py_path (PYTHON_DATA_PARSE env ++ [KEK_NAME]) body) as [key|];
      destruct (py_path ["errors"] body) as [e|];
      intros Heq; try discriminate; injection Heq as <- <-;
      (split; [discriminate|]); cbn [isSome orb]; split.
    all: try (intros Hne; rewrite ?lookup_insert_eq; rewrite ?lookup_insert_ne by congruence;
              reflexivity).
    all: destruct (decide (KEY_PATH = mktemp)) as [->|];
      rewrite ?lookup_insert_eq; rewrite ?lookup_insert_ne by congruence;
      rewrite ?lookup_insert_eq; eauto.
  - intros [= <- <-]. split; [discriminate|]. split.
    + destruct (decide (KEY_PATH = mktemp)) as [->|];
        [rewrite lookup_insert_eq|rewrite lookup_insert_ne, lookup_insert_eq by congruence];
        eauto.
    + intros _. apply lookup_insert_eq.
  - intros [= <- <-]. split; [discriminate|]. split.
    + rewrite lookup_insert_eq. eauto.
    + intros Hne. now rewrite lookup_insert_ne.
Qed.


Lemma touches_refl K B N stale w : touches K B N stale w w.
Proof. split; [now left|]. intros c Hc. now left. Qed.

Lemma touches_trans K B N stale w1 w2 w3 :
  touches K B N stale w1 w2 -> touches K B N stale w2 w3 -> touches K B N stale w1 w3.
Proof.
  intros [Hf1 Ht1] [Hf2 Ht2]. split.
  - destruct Hf1 as [H1|H1], Hf2 as [H2|H2]; rewrite H2, H1; auto.
    right. rewrite difference_difference_l_L. f_equal. apply union_idemp_L.
  - intros c Hc. destruct (Ht2 c Hc) as [Hin|Hnew]; [auto|tauto].
Qed.

Lemma touches_run h K B N (stale : Prop) c w :
  (c = DmsetupVersion \/ c = DmsetupTable N
   \/ (stale /\ (c = DmsetupRemoveForce N \/ c = CryptsetupLuksOpen K B N))) ->
  touches K B N stale w (snd (run h c w)).
Proof.
  intros Hc. unfold run. destruct (succeeds h (trace w) c); cbn [snd log files trace];
    (split; [now left|]); intros c' Hin; apply in_app_iff in Hin as [Hin|[<-|[]]];
    auto; tauto.
Qed.

Lemma touches_open h K B N (stale : Prop) w :
  stale -> touches K B N stale w (snd (open_encrypted_block h K B N w)).
Proof.
  intros Hst. unfold open_encrypted_block, bind.
  pose proof (touches_run h K B N stale (CryptsetupLuksOpen K B N) w) as Hrun.
  destruct (run h (CryptsetupLuksOpen K B N) w) as [[[]|e] w1]; cbn [snd] in *.
  - eapply touches_trans; [apply Hrun; tauto|].
    unfold rm_f. destruct (succeeds h (trace w1) (RmForce K));
      cbn [snd log files trace]; (split; [auto|]);
      intros c Hin; apply in_app_iff in Hin as [Hin|[<-|[]]]; auto; tauto.
  - apply Hrun. tauto.
Qed.

Lemma touches_weaken K B N (p q : Prop) w w' :
  (p -> q) -> touches K B N p w w' -> touches K B N q w w'.
Proof.
  intros Hpq [Hf Ht]. split; [exact Hf|]. intros c Hc.
  destruct (Ht c Hc) as [?|[?|[?|[? ?]]]]; auto. right. right. right. auto.
Qed.

Lemma touches_loop h K B N l : forall w,
  touches K B N (exists f, In f l /\ vanished h f = true) w
    (snd (for_in l (check_field h K B N) w)).
Proof.
  induction l as [|f l IH]; intros w; [apply touches_refl|].
  simpl. unfold bind.
  assert (Hstep : touches K B N (exists f0, In f0 (f :: l) /\ vanished h f0 = true) w
                    (snd (check_field h K B N f w))).
  { unfold check_field, vanished.
    destruct (matches_major_minor f) eqn:Hm; [|apply touches_refl].
    destruct (negb (is_dir h _)) eqn:Hd; [|apply touches_refl].
    assert (Hst : exists f0, In f0 (f :: l) /\ vanished h f0 = true).
    { exists f. split; [now left|]. unfold vanished. now rewrite Hm, Hd. }
    unfold bind.
    pose proof (touches_run h K B N _ (DmsetupRemoveForce N) w
                  (or_intror (or_intror (conj Hst (or_introl eq_refl))))) as Hrun.
    destruct (run h (DmsetupRemoveForce N) w) as [[[]|e] w1]; cbn [snd] in *;
      [|exact Hrun].
    eapply touches_trans; [exact Hrun|]. now apply touches_open. }
  destruct (check_field h K B N f w) as [[[]|e] w1]; cbn [snd] in *; [|exact Hstep].
  eapply touches_trans; [exact Hstep|].
  eapply touches_weaken; [|apply IH]. intros (f0 & Hin & Hv). exists f0. split; [now right|auto].
Qed.

(** X3. The open script removes a mapping, runs [luksOpen] or deletes the key
    file only if the mapped device is absent or a device under it is gone;
    beyond that it only reads the version and the table. The one file it can
    remove is the key file, and it creates none. *)
Theorem X3_openEncryptedBlock_touches h K B N P w :
  touches K B N
    (is_block h P = false \/ exists f, In f (dm_table h N) /\ vanished h f = true)
    w (snd (openEncryptedBlock h K B N P w)).
Proof.
  unfold openEncryptedBlock, bind at 1.
  pose proof (touches_run h K B N
                (is_block h P = false \/ exists f, In f (dm_table h N) /\ vanished h f = true)
                DmsetupVersion w (or_introl eq_refl)) as Hv.
  destruct (run h DmsetupVersion w) as [[[]|e] w1]; cbn [snd] in *; [|exact Hv].
  eapply touches_trans; [exact Hv|].
  destruct (is_block h P) eqn:Hb.
  - unfold bind, dmsetup_table. cbn [fst snd].
    apply touches_trans with (w2 := log (DmsetupTable N) w1).
    + split; [now left|]. cbn [log trace]. intros c Hin.
      apply in_app_iff in Hin as [Hin|[<-|[]]]; [now left|]. right. right. now left.
    + eapply touches_weaken; [|apply touches_loop]. tauto.
  - apply touches_open. now left.
Qed.


Lemma skip_digits_app d r :
  all_digits d = true -> skip_digits (d +:+ r) = skip_digits r.
Proof.
  induction d as [|a d IH]; [reflexivity|]. simpl. intros Hd.
  apply andb_prop in Hd as [Ha Hd]. rewrite Ha. now apply IH.
Qed.

Lemma skip_digits_split s :
  exists d, s = d +:+ skip_digits s /\ all_digits d = true.
Proof.
  induction s as [|a s (d & Hs & Hd)]; [now exists ""|]. simpl.
  destruct (is_digit a) eqn:Ha.
  - exists (String a d). split.
    + change (String a s = String a (d +:+ skip_digits s)). f_equal. exact Hs.
    + simpl. now rewrite Ha, Hd.
  - now exists "".
Qed.

Lemma string_of_uint_digits d : all_digits (DecimalString.NilEmpty.string_of_uint d) = true.
Proof. induction d; simpl; auto. Qed.

Lemma dec_digits n : all_digits (dec n) = true /\ dec n <> "".
Proof.
  unfold dec, DecimalString.NilZero.string_of_uint.
  destruct (N.to_uint n) eqn:Hn; (split; [|discriminate]);
    try reflexivity; rewrite <- Hn at 1; apply string_of_uint_digits.
Qed.

(** X4. A word of the table is taken for a device exactly when it starts
    with one or more digits, a colon and a digit; so every pair of decimal
    numbers [major:minor] is recognised, whatever follows it. *)
Theorem X4_matches_major_minor field :
  (matches_major_minor field = true
   <-> exists d a c rest,
         field = String a d +:+ ":" +:+ String c rest
         /\ all_digits (String a d) = true /\ is_digit c = true)
  /\ forall major minor rest,
       matches_major_minor (dec major +:+ ":" +:+ dec minor +:+ rest) = true.
Proof.
  assert (Hiff : forall f, matches_major_minor f = true
                 <-> exists d a c rest,
                       f = String a d +:+ ":" +:+ String c rest
                       /\ all_digits (String a d) = true /\ is_digit c = true).
  { intros f. unfold matches_major_minor, starts_with_digit. split.
    - intros Hm. apply andb_prop in Hm as [Hs Hr].
      destruct f as [|a f]; [discriminate|].
      destruct (skip_digits_split (String a f)) as (d & Hf & Hd).
      destruct (skip_digits (String a f)) as [|x r] eqn:Hsk; [discriminate|].
      destruct (Ascii.eqb_spec x ":") as [->|Hx].
      2:{ exfalso. destruct x as [[] [] [] [] [] [] [] []]; try discriminate.
          now apply Hx. }
      destruct r as [|c rest]; [discriminate|].
      destruct d as [|a' d].
      { simpl in Hf. injection Hf as -> ->. discriminate. }
      simpl in Hf. injection Hf as -> ->.
      exists d, a', c, rest. repeat split; auto.
    - intros (d & a & c & rest & -> & Hd & Hc). simpl in Hd.
      apply andb_prop in Hd as [Ha Hd]. simpl. rewrite Ha. simpl.
      rewrite skip_digits_app by exact Hd. simpl. exact Hc. }
  split; [apply Hiff|].
  intros major minor rest. apply Hiff.
  destruct (dec_digits major) as [Hd1 Hn1], (dec_digits minor) as [Hd2 Hn2].
  destruct (dec major) as [|a d]; [contradiction|].
  destruct (dec minor) as [|c r]; [contradiction|].
  exists d, a, c, (r +:+ rest). repeat split; auto.
  simpl in Hd2. now apply andb_prop in Hd2 as [? _].
Qed.

End ShellInvariants.

Section ShellInvariantsExamples.
Import Shell ShellProps ShellEffects Scenario.

(** X1 on a claim re-attached as [8:32] over the node of [8:16]. *)
Lemma X1_blockDevMapper_equal_width_witness :
  blockDevMapper "/set1-data-0" "/mnt/set1-data-0" reattached
  = Next ["cp"; "--archive"; "--dereference"; "--verbose"; "--remove-destination";
          "/set1-data-0"; "/mnt/set1-data-0"].
Proof.
  apply (X1_blockDevMapper_equal_width "/set1-data-0" "/mnt/set1-data-0" reattached
           8 32 8 16); vm_compute; reflexivity.
Defined.

(** X6 on a response that is not JSON. *)
Lemma X6_getKEK_failure_witness :
  let result := runGetKEK (Some None) in
  exit_code result <> 0%nat
  /\ is_Some (snd result !! "/tmp/tmp.Xq3")
  /\ snd result !! keyFile = Some (Printed None).
Proof.
  cbv zeta.
  destruct (X6_getKEK_failure vaultEnv (fun p => [p]) "/tmp/tmp.Xq3" (fun _ => Some None)
              "rook-ceph-osd-encryption-key-set1-data-0" keyFile ∅
              (snd (runGetKEK (Some None))) 1%nat)
    as (Hcode & Hleft & Hkey).
  { vm_compute. reflexivity. }
  split; [exact Hcode|]. split; [exact Hleft|].
  apply Hkey. discriminate.
Defined.
End ShellInvariantsExamples.

(** ** Further properties of the OSD pod *)

Section OsdPlanTheorems.
Import Osd OsdProps OsdPlan.
Context `{Helpers}.

Ltac split_mode osdProps osd :=
  destruct (onPVC osdProps) eqn:HonPVC;
  destruct (String.eqb (CVMode osd) "") eqn:Hempty; cbn [withCVMode CVMode];
  [ | destruct (String.eqb_spec (CVMode osd) "lvm") as [Hlvm|Hlvm];
      [ rewrite ?Hlvm
      | destruct (String.eqb (CVMode osd) "raw") eqn:Hraw ]
    | | destruct (String.eqb_spec (CVMode osd) "lvm") as [Hlvm|Hlvm];
      [ rewrite ?Hlvm
      | destruct (String.eqb (CVMode osd) "raw") eqn:Hraw ] ];
  cbn [String.eqb Ascii.eqb Bool.eqb andb negb].

Ltac pass_checks c osdProps :=
  match goal with
  | |- context [(length ?v =? 0)%nat] => destruct (length v =? 0)%nat; [discriminate|]
  end;
  destruct (if NetworkIsHost c then None
            else if NetworkIsMultus c then k8sutil_ApplyMultus c else None);
  [discriminate|];
  destruct (OwnerInfo_SetControllerReference c); [discriminate|];
  match goal with
  | |- context [if portable osdProps then applyTopologyAffinity ?o else None] =>
    destruct (if portable osdProps then applyTopologyAffinity o else None);
    [discriminate|]
  end.

(** What a successful [makeDeployment] returns, but for the volumes, the
    mounts and the arguments of the daemon. *)
Lemma makeDeployment_inversion c osdProps osd provisionConfig pod :
  makeDeployment c osdProps osd provisionConfig = Ok pod ->
  exists volumeMounts args volumes,
    pod = PodSpec.mk (NetworkIsHost c) (negb (IsAtLeastOctopus c))
            (EncryptedDevice osdProps || encrypted osdProps)
            (LogCollectorEnabled c && IsAtLeastOctopus c)
            (planSteps c osdProps osd provisionConfig
             ++ [controller_ChownCephDataDirsInitContainer
                   (DataPathMap.mk
                      (if rawOnPVC osdProps osd then osdDataDirPath osd else "") "")
                   volumeMounts PrivilegedRoot])
            (opconfig_ConfigureLivenessProbe
               (Container.mk "osd"
                  (Exec [if lvmOnPVC osdProps osd
                         then path_Join rookBinariesMountPath "tini" else "ceph-osd"])
                  args [] volumeMounts PrivilegedRoot)
             :: (if LogCollectorEnabled c
                 then [controller_LogCollectorContainer ("ceph-osd." +:+ Itoa (ID osd)) c]
                 else []))
            volumes.
Proof.
  unfold makeDeployment, planSteps, rawSteps, lvmOnPVC, rawOnPVC, effectiveOSD,
    effectiveMode, osdDataDirPath, configInit.
  split_mode osdProps osd; pass_checks c osdProps.
  all: intros Hpod; injection Hpod as <-.
  all: rewrite ?Hraw, ?negb_involutive;
    cbn [andb negb String.eqb Ascii.eqb Bool.eqb withCVMode CVMode ID].
  all: destruct (LogCollectorEnabled c); cbn [andb app].
  all: try (destruct (onPVCWithMetadata osdProps), (onPVCWithWal osdProps),
              (encrypted osdProps)).
  all: eexists _, _, _; reflexivity.
Qed.

(** X7. In the plan of [makeDeployment], the init containers are the steps of the
    mode (configuration, binary staging and device copy for [lvm] on a claim,
    whatever the encryption and the metadata and WAL claims; the raw steps for
    [raw] on a claim; the one activation otherwise, also for another mode on a
    claim) and then the ownership step, built over exactly the mounts of the
    daemon container. The daemon container, named osd, comes first, the log
    collector, if enabled, is the only other one. *)
Theorem X7_plan_by_mode c osdProps osd provisionConfig pod :
  makeDeployment c osdProps osd provisionConfig = Ok pod ->
  exists daemon,
    PodSpec.InitContainers pod
    = planSteps c osdProps osd provisionConfig ++ [ownership osdProps osd daemon]
    /\ Container.Name daemon = "osd"
    /\ Container.Command daemon
       = Exec [if lvmOnPVC osdProps osd then "/rook/tini" else "ceph-osd"]
    /\ PodSpec.Containers pod
       = opconfig_ConfigureLivenessProbe daemon
         :: (if LogCollectorEnabled c
             then [controller_LogCollectorContainer ("ceph-osd." +:+ Itoa (ID osd)) c]
             else []).
Proof.
  intros Hpod. apply makeDeployment_inversion in Hpod as (vms & args & vols & ->).
  eexists (Container.mk "osd" _ args [] vms PrivilegedRoot).
  split; [reflexivity|]. split; [reflexivity|]. split; [|reflexivity].
  cbn [Container.Command]. now destruct (lvmOnPVC osdProps osd).
Qed.

(** X12. The pod is in the host's process namespace exactly before Octopus, and its
    containers share one process namespace exactly when the log collector is
    enabled from Octopus on: never both. It is on the host's network exactly
    when the cluster network is the host's. *)
Theorem X12_process_namespaces c osdProps osd provisionConfig pod :
  makeDeployment c osdProps osd provisionConfig = Ok pod ->
  PodSpec.HostPID pod = negb (IsAtLeastOctopus c)
  /\ PodSpec.ShareProcessNamespace pod = LogCollectorEnabled c && IsAtLeastOctopus c
  /\ PodSpec.HostPID pod && PodSpec.ShareProcessNamespace pod = false
  /\ PodSpec.HostNetwork pod = NetworkIsHost c.
Proof.
  intros Hpod. apply makeDeployment_inversion in Hpod as (vms & args & vols & ->).
  cbn [PodSpec.HostPID PodSpec.ShareProcessNamespace PodSpec.HostNetwork].
  destruct (IsAtLeastOctopus c), (LogCollectorEnabled c); auto.
Qed.

Lemma In_planSteps c osdProps osd provisionConfig k :
  In k (planSteps c osdProps osd provisionConfig) ->
  In k ([configInit provisionConfig; snd getCopyBinariesContainer;
         getPVCInitContainer osdProps;
         snd (getActivateOSDInitContainer (ConfigDir c) (Namespace c) (Itoa (ID osd))
                (effectiveOSD osd) osdProps);
         getPVCInitContainerActivate (osdDataDirPath osd) osdProps;
         getPVCMetadataInitContainerActivate (osdDataDirPath osd) osdProps;
         getPVCWalInitContainerActivate (osdDataDirPath osd) osdProps;
         getEncryptedStatusPVCInitContainer (osdDataDirPath osd) osdProps;
         getExpandEncryptedPVCInitContainer (osdDataDirPath osd) osdProps;
         getActivatePVCInitContainer osdProps (Itoa (ID osd));
         getExpandPVCInitContainer osdProps (Itoa (ID osd))]
        ++ getPVCEncryptionOpenInitContainerActivate c (osdDataDirPath osd) osdProps
        ++ getPVCEncryptionInitContainerActivate (osdDataDirPath osd) osdProps).
Proof.
  unfold planSteps, rawSteps.
  destruct (lvmOnPVC osdProps osd); [|destruct (rawOnPVC osdProps osd)].
  - cbn [In app]. tauto.
  - destruct (onPVCWithMetadata osdProps), (onPVCWithWal osdProps),
      (encrypted osdProps); cbn [In app]; rewrite ?in_app_iff; cbn [In]; tauto.
  - cbn [In app]. tauto.
Qed.

(** X9. Every init container that is not handed in by the controller package runs
    under the security context of its kind of command: the copies of block
    devices under the pod security context, key retrieval and binary staging
    under none, and everything else (the opening of encrypted devices, the
    tools called directly, the activation script) privileged. *)
Theorem X9_security_contexts c osdProps osd provisionConfig pod :
  makeDeployment c osdProps osd provisionConfig = Ok pod ->
  forall k, In k (PodSpec.InitContainers pod) ->
            fromController provisionConfig k
            \/ Container.SecurityContext k = contextOf (Container.Command k).
Proof.
  intros Hpod. apply makeDeployment_inversion in Hpod as (vms & args & vols & ->).
  cbn [PodSpec.InitContainers]. intros k Hk. apply in_app_iff in Hk as [Hk|Hk].
  - apply In_planSteps in Hk. apply in_app_iff in Hk as [Hk|Hk].
    + cbn [In] in Hk.
      destruct Hk as [<-|Hk]; [left; now left|].
      repeat (destruct Hk as [<-|Hk]; [right; reflexivity|]). contradiction.
    + right. unfold getPVCEncryptionOpenInitContainerActivate,
        getPVCEncryptionInitContainerActivate, onPVCWithMetadata, onPVCWithWal in Hk.
      destruct (nonempty (walPVC osdProps)), (nonempty (metadataPVC osdProps)),
        (KMSIsEnabled c), (String.eqb (KMSProvider c) secrets_TypeVault),
        (KMSIsTokenAuthEnabled c); cbn [app In] in Hk.
      all: repeat (destruct Hk as [<-|Hk]; [reflexivity|]); try contradiction.
      all: repeat (destruct Hk as [Hk|Hk]; [subst k; reflexivity|]); contradiction.
  - destruct Hk as [<-|[]]. left. right. eexists _, _. reflexivity.
Qed.

Lemma length_zero {A} (l : list A) : (length l =? 0)%nat = isnil l.
Proof. now destruct l. Qed.

Lemma isnil_app {A} (l m : list A) : isnil (l ++ m) = isnil l && isnil m.
Proof. now destruct l. Qed.

(** What [makeDeployment] returns, as far as its checks go. *)
Lemma makeDeployment_failure c osdProps osd provisionConfig :
  match makeDeployment c osdProps osd provisionConfig with
  | Ok _ => failure c osdProps osd provisionConfig = None
  | Err err => failure c osdProps osd provisionConfig = Some err
  end.
Proof.
  unfold makeDeployment, failure, emptyVolumes, attachmentError, affinityError,
    effectiveMode.
  rewrite length_zero.
  split_mode osdProps osd.
  all: rewrite ?isnil_app, ?Hraw; cbn [isnil andb negb String.eqb Ascii.eqb Bool.eqb].
  all: rewrite ?andb_false_r, ?andb_true_r.
  all: destruct (encrypted osdProps), (KMSIsEnabled c); cbn [andb negb];
    rewrite ?isnil_app; cbn [isnil andb negb]; rewrite ?andb_false_r, ?andb_true_r.
  all: try (destruct (isnil (controller_PodVolumes provisionConfig "" false)
                      && isnil (getPVCOSDVolumes osdProps (ConfigDir c) (Namespace c) false));
            [reflexivity|]).
  all: destruct (if NetworkIsHost c then None
                 else if NetworkIsMultus c then k8sutil_ApplyMultus c else None);
    [reflexivity|].
  all: destruct (OwnerInfo_SetControllerReference c); [reflexivity|].
  all: unfold applyTopologyAffinity, nonempty; cbn [TopologyAffinity withCVMode ID].
  all: destruct (portable osdProps); [|reflexivity].
  all: destruct (String.eqb (TopologyAffinity osd) ""); [reflexivity|].
  all: cbn [andb negb].
  all: destruct (k8sutil_GenerateNodeAffinity (TopologyAffinity osd)); reflexivity.
Qed.

(** X8. [makeDeployment] makes four checks, in this order, and returns the
    error of the first that fails: with empty volumes, [errors.New] of
    that; else with an error of the network attachment, that error as it
    is; else with an error of the owner reference, that error wrapped with
    the name of the deployment; else with an error of the node affinity,
    that error wrapped with the id of the OSD. When none fails it returns
    a deployment. The volumes can only be empty for an OSD on a claim. *)
Theorem X8_makeDeployment_errors c osdProps osd provisionConfig :
  let result := makeDeployment c osdProps osd provisionConfig in
  let empty := emptyVolumes c osdProps osd provisionConfig in
  (empty = true -> result = Err (errors_New "empty volumes"))
  /\ (forall err,
         empty = false ->
         attachmentError c = Some err ->
         result = Err (Returned err))
  /\ (forall err,
         empty = false ->
         attachmentError c = None ->
         OwnerInfo_SetControllerReference c = Some err ->
         result
         = Err (errors_Wrapf err "failed to set owner reference to osd deployment %q"
                  [DeploymentName (ID osd)]))
  /\ (forall err,
         empty = false ->
         attachmentError c = None ->
         OwnerInfo_SetControllerReference c = None ->
         affinityError osdProps osd = Some err ->
         result
         = Err (errors_Wrapf err "failed to generate osd %d topology affinity"
                  [Int (ID osd)]))
  /\ (empty = false ->
      attachmentError c = None ->
      OwnerInfo_SetControllerReference c = None ->
      affinityError osdProps osd = None ->
      exists pod, result = Ok pod)
  /\ (onPVC osdProps = false -> empty = false).
Proof.
  cbv zeta. pose proof (makeDeployment_failure c osdProps osd provisionConfig) as Hres.
  unfold failure in Hres.
  split; [|split; [|split; [|split; [|split]]]].
  - intros He. rewrite He in Hres.
    destruct (makeDeployment c osdProps osd provisionConfig); congruence.
  - intros err He Ha. rewrite He, Ha in Hres.
    destruct (makeDeployment c osdProps osd provisionConfig); congruence.
  - intros err He Ha Ho. rewrite He, Ha, Ho in Hres.
    destruct (makeDeployment c osdProps osd provisionConfig); congruence.
  - intros err He Ha Ho Hn. rewrite He, Ha, Ho, Hn in Hres.
    destruct (makeDeployment c osdProps osd provisionConfig); congruence.
  - intros He Ha Ho Hn. rewrite He, Ha, Ho, Hn in Hres.
    destruct (makeDeployment c osdProps osd provisionConfig) as [pod|err];
      [now exists pod|discriminate].
  - unfold emptyVolumes. now intros ->.
Qed.

Ltac own_name := solve [repeat (first [left; reflexivity | right])].

Ltac literal_names :=
  cbv [ownNames blockPVCMapperInitContainer blockEncryptionKMSGetKEKInitContainer
       blockEncryptionOpenInitContainer blockEncryptionOpenMetadataInitContainer
       blockEncryptionOpenWalInitContainer blockPVCMapperEncryptionInitContainer
       blockPVCMapperEncryptionMetadataInitContainer
       blockPVCMapperEncryptionWalInitContainer blockPVCMetadataMapperInitContainer
       blockPVCWalMapperInitContainer expandPVCOSDInitContainer
       expandEncryptedPVCOSDInitContainer encryptedPVCStatusOSDInitContainer
       activatePVCOSDInitContainer] in *.

Ltac distinct Hcfg Hchown :=
  repeat (apply List.NoDup_cons;
          [ let Hin := fresh "Hin" in
            cbn [In]; intros Hin;
            repeat (destruct Hin as [Hin|Hin];
                    [ first [ discriminate Hin
                            | exfalso; apply Hcfg; first [rewrite <- Hin | rewrite Hin];
                              cbn [In]; own_name
                            | exfalso; eapply Hchown; left; symmetry; exact Hin
                            | exfalso; eapply Hchown; right; rewrite Hin;
                              cbn [In]; own_name ] | ]);
            exact Hin
          | ]);
  apply List.NoDup_nil.

(** X10. When the names the controller package gives to the configuration and
    ownership steps are none of the names [spec.go] gives, and differ from
    each other, no two init containers of a plan bear the same name. *)
Theorem X10_init_container_names_unique c osdProps osd provisionConfig pod :
  ~ In controller_ConfigInitContainerName ownNames ->
  (forall dataPathMap volumeMounts securityContext,
      ~ (controller_ConfigInitContainerName
         = Container.Name (controller_ChownCephDataDirsInitContainer
                             dataPathMap volumeMounts securityContext)
         \/ In (Container.Name (controller_ChownCephDataDirsInitContainer
                                  dataPathMap volumeMounts securityContext))
              ownNames)) ->
  makeDeployment c osdProps osd provisionConfig = Ok pod ->
  List.NoDup (map Container.Name (PodSpec.InitContainers pod)).
Proof.
  intros Hcfg Hchown Hpod.
  apply makeDeployment_inversion in Hpod as (vms & args & vols & ->).
  cbn [PodSpec.InitContainers]. unfold planSteps, rawSteps.
  destruct (lvmOnPVC osdProps osd); [|destruct (rawOnPVC osdProps osd)].
  - cbn. literal_names. distinct Hcfg Hchown.
  - unfold getPVCEncryptionOpenInitContainerActivate,
      getPVCEncryptionInitContainerActivate, onPVCWithMetadata, onPVCWithWal.
    match goal with
    | |- context [if KMSIsEnabled c then ?a else ?b] =>
      assert (Hkek : (if KMSIsEnabled c then a else b) = []
                     \/ (if KMSIsEnabled c then a else b) = [keyRetrieval c osdProps])
        by (destruct (KMSIsEnabled c), (String.eqb (KMSProvider c) secrets_TypeVault),
              (KMSIsTokenAuthEnabled c); auto);
      destruct Hkek as [-> | ->]
    end.
    all: destruct (nonempty (metadataPVC osdProps)), (nonempty (walPVC osdProps)),
           (encrypted osdProps).
    all: cbn; literal_names; distinct Hcfg Hchown.
  - cbn. literal_names. distinct Hcfg Hchown.
Qed.

(** X11. The steps of an encrypted OSD in raw mode hand each device on by
    path, device by device and in this order. The raw steps are the
    copies of the raw devices, the open steps, the copies of the opened
    devices, then status, resize, priming and expansion. For each device
    (block, then metadata and WAL if claimed) the copy writes a file; the
    open step of that device opens that very file as the mapping of its
    claim, with the key file that key retrieval, when it is a step, has
    written before the first open step; the copy of the opened device
    reads that very mapping and writes the device's name in the data
    directory. The block device so written is the one priming is given,
    and status and resize work on the mapping of the block device. *)
Theorem X11_encrypted_hand_off c osdProps osd :
  encrypted osdProps = true ->
  let d := osdDataDirPath osd in
  rawSteps c osdProps osd
  = deviceCopies d osdProps
    ++ getPVCEncryptionOpenInitContainerActivate c d osdProps
    ++ getPVCEncryptionInitContainerActivate d osdProps
    ++ [getEncryptedStatusPVCInitContainer d osdProps;
        getExpandEncryptedPVCInitContainer d osdProps;
        getActivatePVCInitContainer osdProps (Itoa (ID osd));
        getExpandPVCInitContainer osdProps (Itoa (ID osd))]
  /\ map step (deviceCopies d osdProps) = map (copyStep d) (devices osdProps)
  /\ map step (getPVCEncryptionOpenInitContainerActivate c d osdProps)
     = (if retrievesKey c
        then [(blockEncryptionKMSGetKEKInitContainer,
               Bash (getKEKFromVaultWithToken
                       (kms_GenerateOSDEncryptionSecretName (pvc osdProps))
                       encryptionKeyPath))]
        else [])
       ++ map (openStep d) (devices osdProps)
  /\ map step (getPVCEncryptionInitContainerActivate d osdProps)
     = map (encryptedCopyStep d) (devices osdProps)
  /\ Container.Args (getActivatePVCInitContainer osdProps (Itoa (ID osd)))
     = ["prime-osd-dir"; "--dev"; path_Join d bluestoreBlockName; "--path"; d;
        "--no-mon-config"]
  /\ Container.Args (getEncryptedStatusPVCInitContainer d osdProps)
     = ["--verbose"; "status"; encryptionDMName (pvc osdProps) DmcryptBlockType]
  /\ Container.Args (getExpandEncryptedPVCInitContainer d osdProps)
     = ["--verbose"; "resize"; encryptionDMName (pvc osdProps) DmcryptBlockType].
Proof.
  intros Henc d. subst d.
  unfold rawSteps, deviceCopies, devices, retrievesKey,
    getPVCEncryptionOpenInitContainerActivate, getPVCEncryptionInitContainerActivate,
    getPVCInitContainerActivate, getPVCMetadataInitContainerActivate,
    getPVCWalInitContainerActivate, onPVCWithMetadata, onPVCWithWal.
  rewrite Henc.
  split; [|split; [|split; [|split; [|split; [|split]]]]]; try reflexivity.
  - destruct (nonempty (metadataPVC osdProps)), (nonempty (walPVC osdProps));
      cbn [app]; rewrite <- ?app_assoc; reflexivity.
  - destruct (nonempty (metadataPVC osdProps)), (nonempty (walPVC osdProps)); reflexivity.
  - destruct (nonempty (metadataPVC osdProps)), (nonempty (walPVC osdProps)),
      (KMSIsEnabled c), (String.eqb (KMSProvider c) secrets_TypeVault),
      (KMSIsTokenAuthEnabled c); reflexivity.
  - destruct (nonempty (metadataPVC osdProps)), (nonempty (walPVC osdProps)); reflexivity.
Qed.

End OsdPlanTheorems.

Section OsdPlanExamples.
Import Osd OsdProps OsdPlan Sample.

(** X7 on the encrypted OSD with a metadata claim, in [lvm] mode. *)
Lemma X7_plan_by_mode_witness :
  exists pod,
    makeDeployment vaultCluster encryptedWithMetadata (osd0 "lvm" "") dataPathMap = Ok pod
    /\ map Container.Name (PodSpec.InitContainers pod)
       = ["config-init"; "copy-bins"; "blkdevmapper"; "chown-container-data-dir"]
    /\ map Container.Name (PodSpec.Containers pod) = ["osd"].
Proof.
  eexists. split; [vm_compute; reflexivity|].
  match goal with
  | |- map _ (PodSpec.InitContainers ?p) = _ /\ _ =>
    assert (Hpod : makeDeployment vaultCluster encryptedWithMetadata (osd0 "lvm" "")
                     dataPathMap = Ok p) by (vm_compute; reflexivity);
    destruct (@X7_plan_by_mode osdHelpers vaultCluster encryptedWithMetadata
                (osd0 "lvm" "") dataPathMap p Hpod)
      as (daemon & Hinit & Hname & _ & Hcontainers)
  end.
  split.
  - rewrite Hinit. vm_compute. reflexivity.
  - rewrite Hcontainers. cbn. now rewrite Hname.
Defined.

(** X9 on the same OSD in raw mode. *)
Lemma X9_security_contexts_witness :
  exists pod,
    makeDeployment vaultCluster encryptedWithMetadata (osd0 "raw" "") dataPathMap = Ok pod
    /\ forall k, In k (PodSpec.InitContainers pod) ->
                 fromController dataPathMap k
                 \/ Container.SecurityContext k = contextOf (Container.Command k).
Proof.
  eexists. split; [vm_compute; reflexivity|].
  apply (@X9_security_contexts osdHelpers vaultCluster encryptedWithMetadata
           (osd0 "raw" "") dataPathMap).
  vm_compute. reflexivity.
Defined.

(** X10 on the same OSD in raw mode. *)
Lemma X10_init_container_names_unique_witness :
  exists pod,
    makeDeployment vaultCluster encryptedWithMetadata (osd0 "raw" "") dataPathMap = Ok pod
    /\ List.NoDup (map Container.Name (PodSpec.InitContainers pod)).
Proof.
  eexists. split; [vm_compute; reflexivity|].
  apply (@X10_init_container_names_unique osdHelpers vaultCluster encryptedWithMetadata
           (osd0 "raw" "") dataPathMap).
  - vm_compute. intuition discriminate.
  - intros dp vms sc. vm_compute. intuition discriminate.
  - vm_compute. reflexivity.
Defined.

(** X11 on the same OSD: the copies of the opened block and metadata
    devices. *)
Lemma X11_encrypted_hand_off_witness :
  map step
    (getPVCEncryptionInitContainerActivate "/var/lib/ceph/osd/ceph-0"
       encryptedWithMetadata)
  = [("blkdevmapper-encryption",
      Bash (blockDevMapper "/dev/mapper/set1-data-0-block-dmcrypt"
              "/var/lib/ceph/osd/ceph-0/block"));
     ("blkdevmapper-metadata-encryption",
      Bash (blockDevMapper "/dev/mapper/set1-metadata-0-db-dmcrypt"
              "/var/lib/ceph/osd/ceph-0/block.db"))].
Proof.
  exact (proj1 (proj2 (proj2 (proj2
           (@X11_encrypted_hand_off osdHelpers vaultCluster encryptedWithMetadata
              (osd0 "raw" "") eq_refl))))).
Defined.

(** X12 on the same OSD, on Octopus without log collector. *)
Lemma X12_process_namespaces_witness :
  exists pod,
    makeDeployment vaultCluster encryptedWithMetadata (osd0 "raw" "") dataPathMap = Ok pod
    /\ PodSpec.HostPID pod = false
    /\ PodSpec.ShareProcessNamespace pod = false.
Proof.
  eexists. split; [vm_compute; reflexivity|].
  match goal with
  | |- PodSpec.HostPID ?p = _ /\ _ =>
    assert (Hpod : makeDeployment vaultCluster encryptedWithMetadata (osd0 "raw" "")
                     dataPathMap = Ok p) by (vm_compute; reflexivity);
    destruct (@X12_process_namespaces osdHelpers vaultCluster encryptedWithMetadata
                (osd0 "raw" "") dataPathMap p Hpod) as (Hpid & Hshare & _)
  end.
  split; [exact Hpid|exact Hshare].
Defined.
End OsdPlanExamples.

(** ** Further properties of the rbd-mirror reconciler *)

Section RbdRunsTheorems.
Import Rbd RbdProps RbdRuns.
Context `{Helpers}.
Variable fault : list event -> call -> bool.
Variable r : ReconcileCephRBDMirror.

(** X13. When the owner reference cannot be had, [start] returns at once and leaves
    the cluster as it is; and when the reference is nil without an error, what
    it returns is nil, the wrapping of no error. *)
Theorem X13_start_without_owner_reference cephRBDMirror s ref err :
  controller_CheckPodMemory ResourcesKeyRBDMirror
    (CephRBDMirror.Resources cephRBDMirror) cephRbdMirrorPodMinimumMemory = None ->
  opcontroller_GetControllerObjectOwnerReference cephRBDMirror = (ref, err) ->
  err <> None \/ ref = None ->
  start fault r cephRBDMirror s
  = (match err with
     | Some e => Some (Wrap e "failed to get controller %q owner reference")
     | None => None
     end, s).
Proof.
  intros Hmem Href Hnil. unfold start, start_body. rewrite Hmem, Href.
  unfold bind at 1. cbn [ret]. unfold bind at 1.
  assert (bool_decide (err <> None) || bool_decide (ref = None) = true) as ->.
  { apply orb_true_iff. destruct Hnil; [left|right]; now apply bool_decide_eq_true. }
  destruct err; reflexivity.
Qed.

(** *** The errors of [start] *)

Lemma exitsWrapped_bind {A B} (p : Prog (option error) cluster A)
    (k : A -> Prog (option error) cluster B) :
  exitsWrapped p -> (forall x, exitsWrapped (k x)) -> exitsWrapped (bind p k).
Proof.
  intros Hp Hk s e s' Hrun. unfold bind in Hrun.
  destruct (p s) as [[x|e1] s1] eqn:Hps.
  - eapply Hk; eauto.
  - simplify_eq. eapply Hp; eauto.
Qed.

Lemma exitsWrapped_do {A} (f : cluster -> A * cluster) : exitsWrapped (do f).
Proof. intros s e s' Hrun. discriminate. Qed.

Lemma exitsWrapped_logf l format args : exitsWrapped (logf l format args).
Proof. intros s e s' Hrun. discriminate. Qed.

Lemma exitsWrapped_ret {A} (a : A) : exitsWrapped (ret a).
Proof. intros s e s' Hrun. discriminate. Qed.

Lemma exitsWrapped_exit {A} e : wrapped e -> exitsWrapped (@exit _ _ A e).
Proof. intros He s e' s' Hrun. unfold exit in Hrun. now simplify_eq. Qed.

Ltac wrapped_message := cbn; solve [repeat (first [left; reflexivity | right])].

Ltac wrapped_check :=
  match goal with
  | |- exitsWrapped (match ?x with Some _ => _ | None => _ end) =>
    destruct x; [apply exitsWrapped_exit; wrapped_message|apply exitsWrapped_ret]
  end.

(** X14. An error that [start] returns is always one it has wrapped itself, in one
    of nine contexts: an error of the cleanup pass never comes out. *)
Theorem X14_start_errors_are_wrapped cephRBDMirror s :
  match fst (start fault r cephRBDMirror s) with
  | Some e => exists cause msg, e = Wrap cause msg /\ In msg startMessages
  | None => True
  end.
Proof.
  assert (Hbody : exitsWrapped (start_body fault r cephRBDMirror)).
  { unfold start_body.
    apply exitsWrapped_bind; [wrapped_check|intros _].
    destruct (opcontroller_GetControllerObjectOwnerReference cephRBDMirror) as [ref err].
    apply exitsWrapped_bind; [|intros _].
    { destruct (_ || _); [|apply exitsWrapped_ret].
      apply exitsWrapped_exit. destruct err; [wrapped_message|exact I]. }
    apply exitsWrapped_bind; [apply exitsWrapped_logf|intros _].
    apply exitsWrapped_bind; [apply exitsWrapped_do|intros err1].
    apply exitsWrapped_bind; [wrapped_check|intros _].
    destruct (makeDeployment _ cephRBDMirror) as [d err2].
    apply exitsWrapped_bind; [wrapped_check|intros _].
    destruct (controllerutil_SetControllerReference cephRBDMirror d) as [d1 err3].
    apply exitsWrapped_bind; [wrapped_check|intros _].
    destruct (SetLastAppliedAnnotation d1) as [d2 err4].
    apply exitsWrapped_bind; [wrapped_check|intros _].
    apply exitsWrapped_bind; [apply exitsWrapped_do|intros err5].
    apply exitsWrapped_bind.
    - destruct err5 as [e5|]; [|apply exitsWrapped_ret].
      apply exitsWrapped_bind; [|intros _].
      { destruct (negb _); [apply exitsWrapped_exit; wrapped_message|apply exitsWrapped_ret]. }
      apply exitsWrapped_bind; [apply exitsWrapped_logf|intros _].
      apply exitsWrapped_bind; [apply exitsWrapped_do|intros err6].
      destruct err6 as [e6|]; [|apply exitsWrapped_ret].
      apply exitsWrapped_bind; [apply exitsWrapped_logf|intros _].
      apply exitsWrapped_bind; [apply exitsWrapped_do|intros err7].
      apply exitsWrapped_bind; [wrapped_check|intros _].
      apply exitsWrapped_bind; [apply exitsWrapped_do|intros err8].
      wrapped_check.
    - intros _. apply exitsWrapped_bind; [apply exitsWrapped_logf|intros _].
      apply exitsWrapped_bind; [apply exitsWrapped_do|intros err9].
      apply exitsWrapped_bind; [|intros _; now apply exitsWrapped_exit].
      destruct err9; [apply exitsWrapped_logf|apply exitsWrapped_ret]. }
  unfold start. destruct (start_body fault r cephRBDMirror s) as [[[]|e] s'] eqn:Hrun.
  - exact I.
  - apply Hbody in Hrun. cbn [returned fst]. destruct e as [e|]; [|exact I].
    destruct e; try contradiction. eauto.
Qed.

(** *** The cleanup pass, whatever fails *)

Lemma removeExtraMirrors_loop_touches deploy s :
  let s' := snd (removeExtraMirrors_loop fault deploy s) in
  (deployments s' = deployments s
   \/ (isStale deploy = true
       /\ deployments s'
          = List.filter (fun d => negb (named (Deployment.Name deploy) d)) (deployments s)))
  /\ (keys s' = keys s
      \/ exists daemonName,
           staleName deploy = Some daemonName
           /\ keys s' = keys s ∖ {[fullDaemonName daemonName]}).
Proof.
  cbv zeta. unfold removeExtraMirrors_loop, isStale, staleName.
  destruct (Deployment.Labels deploy !! "rbd-mirror") as [daemonName|]; [|now split; left].
  destruct (k8sutil_NameToIndex daemonName) as [index [err|]]; [now split; left|].
  destruct (index =? 0)%Z; [now split; left|].
  unfold bind, logf, modify, do, Deployments_Delete, client_AuthDelete, invoke, exit, ret.
  cbn [fst snd record events].
  destruct (fault _ (Delete _)); cbn [fst snd record events deployments keys].
  - destruct (fault _ (AuthDelete _)); cbn; split; eauto.
  - destruct (exists_named _ _); cbn [fst snd record events deployments keys with_deployments].
    + destruct (fault _ (AuthDelete _)); cbn; split; eauto.
    + destruct (fault _ (AuthDelete _)); cbn; split; eauto.
Qed.

Lemma difference_union_r (X A B : gset string) : X ∖ (A ∪ B) ⊆ X ∖ B.
Proof.
  intros x Hx. apply elem_of_difference in Hx as [Hx Hn].
  apply elem_of_difference. split; [exact Hx|].
  intros HB. apply Hn, elem_of_union. now right.
Qed.

Lemma difference_union_single (X B : gset string) a :
  X ∖ ({[a]} ∪ B) ⊆ X ∖ {[a]} ∖ B.
Proof.
  intros x Hx. apply elem_of_difference in Hx as [Hx Hn].
  apply elem_of_difference. split.
  - apply elem_of_difference. split; [exact Hx|].
    intros Ha. apply Hn, elem_of_union. now left.
  - intros HB. apply Hn, elem_of_union. now right.
Qed.

Lemma removeExtraMirrors_loop_spares l :
  forall s,
    let s' := snd (for_in l (removeExtraMirrors_loop fault) s) in
    (forall x, In x (deployments s') -> In x (deployments s))
    /\ (forall x, In x (deployments s) -> removedBy l x = false -> In x (deployments s'))
    /\ keys s' ⊆ keys s
    /\ keys s ∖ credentials l ⊆ keys s'.
Proof.
  induction l as [|d l IH]; intros s; cbv zeta.
  - cbn. split; [auto|]. split; [auto|]. split; [reflexivity|].
    unfold credentials. cbn. apply subseteq_difference_l. reflexivity.
  - assert (Hone : let s1 := snd (removeExtraMirrors_loop fault d s) in
                   (forall x, In x (deployments s1) -> In x (deployments s))
                   /\ (forall x, In x (deployments s) -> removedBy (d :: l) x = false ->
                                 In x (deployments s1))
                   /\ keys s1 ⊆ keys s
                   /\ keys s ∖ credentials (d :: l) ⊆ keys s1 ∖ credentials l).
    { pose proof (removeExtraMirrors_loop_touches d s) as [Hdeps Hkeys]. cbv zeta in *.
      split; [|split; [|split]].
      - intros x Hx. destruct Hdeps as [Heq|[_ Heq]]; rewrite Heq in Hx; [auto|].
        now apply filter_In in Hx.
      - intros x Hx Hrem. unfold removedBy in Hrem. cbn [existsb] in Hrem.
        apply orb_false_iff in Hrem as [Hd Hrem].
        destruct Hdeps as [Heq|[Hst Heq]]; rewrite Heq; [auto|].
        apply filter_In. split; [exact Hx|]. rewrite Hst in Hd. cbn in Hd. now rewrite Hd.
      - destruct Hkeys as [Heq|(n & _ & Heq)]; rewrite Heq; [reflexivity|].
        apply subseteq_difference_l. reflexivity.
      - rewrite credentials_cons.
        destruct Hkeys as [Heq|(n & Hn & Heq)]; rewrite Heq.
        + destruct (staleName d); [apply difference_union_r|reflexivity].
        + rewrite Hn. apply difference_union_single. }
    cbv zeta in Hone. destruct Hone as (H1 & H2 & H3 & H4).
    cbn [for_in]. unfold bind.
    destruct (removeExtraMirrors_loop fault d s) as [[[]|e] s1]; cbn [snd] in *.
    + destruct (IH s1) as (Hsub & Hkeep & Hk1 & Hk2). cbv zeta in *.
      split; [auto|]. split; [|split].
      * intros x Hx Hrem. apply Hkeep; [auto|].
        unfold removedBy in *. cbn [existsb] in Hrem. now apply orb_false_iff in Hrem.
      * etrans; eauto.
      * etrans; eauto.
    + split; [auto|]. split; [auto|]. split; [auto|].
      etrans; [exact H4|]. apply subseteq_difference_l. reflexivity.
Qed.

(** X15. Whatever call fails, the cleanup pass creates nothing and removes only
    what it is after: a deployment stays unless a stale instance of the class
    bears its name, and a credential stays unless it is the one of a stale
    instance. With at most one deployment of the class nothing changes, and
    when the listing fails the error is returned, wrapped, with nothing
    changed. *)
Theorem X15_cleanup_spares_the_rest cephRBDMirror s :
  let result := removeExtraMirrors fault cephRBDMirror s in
  (forall x, In x (deployments (snd result)) -> In x (deployments s))
  /\ (forall x, In x (deployments s) -> removedBy (mirrors s) x = false ->
                In x (deployments (snd result)))
  /\ keys (snd result) ⊆ keys s
  /\ keys s ∖ credentials (mirrors s) ⊆ keys (snd result)
  /\ (length (mirrors s) <= 1 ->
      deployments (snd result) = deployments s /\ keys (snd result) = keys s)
  /\ (fault (events s) (List "app" AppName) = true ->
      result = (Some (Wrap Unavailable "failed to get mirrors"),
                record (Called (List "app" AppName)) s)).
Proof.
  cbv zeta. destruct (fault (events s) (List "app" AppName)) eqn:Hlist.
  - assert (removeExtraMirrors fault cephRBDMirror s
            = (Some (Wrap Unavailable "failed to get mirrors"),
               record (Called (List "app" AppName)) s)) as ->.
    { unfold removeExtraMirrors, removeExtraMirrors_body, bind at 1.
      unfold do, Deployments_List, invoke. now rewrite Hlist. }
    cbn [fst snd record deployments keys].
    split; [auto|]. split; [auto|]. split; [reflexivity|].
    split; [apply subseteq_difference_l; reflexivity|]. split; auto.
  - rewrite removeExtraMirrors_listed by exact Hlist.
    destruct (Nat.ltb_spec 1 (length (mirrors s))) as [Hlt|Hle].
    + pose proof (removeExtraMirrors_loop_spares (mirrors s)
                    (record (Called (List "app" AppName)) s)) as Hloop.
      cbv zeta in Hloop. cbn [record deployments keys] in Hloop.
      destruct (for_in _ _ _) as [[[]|e] s']; cbn [returned snd] in *.
      all: destruct Hloop as (H1 & H2 & H3 & H4).
      all: split; [exact H1|]; split; [exact H2|]; split; [exact H3|]; split; [exact H4|].
      all: split; [lia|discriminate].
    + cbn [ret returned fst snd record deployments keys].
      split; [auto|]. split; [auto|]. split; [reflexivity|].
      split; [apply subseteq_difference_l; reflexivity|]. split; [auto|discriminate].
Qed.

(** *** [start] when no call fails *)

Lemma existsb_find {A} (f : A -> bool) (l : list A) :
  existsb f l = true -> exists x, List.find f l = Some x /\ In x l /\ f x = true.
Proof.
  intros Hex. destruct (List.find f l) as [x|] eqn:Hfind.
  - exists x. split; [reflexivity|]. now apply find_some in Hfind.
  - apply existsb_exists in Hex as (x & Hx & Hfx).
    now rewrite (find_none _ _ Hfind x Hx) in Hfx.
Qed.

Lemma filter_idem {A} (f : A -> bool) (l : list A) :
  List.filter f (List.filter f l) = List.filter f l.
Proof.
  induction l as [|x l IH]; [reflexivity|]. cbn.
  destruct (f x) eqn:Hfx; cbn; rewrite ?Hfx, IH; reflexivity.
Qed.

Lemma NoDup_names_filter (f : Deployment.t -> bool) ds :
  List.NoDup (map Deployment.Name ds) ->
  List.NoDup (map Deployment.Name (List.filter f ds)).
Proof.
  induction ds as [|x ds IH]; [auto|]. cbn. intros Hnd.
  apply List.NoDup_cons_iff in Hnd as [Hx Hnd].
  destruct (f x); [|auto]. cbn. apply List.NoDup_cons; [|auto].
  intros Hin. apply Hx. apply in_map_iff in Hin as (y & Hy & Hin).
  apply in_map_iff. exists y. split; [exact Hy|]. now apply filter_In in Hin.
Qed.

Lemma names_upsert d ds :
  existsb (named (Deployment.Name d)) ds = true ->
  map Deployment.Name (map (fun x => if named (Deployment.Name d) x then d else x) ds)
  = map Deployment.Name ds.
Proof.
  intros _. rewrite map_map. apply map_ext. intros x. unfold named.
  destruct (String.eqb_spec (Deployment.Name x) (Deployment.Name d)); congruence.
Qed.

Lemma NoDup_names_upsert d ds :
  List.NoDup (map Deployment.Name ds) ->
  List.NoDup (map Deployment.Name (upsert d ds)).
Proof.
  intros Hnd. unfold upsert.
  destruct (existsb (named (Deployment.Name d)) ds) eqn:Hex.
  - now rewrite names_upsert.
  - rewrite map_app. cbn. apply List.NoDup_app; [exact Hnd| |].
    + apply List.NoDup_cons; [intros []|apply List.NoDup_nil].
    + intros n Hn [<-|[]]. apply in_map_iff in Hn as (x & Hx & Hin).
      assert (existsb (named (Deployment.Name d)) ds = true); [|congruence].
      apply existsb_exists. exists x. split; [exact Hin|].
      unfold named. rewrite Hx. apply String.eqb_refl.
Qed.

Lemma named_in_upsert d ds x :
  In x (upsert d ds) -> named (Deployment.Name d) x = true -> x = d.
Proof.
  unfold upsert. destruct (existsb (named (Deployment.Name d)) ds) eqn:Hex.
  - intros Hin Hx. apply in_map_iff in Hin as (y & Hy & _).
    destruct (named (Deployment.Name d) y) eqn:Hny; [congruence|]. subst y. congruence.
  - intros Hin Hx. apply in_app_iff in Hin as [Hin|[<-|[]]]; [|reflexivity].
    assert (existsb (named (Deployment.Name d)) ds = true); [|congruence].
    apply existsb_exists. eauto.
Qed.

Lemma In_upsert d ds : In d (upsert d ds).
Proof.
  unfold upsert. destruct (existsb (named (Deployment.Name d)) ds) eqn:Hex.
  - apply existsb_exists in Hex as (y & Hy & Hny). apply in_map_iff.
    exists y. now rewrite Hny.
  - apply in_app_iff. right. now left.
Qed.

Lemma upsert_present d ds :
  In d ds -> (forall x, In x ds -> named (Deployment.Name d) x = true -> x = d) ->
  upsert d ds = ds.
Proof.
  intros Hin Honly. unfold upsert.
  assert (existsb (named (Deployment.Name d)) ds = true) as ->.
  { apply existsb_exists. exists d. split; [exact Hin|]. apply String.eqb_refl. }
  rewrite <- (map_id ds) at 2. apply map_ext_in. intros x Hx.
  destruct (named (Deployment.Name d) x) eqn:Hn; [|reflexivity].
  symmetry. now apply Honly.
Qed.

Lemma cleaned_incl ds x : In x (cleaned ds) -> In x ds.
Proof.
  unfold cleaned. destruct (_ <? _)%nat; [|auto]. intros Hx. now apply filter_In in Hx.
Qed.

Lemma cleaned_idem ds : cleaned (cleaned ds) = cleaned ds.
Proof.
  unfold cleaned at 2. destruct (1 <? length (List.filter class ds))%nat eqn:Hlen.
  - unfold cleaned. rewrite Hlen, filter_idem.
    match goal with |- (if ?b then _ else _) = _ => destruct b; reflexivity end.
  - unfold cleaned. now rewrite Hlen.
Qed.

(** The cleanup when no call fails and names are unique. *)
Lemma removeExtraMirrors_no_fault cephRBDMirror s :
  (forall t c, fault t c = false) ->
  List.NoDup (map Deployment.Name (deployments s)) ->
  fst (removeExtraMirrors fault cephRBDMirror s) = None
  /\ deployments (snd (removeExtraMirrors fault cephRBDMirror s))
     = cleaned (deployments s).
Proof.
  intros Hnone Hnd. rewrite (removeExtraMirrors_listed fault) by apply Hnone.
  unfold cleaned. fold (mirrors s).
  destruct (1 <? length (mirrors s))%nat; [|now split].
  destruct (removeExtraMirrors_loop_all fault (mirrors s) (fun t e => Hnone t _)
              (record (Called (List "app" AppName)) s))
    as (s' & Hloop & _ & _ & _ & Hdeps).
  rewrite Hloop. cbn [returned fst snd]. split; [reflexivity|].
  rewrite (Hdeps (fun t n => Hnone t _)). cbn [record deployments].
  apply filter_ext_in. intros x Hx. unfold mirrors. now rewrite removedBy_mirrors.
Qed.

Ltac run_start Hnone :=
  unfold bind, ret, exit, logf, modify, do, generateKeyring, Deployments_Create,
    updateDeploymentAndWait, Deployments_Delete, invoke, exists_named;
  repeat (progress (cbn [fst snd record with_keys with_deployments deployments keys
                          events IsAlreadyExists negb];
                    rewrite ?Hnone)).

Lemma no_owner_check ref :
  bool_decide (@None error <> None) || bool_decide (Some ref = @None OwnerReference)
  = false.
Proof.
  apply orb_false_iff. split; apply bool_decide_eq_false; [|discriminate].
  intros Hneq. now apply Hneq.
Qed.

(** [start] when no call fails and the deployment of the name of [d], if
    there is one, has the selector of [d]. *)
Lemma start_applies cephRBDMirror s d :
  (forall t c, fault t c = false) ->
  prepared r cephRBDMirror d ->
  List.NoDup (map Deployment.Name (deployments s)) ->
  (forall live, In live (deployments s) -> named (Deployment.Name d) live = true ->
                Deployment.Selector live = Deployment.Selector d) ->
  fst (start fault r cephRBDMirror s) = None
  /\ deployments (snd (start fault r cephRBDMirror s))
     = cleaned (upsert d (deployments s)).
Proof.
  intros Hnone (Hmem & [ref Href] & d0 & d1 & Hmk & Hset & Hann) Hnd Hsel.
  pose proof (NoDup_names_upsert d _ Hnd) as Hnd1.
  unfold daemonConf in Hmk. unfold start, start_body.
  rewrite Hmem, Href, no_owner_check, Hmk, Hset, Hann.
  run_start Hnone. unfold upsert in *.
  destruct (existsb (named (Deployment.Name d)) (deployments s)) eqn:Hex.
  - run_start Hnone.
    destruct (existsb_find _ _ Hex) as (live & -> & Hin & Hnamed).
    rewrite bool_decide_eq_true_2 by now apply Hsel.
    cbn [fst snd]. run_start Hnone.
    match goal with
    | |- context [removeExtraMirrors fault cephRBDMirror ?s1] =>
      destruct (removeExtraMirrors_no_fault cephRBDMirror s1 Hnone Hnd1) as [Hnil Hdeps];
      destruct (removeExtraMirrors fault cephRBDMirror s1) as [err s2]
    end.
    cbn [fst snd] in *. subst err. split; [reflexivity|exact Hdeps].
  - cbn [fst snd]. run_start Hnone.
    match goal with
    | |- context [removeExtraMirrors fault cephRBDMirror ?s1] =>
      destruct (removeExtraMirrors_no_fault cephRBDMirror s1 Hnone Hnd1) as [Hnil Hdeps];
      destruct (removeExtraMirrors fault cephRBDMirror s1) as [err s2]
    end.
    cbn [fst snd] in *. subst err. split; [reflexivity|exact Hdeps].
Qed.

(** X16. When no call fails, the checks pass, names are unique and the
    deployment that bears the name of the desired one, if any, has its
    selector: [start] returns nil; the desired deployment has taken the place
    of that one or has been added, and the cleanup has removed the stale
    instances if the class has more than one deployment. If the desired
    deployment is not itself one the cleanup removes, a second [start] leaves
    the deployments as the first has left them. *)
Theorem X16_start_reconciles cephRBDMirror s d :
  (forall t c, fault t c = false) ->
  prepared r cephRBDMirror d ->
  List.NoDup (map Deployment.Name (deployments s)) ->
  (forall live, In live (deployments s) -> named (Deployment.Name d) live = true ->
                Deployment.Selector live = Deployment.Selector d) ->
  let s' := snd (start fault r cephRBDMirror s) in
  fst (start fault r cephRBDMirror s) = None
  /\ deployments s' = cleaned (upsert d (deployments s))
  /\ (stale d = false ->
      fst (start fault r cephRBDMirror s') = None
      /\ deployments (snd (start fault r cephRBDMirror s')) = deployments s').
Proof.
  intros Hnone Hprep Hnd Hsel. cbv zeta.
  destruct (start_applies cephRBDMirror s d Hnone Hprep Hnd Hsel) as [Hnil Hdeps].
  split; [exact Hnil|]. split; [exact Hdeps|]. intros Hst.
  assert (Honly : forall x, In x (deployments (snd (start fault r cephRBDMirror s))) ->
                            named (Deployment.Name d) x = true -> x = d).
  { intros x Hx Hn. rewrite Hdeps in Hx. apply cleaned_incl in Hx.
    eapply named_in_upsert; eauto. }
  destruct (start_applies cephRBDMirror (snd (start fault r cephRBDMirror s)) d Hnone Hprep)
    as [Hnil' Hdeps'].
  - rewrite Hdeps. unfold cleaned.
    destruct (_ <? _)%nat; [apply NoDup_names_filter|]; now apply NoDup_names_upsert.
  - intros live Hlive Hn. now rewrite (Honly live Hlive Hn).
  - split; [exact Hnil'|]. rewrite Hdeps'. rewrite upsert_present; [|  |exact Honly].
    + rewrite Hdeps. apply cleaned_idem.
    + rewrite Hdeps. unfold cleaned. destruct (_ <? _)%nat; [|apply In_upsert].
      apply filter_In. split; [apply In_upsert|]. now rewrite Hst.
Qed.

(** X17. When the in-place update is refused, the fallback deletes by the name of
    the mirror resource, not of the deployment. With no other failure: if no
    deployment bears that name, [start] fails on the delete and the deployments
    are as before; if another deployment bears it, that one is deleted and
    [start] fails on the recreation, the old deployment still being there;
    only if the mirror resource is named like the deployment is the old one
    replaced. *)
Theorem X17_fallback_goes_by_the_mirror_name cephRBDMirror s d live :
  (forall t c, fault t c = false) ->
  prepared r cephRBDMirror d ->
  List.find (named (Deployment.Name d)) (deployments s) = Some live ->
  Deployment.Selector live <> Deployment.Selector d ->
  let result := start fault r cephRBDMirror s in
  let others :=
    List.filter (fun x => negb (named (CephRBDMirror.Name cephRBDMirror) x))
      (deployments s) in
  (exists_named (CephRBDMirror.Name cephRBDMirror) s = false ->
   fst result
   = Some (Wrap (NotFound (CephRBDMirror.Name cephRBDMirror))
             "failed to delete rbd-mirror %q during del-and-recreate update attempt")
   /\ deployments (snd result) = deployments s)
  /\ (exists_named (CephRBDMirror.Name cephRBDMirror) s = true ->
      CephRBDMirror.Name cephRBDMirror <> Deployment.Name d ->
      fst result
      = Some (Wrap (AlreadyExists (Deployment.Name d))
                "failed to recreate rbd-mirror deployment %q during del-and-recreate update attempt")
      /\ deployments (snd result) = others
      /\ In live others)
  /\ (CephRBDMirror.Name cephRBDMirror = Deployment.Name d ->
      List.NoDup (map Deployment.Name (deployments s)) ->
      fst result = None /\ deployments (snd result) = cleaned (others ++ [d])).
Proof.
  intros Hnone (Hmem & [ref Href] & d0 & d1 & Hmk & Hset & Hann) Hfind Hsel. cbv zeta.
  pose proof (find_some _ _ Hfind) as [Hin Hnamed].
  assert (Hex : existsb (named (Deployment.Name d)) (deployments s) = true).
  { apply existsb_exists. eauto. }
  unfold daemonConf in Hmk. unfold start, start_body.
  rewrite Hmem, Href, no_owner_check, Hmk, Hset, Hann.
  run_start Hnone. rewrite Hex. run_start Hnone. rewrite Hfind.
  rewrite bool_decide_eq_false_2 by exact Hsel. run_start Hnone.
  destruct (existsb (named (CephRBDMirror.Name cephRBDMirror)) (deployments s)) eqn:Hm.
  - run_start Hnone. split; [discriminate|]. split.
    + intros _ Hneq.
      assert (Hlive : In live (List.filter
                                 (fun x => negb (named (CephRBDMirror.Name cephRBDMirror) x))
                                 (deployments s))).
      { apply filter_In. split; [exact Hin|]. unfold named in *.
        apply String.eqb_eq in Hnamed. rewrite Hnamed.
        destruct (String.eqb_spec (Deployment.Name d) (CephRBDMirror.Name cephRBDMirror));
          [congruence|reflexivity]. }
      assert (existsb (named (Deployment.Name d))
                (List.filter (fun x => negb (named (CephRBDMirror.Name cephRBDMirror) x))
                   (deployments s)) = true) as ->.
      { apply existsb_exists. eauto. }
      run_start Hnone. split; [reflexivity|]. split; [reflexivity|exact Hlive].
    + intros Heq Hnd. rewrite Heq.
      assert (existsb (named (Deployment.Name d))
                (List.filter (fun x => negb (named (Deployment.Name d) x))
                   (deployments s)) = false) as ->.
      { apply not_true_is_false. intros Hsome.
        apply existsb_exists in Hsome as (x & Hx & Hn).
        apply filter_In in Hx as [_ Hx]. now rewrite Hn in Hx. }
      run_start Hnone.
      match goal with
      | |- context [removeExtraMirrors fault cephRBDMirror ?s1] =>
        destruct (removeExtraMirrors_no_fault cephRBDMirror s1 Hnone) as [Hnil Hdeps];
        [|destruct (removeExtraMirrors fault cephRBDMirror s1) as [err s2]]
      end.
      * cbn [deployments record with_deployments with_keys]. rewrite map_app.
        cbn [map]. apply List.NoDup_app.
        -- now apply NoDup_names_filter.
        -- apply List.NoDup_cons; [intros []|apply List.NoDup_nil].
        -- intros n Hn [<-|[]]. apply in_map_iff in Hn as (x & Hx & Hxin).
           apply filter_In in Hxin as [_ Hxn]. unfold named in Hxn.
           rewrite Hx, String.eqb_refl in Hxn. discriminate.
      * cbn [fst snd deployments] in *. subst err. split; [reflexivity|exact Hdeps].
  - run_start Hnone. split; [now split|]. split; [discriminate|].
    intros Heq _. rewrite Heq, Hex in Hm. discriminate.
Qed.

End RbdRunsTheorems.

Section RbdRunsExamples.
Import Rbd RbdProps RbdRuns Sample Scenario.

(** X13 with helpers whose owner reference is nil without an error:
    [start] returns nil and has done nothing. *)
Lemma X13_start_without_owner_reference_witness :
  @start unownedHelpers noFault reconciler (mirror "my-rbd-mirror" ∅) threeMirrors
  = (None, threeMirrors).
Proof.
  apply (@X13_start_without_owner_reference unownedHelpers noFault reconciler
           (mirror "my-rbd-mirror" ∅) threeMirrors None None).
  - vm_compute. reflexivity.
  - reflexivity.
  - right. reflexivity.
Defined.

(** With the sample helpers [start] passes its checks and applies
    [desired]. *)
Lemma desired_prepared : @prepared rbdHelpers reconciler (mirror "my-rbd-mirror" ∅) desired.
Proof.
  split; [vm_compute; reflexivity|]. split; [eexists; reflexivity|].
  exists desired, desired. split; [|split; reflexivity].
  vm_compute. reflexivity.
Defined.

(** X16 on three mirrors: [b] and [c] go, and a second [start] changes
    nothing. *)
Lemma X16_start_reconciles_witness :
  let m := mirror "my-rbd-mirror" ∅ in
  let s' := snd (@start rbdHelpers noFault reconciler m threeMirrors) in
  fst (@start rbdHelpers noFault reconciler m threeMirrors) = None
  /\ names s' = ["rook-ceph-rbd-mirror-a"]
  /\ names (snd (@start rbdHelpers noFault reconciler m s')) = names s'.
Proof.
  cbv zeta.
  destruct (@X16_start_reconciles rbdHelpers noFault reconciler (mirror "my-rbd-mirror" ∅)
              threeMirrors desired (fun _ _ => eq_refl) desired_prepared)
    as (Hnil & Hdeps & Hagain).
  { repeat constructor; cbn; intuition discriminate. }
  { intros live [<-|[<-|[<-|[]]]] Hnamed; [reflexivity|discriminate|discriminate]. }
  split; [exact Hnil|]. split.
  - unfold names. rewrite Hdeps. vm_compute. reflexivity.
  - unfold names. now rewrite (proj2 (Hagain eq_refl)).
Defined.

(** X17 on the outdated deployment, the mirror resource being named
    otherwise. *)
Lemma X17_fallback_goes_by_the_mirror_name_witness :
  let s := live [outdated] ["client.rbd-mirror.a"] in
  let result := @start rbdHelpers noFault reconciler (mirror "my-rbd-mirror" ∅) s in
  fst result
  = Some (Wrap (NotFound "my-rbd-mirror")
            "failed to delete rbd-mirror %q during del-and-recreate update attempt")
  /\ deployments (snd result) = [outdated].
Proof.
  cbv zeta.
  destruct (@X17_fallback_goes_by_the_mirror_name rbdHelpers noFault reconciler
              (mirror "my-rbd-mirror" ∅) (live [outdated] ["client.rbd-mirror.a"])
              desired outdated (fun _ _ => eq_refl) desired_prepared eq_refl)
    as (Habsent & _).
  { intros Heq. apply (f_equal (fun sel => sel !! "rbd-mirror")) in Heq.
    vm_compute in Heq. discriminate. }
  apply Habsent. reflexivity.
Defined.
End RbdRunsExamples.
